(** * hb-velux-tools: the KLF 200 protocol engine, embedded in Rocq

    A shallow embedding of the JavaScript sources of hb-velux-tools:
    - [lib/slip.js]: SLIP framing ([Slip]);
    - [lib/VeluxApi.js]: the command registry with its payload encoders and
      decoders ([Api]);
    - [lib/VeluxClient.js]: the request pipeline and the dispatcher
      ([Client]);
    - the client of [src/lib/VeluxClient.js], which sends raw payloads and
      has a [gw...] method for each request ([VeluxClient]).

    Conventions.  A [Buffer] is a [list Z] of bytes; [buf[i]] is the list
    lookup [buf !! i] ([None] is JavaScript's [undefined]) and the assignment
    [buf[i] = v] is the list update [<[i:=v]> buf], which like a typed array
    ignores an index out of range.  A JavaScript exception is the [Throw]
    case of the [except] monad. *)

From Stdlib Require Import ZArith Lia String Ascii.
From stdpp Require Import gmap strings list pretty.

Open Scope Z_scope.
#[local] Set Warnings "-register-all".

(** ** Exceptions *)

Inductive exn : Type :=
| Error (message : string)
| SyntaxError (message : string)
| RangeError (message : string)
| TypeError (message : string)
| UserInputError (message : string).

Definition message_of (e : exn) : string :=
  match e with
  | Error m | SyntaxError m | RangeError m | TypeError m
  | UserInputError m => m
  end.

Inductive except (A : Type) : Type :=
| Ok (a : A)
| Throw (e : exn).
Arguments Ok {A} a.
Arguments Throw {A} e.

#[global] Instance except_ret : MRet except := fun A a => Ok a.
#[global] Instance except_bind : MBind except := fun A B k m =>
  match m with
  | Ok a => k a
  | Throw e => Throw e
  end.

(** ** Buffers *)

Module Buffer.

Abbreviation t := (list Z).

(** A well-formed buffer holds bytes. *)
Definition wf (buf : t) : Prop := Forall (fun b => 0 <= b < 256) buf.

(** [Buffer.alloc(n)]: zero-filled. *)
Definition alloc (n : nat) : t := repeat 0 n.

(** [Buffer.allocUnsafe(n)]: [n] bytes of whatever the allocator's pool
    held before; [pool] is that earlier content. *)
Definition allocUnsafe (pool : nat -> Z) (n : nat) : t := map pool (seq 0 n).

(** [buf.subarray(start, end)] for in-range non-negative indices. *)
Definition subarray (buf : t) (start stop : nat) : t :=
  take (stop - start) (drop start buf).

(** [src.copy(dst, off)]: writes as much of [src] as fits. *)
Fixpoint copy (src dst : t) (off : nat) : t :=
  match src with
  | [] => dst
  | b :: src' => copy src' (<[off := b]> dst) (S off)
  end.

(** [buf.readUInt8(off)]: a [RangeError] outside the buffer. *)
Definition readUInt8 (buf : t) (off : nat) : except Z :=
  match buf !! off with
  | Some b => Ok b
  | None => Throw (RangeError "ERR_OUT_OF_RANGE")
  end.

(** [buf.readUInt16BE(off)]: both bytes must lie inside the buffer. *)
Definition readUInt16BE (buf : t) (off : nat) : except Z :=
  match buf !! off, buf !! S off with
  | Some first, Some last => Ok (first * 2 ^ 8 + last)
  | _, _ => Throw (RangeError "ERR_OUT_OF_RANGE")
  end.

(** [buf.writeUInt8(v, off)]: the value must be a byte and the offset
    inside the buffer. *)
Definition writeUInt8 (buf : t) (v : Z) (off : nat) : except t :=
  if bool_decide (0 <= v <= 255) && bool_decide (off < length buf)%nat
  then Ok (<[off := v]> buf)
  else Throw (RangeError "ERR_OUT_OF_RANGE").

(** [buf.writeUInt16BE(v, off)]. *)
Definition writeUInt16BE (buf : t) (v : Z) (off : nat) : except t :=
  if bool_decide (0 <= v <= 65535) && bool_decide (S off < length buf)%nat
  then Ok (<[S off := Z.land v 255]> (<[off := Z.shiftr v 8]> buf))
  else Throw (RangeError "ERR_OUT_OF_RANGE").

(** The UTF-8 encoding of one character (U+0000 to U+00FF). *)
Definition utf8 (c : ascii) : list Z :=
  let n := Z.of_nat (nat_of_ascii c) in
  if n <? 128 then [n]
  else [Z.lor 0xC0 (Z.shiftr n 6); Z.lor 0x80 (Z.land n 0x3F)].

Definition utf8_string (s : string) : list Z :=
  flat_map utf8 (list_ascii_of_string s).

(** [buf.write(string, off)]: UTF-8, whole characters only, as many as
    fit. *)
Fixpoint write (buf : t) (s : string) (off : nat) : t :=
  match s with
  | EmptyString => buf
  | String c s' =>
    let bytes := utf8 c in
    if bool_decide (off + length bytes <= length buf)%nat
    then write (copy bytes buf off) s' (off + length bytes)
    else buf
  end.

(** [checksum ^= buf[i]] over a run of bytes, from [checksum = 0]. *)
Definition xor_all (bytes : t) : Z := fold_left Z.lxor bytes 0.

(** [buf.readUInt32BE(off)]: all four bytes must lie inside the buffer. *)
Definition readUInt32BE (buf : t) (off : nat) : except Z :=
  match buf !! off, buf !! S off, buf !! S (S off), buf !! S (S (S off)) with
  | Some first, Some second, Some third, Some last =>
    Ok (first * 2 ^ 24 + second * 2 ^ 16 + third * 2 ^ 8 + last)
  | _, _, _, _ => Throw (RangeError "ERR_OUT_OF_RANGE")
  end.

(** The first index at or after [i] of a byte [v], [i] being the index of
    the head of [buf]. *)
Fixpoint index_from (buf : t) (v : Z) (i : nat) : option nat :=
  match buf with
  | [] => None
  | b :: rest => if b =? v then Some i else index_from rest v (S i)
  end.

(** [buf.indexOf(v, byteOffset)] for a byte [v]: [-1] when there is
    none. *)
Definition indexOf (buf : t) (v : Z) (byteOffset : nat) : Z :=
  match index_from (drop byteOffset buf) v byteOffset with
  | Some i => Z.of_nat i
  | None => -1
  end.

(** [buf.subarray(start, end)] with an [end] that may be negative: it then
    counts from the end of the buffer. *)
Definition subarray_to (buf : t) (start : nat) (stop : Z) : t :=
  let stop :=
    if stop <? 0 then Z.max 0 (Z.of_nat (length buf) + stop) else stop in
  subarray buf start (Z.to_nat stop).

End Buffer.

(** ** lib/slip.js *)

Module Slip.

Definition END : Z := 0xC0.
Definition ESC : Z := 0xDB.
Definition ESC_END : Z := 0xDC.
Definition ESC_ESC : Z := 0xDD.

(** The loop of [encode]: [for (let i = 0; i < len; i++, o++)].  Each pass
    advances [i] by one, so [fuel = len] passes suffice. *)
Fixpoint encode_loop (fuel : nat) (buf out : Buffer.t) (i o : nat)
  : Buffer.t * nat :=
  match fuel with
  | O => (out, o)
  | S fuel' =>
    match buf !! i with
    | None => (out, o)                       (* i < len fails *)
    | Some b =>
      if b =? END then
        let out := <[o := ESC]> out in
        let o := S o in
        let out := <[o := ESC_END]> out in
        encode_loop fuel' buf out (S i) (S o)
      else if b =? ESC then
        let out := <[o := ESC]> out in
        let o := S o in
        let out := <[o := ESC_ESC]> out in
        encode_loop fuel' buf out (S i) (S o)
      else
        let out := <[o := b]> out in
        encode_loop fuel' buf out (S i) (S o)
    end
  end.

Definition encode (buf : Buffer.t) : Buffer.t :=
  let len := length buf in
  let out := Buffer.alloc (len * 2 + 2) in
  let out := <[0%nat := END]> out in
  let '(out, o) := encode_loop len buf out 0 1 in
  let out := <[o := END]> out in
  let o := S o in
  Buffer.subarray out 0 o.

(** The loop of [decode]: [for (let i = 1; i < len - 1; i++, o++)].  The
    state is the input [buf] (the loop assigns to it), the output [out]
    and the two indices.  Each pass advances [i], so [fuel = len] passes
    suffice. *)
Fixpoint decode_loop (fuel : nat) (buf out : Buffer.t) (i o : nat)
  : except (Buffer.t * Buffer.t * nat) :=
  match fuel with
  | O => Ok (buf, out, o)
  | S fuel' =>
    if bool_decide (i < length buf - 1)%nat then
      match buf !! i with
      | None => Ok (buf, out, o)
      | Some b =>
        if b =? END then Throw (Error "invalid END in slip frame")
        else if b =? ESC then
          let i := S i in                                (* buf[++i] *)
          match buf !! i with
          | Some b' =>
            if b' =? ESC_END then
              let buf := <[o := END]> buf in             (* buf[o] = slip.END *)
              decode_loop fuel' buf out (S i) (S o)
            else if b' =? ESC_ESC then
              let buf := <[o := ESC]> buf in             (* buf[o] = slip.ESC *)
              decode_loop fuel' buf out (S i) (S o)
            else Throw (Error "invalid ESC in slip frame")
          | None => Throw (Error "invalid ESC in slip frame")
          end
        else
          let out := <[o := b]> out in                   (* out[o] = buf[i] *)
          decode_loop fuel' buf out (S i) (S o)
      end
    else Ok (buf, out, o)
  end.

(** [decode] with everything it leaves behind: the returned buffer and the
    caller's [buf] after the call. *)
Definition decode_run (pool : nat -> Z) (buf : Buffer.t)
  : except (Buffer.t * Buffer.t) :=
  let len := length buf in
  if bool_decide (len < 2)%nat
     || negb (bool_decide (buf !! 0%nat = Some END))
     || negb (bool_decide (buf !! (len - 1)%nat = Some END))
  then Throw (Error "invalid slip frame")
  else
    let out := Buffer.allocUnsafe pool (len - 2) in
    '(buf, out, o) ← decode_loop len buf out 1 0;
    Ok (Buffer.subarray out 0 o, buf).

Definition decode (pool : nat -> Z) (buf : Buffer.t) : except Buffer.t :=
  '(out, _) ← decode_run pool buf; Ok out.

(** What [encode] is meant to produce, byte by byte. *)
Definition stuff (b : Z) : list Z :=
  if b =? END then [ESC; ESC_END]
  else if b =? ESC then [ESC; ESC_ESC]
  else [b].

Definition escaped (b : Z) : bool := (b =? END) || (b =? ESC).

(** What [decode] turns out to return for a stuffed byte [b]: the byte
    itself, or, for an escaped one, what the output buffer held before
    ([m]). *)
Definition kept (b m : Z) : Z := if escaped b then m else b.

End Slip.

(** ** JavaScript values *)

(** Payloads, parameters and results are JavaScript values.  Numbers are
    the integers the codecs produce; an object is its list of properties in
    insertion order.  A string is a [string] with one character per
    [ascii], read as the code points U+0000 to U+00FF. *)
Inductive value : Type :=
| VUndefined
| VNum (n : Z)
| VStr (s : string)
| VBool (b : bool)
| VArr (items : list value)
| VObj (fields : list (string * value)).

Module Js.

(** [fields[k]]. *)
Fixpoint lookup (fields : list (string * value)) (k : string) : value :=
  match fields with
  | [] => VUndefined
  | (k', v) :: rest => if String.eqb k' k then v else lookup rest k
  end.

(** [o.k], or [o?.k] when [o] is undefined; [undefined] on a primitive. *)
Definition get (o : value) (k : string) : value :=
  match o with
  | VObj fields => lookup fields k
  | _ => VUndefined
  end.

(** [fields[k] = v]: an existing property keeps its place. *)
Fixpoint assign (fields : list (string * value)) (k : string) (v : value)
  : list (string * value) :=
  match fields with
  | [] => [(k, v)]
  | (k', v') :: rest =>
    if String.eqb k' k then (k, v) :: rest else (k', v') :: assign rest k v
  end.

(** [o.k = v] on an object; a [TypeError] on [undefined] and, the
    modules being strict code, on a primitive. *)
Definition set (o : value) (k : string) (v : value) : except value :=
  match o with
  | VObj fields => Ok (VObj (assign fields k v))
  | _ => Throw (TypeError "Cannot set properties")
  end.

(** [delete o.k]. *)
Definition delete (o : value) (k : string) : value :=
  match o with
  | VObj fields =>
    VObj (filter (fun kv => negb (String.eqb (fst kv) k)) fields)
  | other => other
  end.

(** [v != null]. *)
Definition not_null (v : value) : bool :=
  match v with
  | VUndefined => false
  | _ => true
  end.

(** [name.endsWith(suffix)]. *)
Definition endsWith (name suffix : string) : bool :=
  let n := String.length name in
  let k := String.length suffix in
  (k <=? n)%nat && String.eqb (substring (n - k) k name) suffix.

(** [Math.round(a / b)] for integers [a] and [b > 0]: the nearest
    integer, a half rounding up.  For [b = 0x0200] the quotient is exact
    in binary floating point; for [b = 10] and [|a| < 2^16] the rounded
    quotient lies on the same side of every half-integer as [a / 10]. *)
Definition round_div (a b : Z) : Z := (2 * a + b) / (2 * b).

(** [String(v)], as in ['s' + v] and in a property key. *)
Fixpoint to_string (v : value) : string :=
  match v with
  | VUndefined => "undefined"
  | VNum n => pretty n
  | VStr s => s
  | VBool b => if b then "true" else "false"
  | VArr items =>
    String.concat ","
      (map (fun item => match item with
                        | VUndefined => ""
                        | _ => to_string item
                        end) items)
  | VObj _ => "[object Object]"
  end.

(** JavaScript numbers that are not integers only ever show up as [NaN]
    here. *)
Inductive number : Type :=
| Num (z : Z)
| NaN.

(** [ToInt32]: the bitwise operators work on 32-bit two's-complement
    integers. *)
Definition to_int32 (n : Z) : Z := (n + 2 ^ 31) mod 2 ^ 32 - 2 ^ 31.

(** [a & b] *)
Definition band (a b : Z) : Z := Z.land (to_int32 a) (to_int32 b).

(** [a >> k], the sign-propagating shift. *)
Definition shr (a k : Z) : Z := Z.shiftr (to_int32 a) (k mod 32).

End Js.

(** ** The helpers imported from hb-lib-tools

    [toHexString] and the validators of [OptionParser] live in another
    package; the codecs are stated over any implementation of them. *)
Record hb_lib_tools : Type := {
  toHexString : Z -> nat -> string;
  (** [OptionParser.toObject(key, value, userInput)] *)
  toObject : string -> value -> bool -> except value;
  (** [OptionParser.toString(key, value, nonEmpty, userInput)] *)
  toString : string -> value -> bool -> bool -> except value;
  (** [OptionParser.toNumber(key, value, min, max, userInput)] *)
  toNumber : string -> value -> option Z -> option Z -> bool -> except value;
  (** [OptionParser.toArray(key, value, userInput)] *)
  toArray : string -> value -> bool -> except value
}.

(** A reference implementation, used to run the codecs on examples:
    upper-case hexadecimal padded with zeros, and validators that return
    the value they accept. *)
Module RefLib.

Definition hex_digit (d : Z) : ascii :=
  nth (Z.to_nat d) (list_ascii_of_string "0123456789ABCDEF") "0"%char.

Fixpoint hex_digits (width : nat) (n : Z) (acc : string) : string :=
  match width with
  | O => acc
  | S w => hex_digits w (n / 16) (String (hex_digit (n mod 16)) acc)
  end.

Definition toHexString (n : Z) (width : nat) : string :=
  hex_digits width n "".

Definition toObject (key : string) (v : value) (userInput : bool)
  : except value :=
  match v with
  | VObj _ => Ok v
  | _ => Throw (TypeError (key +:+ ": not an object"))
  end.

Definition toString (key : string) (v : value) (nonEmpty userInput : bool)
  : except value :=
  match v with
  | VStr s =>
    if nonEmpty && String.eqb s ""
    then Throw (RangeError (key +:+ ": invalid empty string"))
    else Ok v
  | _ => Throw (TypeError (key +:+ ": not a string"))
  end.

Definition toNumber (key : string) (v : value) (min max : option Z)
    (userInput : bool) : except value :=
  match v with
  | VNum n =>
    if from_option (fun lo => lo <=? n) true min
       && from_option (fun hi => n <=? hi) true max
    then Ok v
    else Throw (RangeError (key +:+ ": out of range"))
  | _ => Throw (TypeError (key +:+ ": not a number"))
  end.

Definition toArray (key : string) (v : value) (userInput : bool)
  : except value :=
  match v with
  | VArr _ => Ok v
  | VUndefined => Ok (VArr [])
  | other => Ok (VArr [other])
  end.

Definition lib : hb_lib_tools :=
  Build_hb_lib_tools toHexString toObject toString toNumber toArray.

(** A decoder for [buf.toString()], exact on ASCII, to run the decoders on
    examples. *)
Definition utf8_decode (bytes : list Z) : string :=
  string_of_list_ascii
    (map (fun b => if b <? 128 then ascii_of_nat (Z.to_nat b) else "?"%char)
         bytes).

End RefLib.

(** ** lib/VeluxApi.js *)

Module Api.

(** What a decoder sees of the session it is handed: [session.result],
    and whether [session.emit('done')] has been called. *)
Record session_view : Type := {
  sv_result : value;
  sv_done : bool
}.

(** A decoder runs on the payload bytes and the session ([None] when the
    dispatcher found none); it returns or throws, and leaves the session
    as it changed it. *)
Definition decoder : Type :=
  Buffer.t -> option session_view -> except value * option session_view.

(** An encoder returns the payload and leaves [params] as it changed
    them. *)
Definition encoder : Type :=
  value -> bool -> except (Buffer.t * value).

Record command : Type := {
  id : Z;
  req : option Z;
  ntf : bool;
  session : bool;
  sessionDone : bool;
  encode : option encoder;
  decode : option decoder
}.

(** The validators accept what they are there to accept: an object, and
    a string that is not empty. *)
Definition validators_accept (lib : hb_lib_tools) : Prop :=
  (forall key fields userInput,
      exists v, toObject lib key (VObj fields) userInput = Ok v)
  /\ (forall key s nonEmpty userInput,
        s <> EmptyString ->
        exists v, toString lib key (VStr s) nonEmpty userInput = Ok v).

(** A decoder that leaves the session alone. *)
Definition pure_decoder (f : Buffer.t -> except value) : decoder :=
  fun data s => (f data, s).

(** [session.result.push(entry)] *)
Definition session_push (s : option session_view) (entry : value)
  : except (option session_view) :=
  match s with
  | None => Throw (TypeError "Cannot read properties of undefined")
  | Some sv =>
    match sv_result sv with
    | VArr items =>
      Ok (Some {| sv_result := VArr (items ++ [entry]); sv_done := sv_done sv |})
    | VUndefined => Throw (TypeError "Cannot read properties of undefined")
    | _ => Throw (TypeError "session.result.push is not a function")
    end
  end.

(** [session.emit('done')] *)
Definition session_emit_done (s : option session_view)
  : except (option session_view) :=
  match s with
  | None => Throw (TypeError "Cannot read properties of undefined")
  | Some sv => Ok (Some {| sv_result := sv_result sv; sv_done := true |})
  end.

(** [session.result = v] *)
Definition session_set_result (s : option session_view) (v : value)
  : except (option session_view) :=
  match s with
  | None => Throw (TypeError "Cannot set properties of undefined")
  | Some sv => Ok (Some {| sv_result := v; sv_done := sv_done sv |})
  end.

Definition checkData (data : Buffer.t) (length : Z) : except unit :=
  if Z.of_nat (List.length data) =? length then Ok tt
  else Throw (Error (pretty (Z.of_nat (List.length data))
                     +:+ ": invalid data length (expected "
                     +:+ pretty length +:+ ")")).

(** *** Positions *)

(** The values [decodePosition] returns and [encodePosition] accepts: a
    number, or one of the strings ['target'], ['current'], ['default'],
    ['ignore'], ['unknown'] and ['relative ' + n]. *)
Inductive Position : Type :=
| Percent (p : Z)
| Relative (n : Z)
| Target
| Current
| Default
| Ignore
| Unknown.

Definition position_value (p : Position) : value :=
  match p with
  | Percent p => VNum p
  | Relative n => VStr ("relative " +:+ pretty n)
  | Target => VStr "target"
  | Current => VStr "current"
  | Default => VStr "default"
  | Ignore => VStr "ignore"
  | Unknown => VStr "unknown"
  end.

Definition decodePosition (position : Z) : Position :=
  if position =? 0xD100 then Target
  else if position =? 0xD200 then Current
  else if position =? 0xD300 then Default
  else if position =? 0xD400 then Ignore
  else if position =? 0xF7FF then Unknown
  else if position <=? 0xC800 then Percent (Js.round_div position 0x0200)
  else Relative (Js.round_div (position - 0xC800) 10 - 100).

(** The [default:] branch multiplies; a string that is not a number
    multiplies to [NaN]. *)
Definition encodePosition (position : Position) : Js.number :=
  match position with
  | Target => Js.Num 0xD100
  | Current => Js.Num 0xD200
  | Default => Js.Num 0xD300
  | Ignore => Js.Num 0xD400
  | Percent p => Js.Num (p * 0x0200)
  | Relative _ | Unknown => Js.NaN
  end.

Definition decodePowerState (powerState : Z) : value :=
  VObj [ ("powerSaveMode", VNum (Z.land powerState 0x03));
         ("ioMembership", VNum (Z.shiftr (Z.land powerState 0x04) 2));
         ("rfSupport", VNum (Z.shiftr (Z.land powerState 0x08) 3));
         ("turnaroundTime", VNum (Z.shiftr (Z.land powerState 0xC0) 6)) ].

(** [s.replace(/./g, '*')]: [.] matches every character but a line
    terminator. *)
Definition line_terminator (c : ascii) : bool :=
  Ascii.eqb c "010" || Ascii.eqb c "013".

Fixpoint replace_dot_star (s : string) : string :=
  match s with
  | EmptyString => EmptyString
  | String c s' =>
    String (if line_terminator c then c else "*"%char) (replace_dot_star s')
  end.

(** [n] asterisks. *)
Fixpoint stars (n : nat) : string :=
  match n with
  | O => EmptyString
  | S n' => String "*" (stars n')
  end.

Fixpoint has_line_terminator (s : string) : bool :=
  match s with
  | EmptyString => false
  | String c s' => line_terminator c || has_line_terminator s'
  end.

(** [for (let i = start; i < stop; i++) sw.push(data.readUInt8(i))] *)
Fixpoint read_bytes (data : Buffer.t) (start count : nat) : except (list Z) :=
  match count with
  | O => Ok []
  | S count' =>
    b ← Buffer.readUInt8 data start;
    rest ← read_bytes data (S start) count';
    Ok (b :: rest)
  end.

(** [sw.join('.')] *)
Definition join_dot (sw : list Z) : string :=
  String.concat "." (map pretty sw).

Section WithLib.

Variable lib : hb_lib_tools.

Definition decodeActuatorType (actuatorType : Z) : string :=
  match actuatorType with
  | 0x0040 => "Interior Venetian Blind"
  | 0x0080 => "Roller Shutter"
  | 0x0081 => "Roller Shutter with Adjustable Slats"
  | 0x0082 => "Roller Shutter with Projection"
  | 0x00C0 => "Vertical Exterior Awning"
  | 0x0100 => "Window Opener"
  | 0x0101 => "Window Opener with Rain Sensor"
  | 0x0140 => "Garage Door Opener"
  | 0x017A => "Garage Door Opener"
  | 0x0180 => "Light"
  | 0x01BA => "On/Off Light"
  | 0x01C0 => "Gate Opener"
  | 0x01FA => "Gate Opener"
  | 0x0240 => "Door Lock"
  | 0x0241 => "Window Lock"
  | 0x0280 => "Vertical Interior Blinds"
  | 0x0340 => "Dual Roller Shutter"
  | 0x03C0 => "On/Off Switch"
  | 0x0400 => "Horizontal Awning"
  | 0x0440 => "Exterior Venetian Blind"
  | 0x0480 => "Louver Blind"
  | 0x04C0 => "Curtain Track"
  | 0x0500 => "Ventilation Point"
  | 0x0501 => "Air Inlet"
  | 0x0502 => "Air Transfer"
  | 0x0503 => "Air Outlet"
  | 0x0540 => "Exterior Heating"
  | 0x057A => "Exterior Heating"
  | 0x0600 => "Swinging Shutters"
  | 0x0601 => "Swinging Shutter"
  | _ => "0x" +:+ toHexString lib actuatorType 4
  end.

Definition decodeManufacturerId (manufacturerId : Z) : string :=
  match manufacturerId with
  | 1 => "VELUX"
  | 2 => "Somfy"
  | 3 => "Honeywell"
  | 4 => String "H" (String (ascii_of_nat 246) "rmann")
  | 5 => "ASSA ABLOY"
  | 6 => "Niko"
  | 7 => "WINDOW MASTER"
  | 8 => "Renson"
  | 9 => "CIAT"
  | 10 => "Secuyou"
  | 11 => "OVERKIZ"
  | 12 => "Atlantic Group"
  | _ => "0x" +:+ toHexString lib manufacturerId 2
  end.

(** [decodeStatus(data, message)] *)
Definition decodeStatus (data : Buffer.t) (message : string) : except value :=
  _ ← checkData data 1;
  status ← Buffer.readUInt8 data 0;
  if status =? 0 then Ok VUndefined else Throw (Error message).

(** [decodeSessionStatus(data)] *)
Definition decodeSessionStatus (data : Buffer.t) : except value :=
  _ ← checkData data 3;
  sessionId ← Buffer.readUInt16BE data 0;
  status ← Buffer.readUInt8 data 2;
  if status =? 0 then Throw (Error "request failed")
  else Ok (VObj [("sessionId", VNum sessionId)]).

(** *** 5. Authentication *)

Definition GW_PASSWORD_ENTER_REQ_encode : encoder := fun params userInput =>
  _ ← toObject lib "params" params userInput;
  _ ← toString lib "params.password" (Js.get params "password") true userInput;
  (* Buffer.allocUnsafe(32).fill(0): every byte is overwritten *)
  let data := Buffer.alloc 32 in
  match Js.get params "password" with
  | VStr password =>
    let data := Buffer.write data password 0 in
    params ← Js.set params "password" (VStr (replace_dot_star password));
    Ok (data, params)
  | _ => Throw (TypeError "The string argument must be of type string")
  end.

Definition GW_PASSWORD_ENTER_REQ : command :=
  {| id := 0x3000; req := None; ntf := false; session := false;
     sessionDone := false;
     encode := Some GW_PASSWORD_ENTER_REQ_encode; decode := None |}.

Definition GW_PASSWORD_ENTER_CFM : command :=
  {| id := 0x3001; req := Some 0x3000; ntf := false; session := false;
     sessionDone := false; encode := None;
     decode := Some (pure_decoder
                       (fun data => decodeStatus data "invalid password")) |}.

(** *** 6. General commands *)

Definition GW_GET_VERSION_REQ : command :=
  {| id := 0x0008; req := None; ntf := false; session := false;
     sessionDone := false; encode := None; decode := None |}.

Definition GW_GET_VERSION_CFM_decode (data : Buffer.t) : except value :=
  _ ← checkData data 9;
  sw ← read_bytes data 1 4;          (* for (let i = 1; i < 5; i++) *)
  hardwareVersion ← Buffer.readUInt8 data 6;
  productGroup ← Buffer.readUInt8 data 7;
  productType ← Buffer.readUInt8 data 8;
  Ok (VObj [ ("softwareVersion", VStr (join_dot sw));
             ("hardwareVersion", VNum hardwareVersion);
             ("productGroup", VNum productGroup);
             ("productType", VNum productType) ]).

(** The software version as the specification words it: bytes 0 to 5,
    six components. *)
Definition spec_softwareVersion (data : Buffer.t) : string :=
  join_dot (take 6 data).

Definition GW_GET_VERSION_CFM : command :=
  {| id := 0x0009; req := Some 0x0008; ntf := false; session := false;
     sessionDone := false; encode := None;
     decode := Some (pure_decoder GW_GET_VERSION_CFM_decode) |}.

Definition GW_ERROR_NTF_decode (data : Buffer.t) : except value :=
  _ ← checkData data 1;
  error ← Buffer.readUInt8 data 0;
  Throw (Error (match error with
                | 0 => "generic error"
                | 1 => "invalid command"
                | 2 => "invalid frame"
                | 7 => "busy - try again later"
                | 8 => "invalid node"
                | 12 => "not authenticated"
                | _ => "error " +:+ pretty error
                end)).

Definition GW_ERROR_NTF : command :=
  {| id := 0x0000; req := None; ntf := false; session := false;
     sessionDone := false; encode := None;
     decode := Some (pure_decoder GW_ERROR_NTF_decode) |}.

(** *** 7. Configuration service *)

Definition GW_CS_GET_SYSTEMTABLE_DATA_REQ : command :=
  {| id := 0x0100; req := None; ntf := true; session := false;
     sessionDone := false; encode := None; decode := None |}.

Definition GW_CS_GET_SYSTEMTABLE_DATA_CFM : command :=
  {| id := 0x0101; req := Some 0x0100; ntf := false; session := false;
     sessionDone := false; encode := None; decode := None |}.

(** The object literal of one entry, with [entry.model] added. *)
Definition systemtable_entry (data : Buffer.t) (i : nat) : except value :=
  nodeId ← Buffer.readUInt8 data (11 * i + 1);
  actuatorType ← Buffer.readUInt16BE data (11 * 1 + 5);
  powerState ← Buffer.readUInt8 data (11 * i + 7);
  manufacturerId ← Buffer.readUInt8 data (11 * i + 8);
  Ok (VObj [ ("nodeId", VNum nodeId);
             ("actuatorType", VNum actuatorType);
             ("powerState", decodePowerState powerState);
             ("manufacturer", VStr (decodeManufacturerId manufacturerId));
             ("model", VStr (decodeActuatorType actuatorType)) ]).

(** [for (let i = 0; i < nEntries; i++)]; [count] passes remain. *)
Fixpoint systemtable_loop (data : Buffer.t) (count i : nat)
    (result : list value) (s : option session_view)
  : except (list value) * option session_view :=
  match count with
  | O => (Ok result, s)
  | S count' =>
    match systemtable_entry data i with
    | Throw e => (Throw e, s)
    | Ok entry =>
      let result := result ++ [entry] in          (* result.push(entry) *)
      match session_push s entry with             (* session.result.push(entry) *)
      | Throw e => (Throw e, s)
      | Ok s => systemtable_loop data count' (S i) result s
      end
    end
  end.

Definition GW_CS_GET_SYSTEMTABLE_DATA_NTF_decode : decoder := fun data s =>
  match Buffer.readUInt8 data 0 with
  | Throw e => (Throw e, s)
  | Ok nEntries =>
    match checkData data (2 + nEntries * 11) with
    | Throw e => (Throw e, s)
    | Ok _ =>
      match systemtable_loop data (Z.to_nat nEntries) 0 [] s with
      | (Throw e, s) => (Throw e, s)
      | (Ok result, s) =>
        match Buffer.readUInt8 data (Z.to_nat nEntries * 11 + 1) with
        | Throw e => (Throw e, s)
        | Ok remaining =>
          if remaining =? 0 then              (* remainingNEntries *)
            match session_emit_done s with
            | Throw e => (Throw e, s)
            | Ok s => (Ok (VArr result), s)
            end
          else (Ok (VArr result), s)
        end
      end
    end
  end.

Definition GW_CS_GET_SYSTEMTABLE_DATA_NTF : command :=
  {| id := 0x0102; req := Some 0x0100; ntf := false; session := false;
     sessionDone := false; encode := None;
     decode := Some GW_CS_GET_SYSTEMTABLE_DATA_NTF_decode |}.

(** *** 10. Command handler, 11. Scenes *)

Definition GW_SESSION_FINISHED_NTF_decode (data : Buffer.t) : except value :=
  _ ← checkData data 2;
  sessionId ← Buffer.readUInt16BE data 0;
  Ok (VObj [("sessionId", VNum sessionId)]).

Definition GW_SESSION_FINISHED_NTF : command :=
  {| id := 0x0304; req := None; ntf := false; session := false;
     sessionDone := true; encode := None;
     decode := Some (pure_decoder GW_SESSION_FINISHED_NTF_decode) |}.

Definition GW_ACTIVATE_SCENE_REQ : command :=
  {| id := 0x0412; req := None; ntf := false; session := true;
     sessionDone := false; encode := None; decode := None |}.

Definition GW_ACTIVATE_SCENE_CFM : command :=
  {| id := 0x0413; req := Some 0x0412; ntf := false; session := false;
     sessionDone := false; encode := None; decode := None |}.

(** The entries of [commands] that the properties below exercise, in
    the order of the source. *)
Definition commands : list (string * command) :=
  [ ("GW_PASSWORD_ENTER_REQ", GW_PASSWORD_ENTER_REQ);
    ("GW_PASSWORD_ENTER_CFM", GW_PASSWORD_ENTER_CFM);
    ("GW_GET_VERSION_REQ", GW_GET_VERSION_REQ);
    ("GW_GET_VERSION_CFM", GW_GET_VERSION_CFM);
    ("GW_ERROR_NTF", GW_ERROR_NTF);
    ("GW_CS_GET_SYSTEMTABLE_DATA_REQ", GW_CS_GET_SYSTEMTABLE_DATA_REQ);
    ("GW_CS_GET_SYSTEMTABLE_DATA_CFM", GW_CS_GET_SYSTEMTABLE_DATA_CFM);
    ("GW_CS_GET_SYSTEMTABLE_DATA_NTF", GW_CS_GET_SYSTEMTABLE_DATA_NTF);
    ("GW_SESSION_FINISHED_NTF", GW_SESSION_FINISHED_NTF);
    ("GW_ACTIVATE_SCENE_REQ", GW_ACTIVATE_SCENE_REQ);
    ("GW_ACTIVATE_SCENE_CFM", GW_ACTIVATE_SCENE_CFM) ].

(** *** The rest of the helpers *)

(** [buf.toString()], Node's UTF-8 decoder. *)
Variable utf8_decode : Buffer.t -> string.

Definition decodeRunStatus (runStatus : Z) : string :=
  match runStatus with
  | 0x00 => "completed"
  | 0x01 => "failed"
  | 0x02 => "active"
  | _ => "0x" +:+ toHexString lib runStatus 2
  end.

Definition decodeVelocity (velocity : Z) : string :=
  match velocity with
  | 0 => "default"
  | 1 => "slow"
  | 2 => "fast"
  | 255 => "not supported"
  | _ => "0x" +:+ toHexString lib velocity 2
  end.

(** In ['FP' + parameter``] the two backquotes are an empty template
    literal, which makes [parameter] the tag of a tagged template: the
    number is called as a function. *)
Definition decodeNodeParameter (parameter : Z) : except string :=
  if parameter =? 0x00 then Ok "MP"
  else if parameter <=? 0x10 then
    Throw (TypeError "parameter is not a function")
  else if parameter =? 0xFF then Ok "not used"
  else Ok (toHexString lib parameter 2).

(** [decodeStatusId(data, id)] *)
Definition decodeStatusId (data : Buffer.t) (idKey : string) : except value :=
  _ ← checkData data 2;
  status ← Buffer.readUInt8 data 0;
  if status =? 0 then
    response ← Buffer.readUInt8 data 1;
    Ok (VObj [(idKey, VNum response)])
  else
    Throw (Error (match status with
                  | 1 => "request failed"
                  | 2 => "invalid " +:+ idKey
                  | _ => "status " +:+ pretty status
                  end)).

Definition decodeIpv4 (ipv4 : Z) : string :=
  join_dot [ Js.band (Js.shr (Js.band ipv4 0xFF000000) 24) 0xFF;
             Js.shr (Js.band ipv4 0x00FF0000) 16;
             Js.shr (Js.band ipv4 0x0000FF00) 8;
             Js.band ipv4 0x000000FF ].

(** The loop of [decodeGroupInformation],
    [for (let i = 0; i < 200; i++)], with [fuel] passes to go; [mask] is
    a byte, on which [&] and [>>=] are the operations of [Z]. *)
Fixpoint nodeIds_loop (fuel : nat) (data : Buffer.t) (i : nat) (mask : Z)
    (nodeIds : list Z) : except (list Z) :=
  match fuel with
  | O => Ok nodeIds
  | S fuel' =>
    mask ← (if (i mod 8 =? 0)%nat
            then Buffer.readUInt8 data (72 + i / 8)
            else Ok mask);
    let nodeIds :=
      if Z.land mask 0x01 =? 0 then nodeIds
      else nodeIds ++ [Z.of_nat i] in               (* nodeIds.push(i) *)
    nodeIds_loop fuel' data (S i) (Z.shiftr mask 1) nodeIds
  end.

Definition decodeGroupInformation (data : Buffer.t) : except value :=
  _ ← checkData data 99;
  groupType ← Buffer.readUInt8 data 70;
  nNodes ← Buffer.readUInt8 data 71;
  nodeIds ← (if (groupType =? 0) && (0 <? nNodes)
             then nodeIds_loop 200 data 0 0 []
             else Ok []);
  groupId ← Buffer.readUInt8 data 0;
  order ← Buffer.readUInt16BE data 1;
  placement ← Buffer.readUInt8 data 3;
  let name :=
    utf8_decode (Buffer.subarray_to data 4 (Buffer.indexOf data 0 4)) in
  velocity ← Buffer.readUInt8 data 68;
  nodeVariation ← Buffer.readUInt16BE data 69;
  revision ← Buffer.readUInt16BE data 97;
  Ok (VObj [ ("groupId", VNum groupId);
             ("order", VNum order);
             ("placement", VNum placement);
             ("name", VStr name);
             ("velocity", VStr (decodeVelocity velocity));
             ("nodeVariation", VNum nodeVariation);
             ("groupType", VNum groupType);
             ("nNodes", VNum nNodes);
             ("nodeIds", VArr (map VNum nodeIds));
             ("revision", VNum revision) ]).

(** What [systemtable_entry] returns for record [i] of a payload that is
    long enough: the node id, the power state and the manufacturer of the
    record, and the actuator type read at the bytes 16 and 17. *)
Definition entry_at (data : Buffer.t) (i : nat) : value :=
  let actuatorType := data !!! 16%nat * 2 ^ 8 + data !!! 17%nat in
  VObj [ ("nodeId", VNum (data !!! (11 * i + 1)%nat));
         ("actuatorType", VNum actuatorType);
         ("powerState", decodePowerState (data !!! (11 * i + 7)%nat));
         ("manufacturer",
          VStr (decodeManufacturerId (data !!! (11 * i + 8)%nat)));
         ("model", VStr (decodeActuatorType actuatorType)) ].

(** *** The rest of the modelled registry *)

Definition GW_PASSWORD_CHANGE_REQ_encode : encoder := fun params userInput =>
  _ ← toObject lib "params" params userInput;
  _ ← toString lib "params.oldPassword" (Js.get params "oldPassword") true
        userInput;
  _ ← toString lib "params.newPassword" (Js.get params "newPassword") true
        userInput;
  (* Buffer.allocUnsafe(64).fill(0) *)
  let data := Buffer.alloc 64 in
  match Js.get params "oldPassword" with
  | VStr oldPassword =>
    let data := Buffer.write data oldPassword 0 in
    params ← Js.set params "oldPassword"
               (VStr (replace_dot_star oldPassword));
    match Js.get params "newPassword" with
    | VStr newPassword =>
      let data := Buffer.write data newPassword 32 in
      params ← Js.set params "newPassword"
                 (VStr (replace_dot_star newPassword));
      Ok (data, params)
    | _ => Throw (TypeError "The string argument must be of type string")
    end
  | _ => Throw (TypeError "The string argument must be of type string")
  end.

Definition GW_PASSWORD_CHANGE_REQ : command :=
  {| id := 0x3002; req := None; ntf := true; session := false;
     sessionDone := false;
     encode := Some GW_PASSWORD_CHANGE_REQ_encode; decode := None |}.

Definition GW_PASSWORD_CHANGE_CFM_decode (data : Buffer.t) : except value :=
  _ ← checkData data 1;
  status ← Buffer.readUInt8 data 0;
  if status =? 0 then Ok VUndefined else Throw (Error "invalid password").

Definition GW_PASSWORD_CHANGE_CFM : command :=
  {| id := 0x3003; req := Some 0x3002; ntf := false; session := false;
     sessionDone := false; encode := None;
     decode := Some (pure_decoder GW_PASSWORD_CHANGE_CFM_decode) |}.

Definition GW_GET_PROTOCOL_VERSION_REQ : command :=
  {| id := 0x000A; req := None; ntf := false; session := false;
     sessionDone := false; encode := None; decode := None |}.

Definition GW_GET_PROTOCOL_VERSION_CFM_decode (data : Buffer.t)
  : except value :=
  _ ← checkData data 4;
  major ← Buffer.readUInt16BE data 0;
  minor ← Buffer.readUInt16BE data 2;
  Ok (VObj [("api", VStr (pretty major +:+ "." +:+ pretty minor))]).

Definition GW_GET_PROTOCOL_VERSION_CFM : command :=
  {| id := 0x000B; req := Some 0x000A; ntf := false; session := false;
     sessionDone := false; encode := None;
     decode := Some (pure_decoder GW_GET_PROTOCOL_VERSION_CFM_decode) |}.

Definition GW_GET_STATE_REQ : command :=
  {| id := 0x000C; req := None; ntf := false; session := false;
     sessionDone := false; encode := None; decode := None |}.

Definition GW_GET_STATE_CFM_decode (data : Buffer.t) : except value :=
  _ ← checkData data 6;
  gatewayState ← Buffer.readUInt8 data 0;
  subState ← Buffer.readUInt8 data 1;
  Ok (VObj [("gatewayState", VNum gatewayState); ("subState", VNum subState)]).

Definition GW_GET_STATE_CFM : command :=
  {| id := 0x000D; req := Some 0x000C; ntf := false; session := false;
     sessionDone := false; encode := None;
     decode := Some (pure_decoder GW_GET_STATE_CFM_decode) |}.

Definition GW_LEAVE_LEARN_STATE_REQ : command :=
  {| id := 0x000E; req := None; ntf := false; session := false;
     sessionDone := false; encode := None; decode := None |}.

Definition GW_LEAVE_LEARN_STATE_CFM : command :=
  {| id := 0x000F; req := Some 0x000E; ntf := false; session := false;
     sessionDone := false; encode := None;
     decode := Some (pure_decoder
                       (fun data => decodeStatus data "request failed")) |}.

Definition GW_GET_NETWORK_SETUP_REQ : command :=
  {| id := 0x00E0; req := None; ntf := false; session := false;
     sessionDone := false; encode := None; decode := None |}.

Definition GW_GET_NETWORK_SETUP_CFM_decode (data : Buffer.t) : except value :=
  _ ← checkData data 13;
  address ← Buffer.readUInt32BE data 0;
  mask ← Buffer.readUInt32BE data 4;
  gateway ← Buffer.readUInt32BE data 8;
  dhcp ← Buffer.readUInt8 data 12;
  Ok (VObj [ ("address", VStr (decodeIpv4 address));
             ("mask", VStr (decodeIpv4 mask));
             ("gateway", VStr (decodeIpv4 gateway));
             ("dhcp", VBool (negb (dhcp =? 0))) ]).

Definition GW_GET_NETWORK_SETUP_CFM : command :=
  {| id := 0x00E1; req := Some 0x00E0; ntf := false; session := false;
     sessionDone := false; encode := None;
     decode := Some (pure_decoder GW_GET_NETWORK_SETUP_CFM_decode) |}.

Definition GW_GET_NODE_INFORMATION_CFM : command :=
  {| id := 0x0201; req := Some 0x0200; ntf := false; session := false;
     sessionDone := false; encode := None;
     decode := Some (pure_decoder (fun data => decodeStatusId data "nodeId")) |}.

Definition GW_SET_NODE_NAME_CFM : command :=
  {| id := 0x0209; req := Some 0x0208; ntf := false; session := false;
     sessionDone := false; encode := None;
     decode := Some (pure_decoder (fun data => decodeStatusId data "nodeId")) |}.

(** The decoder calls [decodeStatusId(data, 'groupId')] and returns
    nothing. *)
Definition GW_GET_GROUP_INFORMATION_CFM : command :=
  {| id := 0x0221; req := Some 0x0220; ntf := false; session := false;
     sessionDone := false; encode := None;
     decode := Some (pure_decoder
                       (fun data =>
                          _ ← decodeStatusId data "groupId"; Ok VUndefined)) |}.

(** [Buffer.alloc(2).fill(0)], then the bytes 0 and 2; [params] is not
    read. *)
Definition GW_GET_ALL_GROUPS_INFORMATION_REQ_encode : encoder :=
  fun params userInput =>
    let data := Buffer.alloc 2 in
    data ← Buffer.writeUInt8 data 0 0;
    data ← Buffer.writeUInt8 data 2 1;
    Ok (data, params).

Definition GW_GET_ALL_GROUPS_INFORMATION_REQ : command :=
  {| id := 0x0229; req := None; ntf := true; session := false;
     sessionDone := false;
     encode := Some GW_GET_ALL_GROUPS_INFORMATION_REQ_encode;
     decode := None |}.

Definition GW_GET_ALL_GROUPS_INFORMATION_CFM_decode (data : Buffer.t)
  : except value :=
  _ ← checkData data 2;
  status ← Buffer.readUInt8 data 0;
  if negb (status =? 0) then Throw (Error "system table empty")
  else
    nGroups ← Buffer.readUInt8 data 1;
    Ok (VObj [("nGroups", VNum nGroups)]).

Definition GW_GET_ALL_GROUPS_INFORMATION_CFM : command :=
  {| id := 0x022A; req := Some 0x0229; ntf := false; session := false;
     sessionDone := false; encode := None;
     decode := Some (pure_decoder GW_GET_ALL_GROUPS_INFORMATION_CFM_decode) |}.

Definition GW_GET_ALL_GROUPS_INFORMATION_NTF_decode : decoder := fun data s =>
  match decodeGroupInformation data with
  | Throw e => (Throw e, s)
  | Ok payload =>
    match session_push s payload with       (* session.result.push(payload) *)
    | Throw e => (Throw e, s)
    | Ok s => (Ok payload, s)
    end
  end.

Definition GW_GET_ALL_GROUPS_INFORMATION_NTF : command :=
  {| id := 0x022B; req := Some 0x0229; ntf := false; session := false;
     sessionDone := false; encode := None;
     decode := Some GW_GET_ALL_GROUPS_INFORMATION_NTF_decode |}.

Definition GW_GET_ALL_GROUPS_INFORMATION_FINISHED_NTF_decode : decoder :=
  fun data s =>
    match session_emit_done s with                  (* session.emit('done') *)
    | Throw e => (Throw e, s)
    | Ok s => (Ok VUndefined, s)
    end.

Definition GW_GET_ALL_GROUPS_INFORMATION_FINISHED_NTF : command :=
  {| id := 0x022C; req := Some 0x0229; ntf := false; session := false;
     sessionDone := false; encode := None;
     decode := Some GW_GET_ALL_GROUPS_INFORMATION_FINISHED_NTF_decode |}.

Definition GW_COMMAND_SEND_CFM : command :=
  {| id := 0x0301; req := None; ntf := false; session := false;
     sessionDone := false; encode := None;
     decode := Some (pure_decoder decodeSessionStatus) |}.

Definition GW_COMMAND_RUN_STATUS_NTF_decode (data : Buffer.t) : except value :=
  _ ← checkData data 13;
  sessionId ← Buffer.readUInt16BE data 0;
  status ← Buffer.readUInt8 data 2;
  nodeId ← Buffer.readUInt8 data 3;
  parameter ← Buffer.readUInt8 data 4;
  nodeParameter ← decodeNodeParameter parameter;
  currentPosition ← Buffer.readUInt16BE data 5;
  runStatus ← Buffer.readUInt8 data 7;
  statusReply ← Buffer.readUInt8 data 8;
  informationCode ← Buffer.readUInt32BE data 9;
  Ok (VObj [ ("sessionId", VNum sessionId);
             ("status", VNum status);
             ("nodeId", VNum nodeId);
             ("nodeParameter", VStr nodeParameter);
             ("currentPosition",
              position_value (decodePosition currentPosition));
             ("runStatus", VStr (decodeRunStatus runStatus));
             ("statusReply", VNum statusReply);
             ("informationCode",
              VStr ("0x" +:+ toHexString lib informationCode 8)) ]).

Definition GW_COMMAND_RUN_STATUS_NTF : command :=
  {| id := 0x0302; req := None; ntf := false; session := false;
     sessionDone := false; encode := None;
     decode := Some (pure_decoder GW_COMMAND_RUN_STATUS_NTF_decode) |}.

Definition GW_COMMAND_REMAINING_TIME_NTF_decode (data : Buffer.t)
  : except value :=
  _ ← checkData data 6;
  sessionId ← Buffer.readUInt16BE data 0;
  nodeId ← Buffer.readUInt8 data 2;
  parameter ← Buffer.readUInt8 data 3;
  nodeParameter ← decodeNodeParameter parameter;
  duration ← Buffer.readUInt16BE data 4;
  Ok (VObj [ ("sessionId", VNum sessionId);
             ("nodeId", VNum nodeId);
             ("nodeParameter", VStr nodeParameter);
             ("duration", VNum duration) ]).

Definition GW_COMMAND_REMAINING_TIME_NTF : command :=
  {| id := 0x0303; req := None; ntf := false; session := false;
     sessionDone := false; encode := None;
     decode := Some (pure_decoder GW_COMMAND_REMAINING_TIME_NTF_decode) |}.

Definition GW_STATUS_REQUEST_CFM : command :=
  {| id := 0x0306; req := None; ntf := false; session := false;
     sessionDone := false; encode := None;
     decode := Some (pure_decoder decodeSessionStatus) |}.

Definition GW_STATUS_REQUEST_NTF_decode (data : Buffer.t) : except value :=
  _ ← checkData data 18;
  sessionId ← Buffer.readUInt16BE data 0;
  status ← Buffer.readUInt8 data 2;
  nodeId ← Buffer.readUInt8 data 3;
  runStatus ← Buffer.readUInt8 data 4;
  statusReply ← Buffer.readUInt8 data 5;
  statusType ← Buffer.readUInt8 data 6;
  targetPosition ← Buffer.readUInt16BE data 7;
  currentPosition ← Buffer.readUInt16BE data 9;
  remainingTime ← Buffer.readUInt16BE data 11;
  lastMasterExecutionAddress ← Buffer.readUInt32BE data 13;
  lastCommandOriginator ← Buffer.readUInt8 data 17;
  Ok (VObj [ ("sessionId", VNum sessionId);
             ("status", VNum status);
             ("nodeId", VNum nodeId);
             ("runStatus", VStr (decodeRunStatus runStatus));
             ("statusReply", VNum statusReply);
             ("statusType", VNum statusType);
             ("targetPosition",
              position_value (decodePosition targetPosition));
             ("currentPosition",
              position_value (decodePosition currentPosition));
             ("remainingTime", VNum remainingTime);
             ("lastMasterExecutionAddress",
              VStr ("0x" +:+ toHexString lib lastMasterExecutionAddress 8));
             ("lastCommandOriginator", VNum lastCommandOriginator) ]).

Definition GW_STATUS_REQUEST_NTF : command :=
  {| id := 0x0307; req := None; ntf := false; session := false;
     sessionDone := false; encode := None;
     decode := Some (pure_decoder GW_STATUS_REQUEST_NTF_decode) |}.

Definition GW_WINK_SEND_CFM : command :=
  {| id := 0x0309; req := None; ntf := false; session := false;
     sessionDone := false; encode := None;
     decode := Some (pure_decoder decodeSessionStatus) |}.

Definition GW_WINK_SEND_NTF_decode (data : Buffer.t) : except value :=
  _ ← checkData data 2;
  sessionId ← Buffer.readUInt16BE data 0;
  Ok (VObj [("sessionId", VNum sessionId)]).

Definition GW_WINK_SEND_NTF : command :=
  {| id := 0x030A; req := None; ntf := false; session := false;
     sessionDone := true; encode := None;
     decode := Some (pure_decoder GW_WINK_SEND_NTF_decode) |}.

Definition GW_ACTIVATE_PRODUCTGROUP_CFM_decode (data : Buffer.t)
  : except value :=
  _ ← checkData data 3;
  status ← Buffer.readUInt8 data 2;
  if status =? 0 then
    sessionId ← Buffer.readUInt16BE data 0;
    Ok (VObj [("sessionId", VNum sessionId)])
  else
    Throw (Error (match status with
                  | 1 => "unknown groupId"
                  | 2 => "sessionId already in use"
                  | 3 => "busy - try again later"
                  | 4 => "invalid group type"
                  | 5 => "request failed"
                  | 6 => "invalid parameter"
                  | _ => "status " +:+ pretty status
                  end)).

Definition GW_ACTIVATE_PRODUCTGROUP_CFM : command :=
  {| id := 0x0448; req := None; ntf := false; session := false;
     sessionDone := false; encode := None;
     decode := Some (pure_decoder GW_ACTIVATE_PRODUCTGROUP_CFM_decode) |}.

(** The entries of [commands] modelled in this file, in the order of the
    source. *)
Definition modelled_commands : list (string * command) :=
  [ ("GW_PASSWORD_ENTER_REQ", GW_PASSWORD_ENTER_REQ);
    ("GW_PASSWORD_ENTER_CFM", GW_PASSWORD_ENTER_CFM);
    ("GW_PASSWORD_CHANGE_REQ", GW_PASSWORD_CHANGE_REQ);
    ("GW_PASSWORD_CHANGE_CFM", GW_PASSWORD_CHANGE_CFM);
    ("GW_GET_VERSION_REQ", GW_GET_VERSION_REQ);
    ("GW_GET_VERSION_CFM", GW_GET_VERSION_CFM);
    ("GW_GET_PROTOCOL_VERSION_REQ", GW_GET_PROTOCOL_VERSION_REQ);
    ("GW_GET_PROTOCOL_VERSION_CFM", GW_GET_PROTOCOL_VERSION_CFM);
    ("GW_GET_STATE_REQ", GW_GET_STATE_REQ);
    ("GW_GET_STATE_CFM", GW_GET_STATE_CFM);
    ("GW_LEAVE_LEARN_STATE_REQ", GW_LEAVE_LEARN_STATE_REQ);
    ("GW_LEAVE_LEARN_STATE_CFM", GW_LEAVE_LEARN_STATE_CFM);
    ("GW_GET_NETWORK_SETUP_REQ", GW_GET_NETWORK_SETUP_REQ);
    ("GW_GET_NETWORK_SETUP_CFM", GW_GET_NETWORK_SETUP_CFM);
    ("GW_ERROR_NTF", GW_ERROR_NTF);
    ("GW_CS_GET_SYSTEMTABLE_DATA_REQ", GW_CS_GET_SYSTEMTABLE_DATA_REQ);
    ("GW_CS_GET_SYSTEMTABLE_DATA_CFM", GW_CS_GET_SYSTEMTABLE_DATA_CFM);
    ("GW_CS_GET_SYSTEMTABLE_DATA_NTF", GW_CS_GET_SYSTEMTABLE_DATA_NTF);
    ("GW_GET_NODE_INFORMATION_CFM", GW_GET_NODE_INFORMATION_CFM);
    ("GW_SET_NODE_NAME_CFM", GW_SET_NODE_NAME_CFM);
    ("GW_GET_GROUP_INFORMATION_CFM", GW_GET_GROUP_INFORMATION_CFM);
    ("GW_GET_ALL_GROUPS_INFORMATION_REQ", GW_GET_ALL_GROUPS_INFORMATION_REQ);
    ("GW_GET_ALL_GROUPS_INFORMATION_CFM", GW_GET_ALL_GROUPS_INFORMATION_CFM);
    ("GW_GET_ALL_GROUPS_INFORMATION_NTF", GW_GET_ALL_GROUPS_INFORMATION_NTF);
    ("GW_GET_ALL_GROUPS_INFORMATION_FINISHED_NTF",
     GW_GET_ALL_GROUPS_INFORMATION_FINISHED_NTF);
    ("GW_COMMAND_SEND_CFM", GW_COMMAND_SEND_CFM);
    ("GW_COMMAND_RUN_STATUS_NTF", GW_COMMAND_RUN_STATUS_NTF);
    ("GW_COMMAND_REMAINING_TIME_NTF", GW_COMMAND_REMAINING_TIME_NTF);
    ("GW_SESSION_FINISHED_NTF", GW_SESSION_FINISHED_NTF);
    ("GW_STATUS_REQUEST_CFM", GW_STATUS_REQUEST_CFM);
    ("GW_STATUS_REQUEST_NTF", GW_STATUS_REQUEST_NTF);
    ("GW_WINK_SEND_CFM", GW_WINK_SEND_CFM);
    ("GW_WINK_SEND_NTF", GW_WINK_SEND_NTF);
    ("GW_ACTIVATE_PRODUCTGROUP_CFM", GW_ACTIVATE_PRODUCTGROUP_CFM);
    ("GW_ACTIVATE_SCENE_REQ", GW_ACTIVATE_SCENE_REQ);
    ("GW_ACTIVATE_SCENE_CFM", GW_ACTIVATE_SCENE_CFM) ].

End WithLib.

End Api.

(** ** lib/VeluxClient.js *)

Module Client.

Import Api.

Definition protocolId : Z := 0.

Record VeluxRequest : Type := {
  r_id : Z;
  r_cmd : Z;
  r_cmdName : string;
  r_params : value;
  r_data : option Buffer.t
}.

(** The messages of the errors the client creates: a format string of
    [#emitError] with its arguments, or the message of a caught error. *)
Inductive message : Type :=
| UnknownProtocol (byte : Z)
| InvalidChecksum (last : option Z) (expected : Z) (buf : Buffer.t)
| UnknownCommandId (cmd : Z)
| UnexpectedCommand (cmdName : string)
| Message (text : string).

(** What the client emits to its listeners. *)
Inductive event : Type :=
| EvData (buf : Buffer.t)
| EvError (msg : message) (request : option VeluxRequest)
| EvNotification (cmd : Z) (cmdName : string) (data : Buffer.t)
    (payload : value) (request : option VeluxRequest)
| EvRequest (request : VeluxRequest)
| EvSend (buf : Buffer.t)
| EvResponse (request : VeluxRequest) (result : value).

(** A [VeluxSession]: its [result], whether the constructor's
    [once('cfm')] listener is still registered, and whether the timers
    [cfmTimeout] and [doneTimeout] are armed. *)
Record VeluxSession : Type := {
  s_result : value;
  s_cfm_listener : bool;
  s_cfm_timer : bool;
  s_done_timer : bool
}.

(** Where a call of [request()] stands: at one of its [await]s, or
    finished. *)
Inductive pc : Type :=
| WaitSlot                        (* while (this._sessions[sessionKey] != null) *)
| WaitBusy                        (* while (this._busy) *)
| AwaitCfm                        (* await once(session, 'cfm'), pending *)
| GotCfm (r : except value)       (* ... settled, not yet resumed *)
| AwaitDone                       (* await once(session, 'done'), pending *)
| GotDone (r : except unit)       (* ... settled, not yet resumed *)
| Returned (result : value)
| Threw (e : exn).

(** One call of [request()] with the locals that outlive its first
    [await]. *)
Record task : Type := {
  t_command : command;
  t_request : VeluxRequest;
  t_key : string;
  t_pc : pc;
  t_session : option VeluxSession
}.

(** The client: its counters, the session table (a key maps to the call
    that owns the session), the send flag, the calls made so far, the
    bytes written to the socket, the events emitted, the calls that threw
    before they had a request record, and the exception that nothing
    caught, if any. *)
Record client : Type := {
  requestId : Z;
  sessionId : Z;
  sessions : gmap string nat;
  busy : bool;
  tasks : list task;
  wire : list Buffer.t;
  events : list event;
  rejected : list exn;
  uncaught : option exn
}.

Definition init : client :=
  {| requestId := 0; sessionId := 0; sessions := ∅; busy := false;
     tasks := []; wire := []; events := []; rejected := [];
     uncaught := None |}.

Definition set_requestId (v : Z) (c : client) : client :=
  {| requestId := v; sessionId := sessionId c; sessions := sessions c;
     busy := busy c; tasks := tasks c; wire := wire c; events := events c;
     rejected := rejected c; uncaught := uncaught c |}.
Definition set_sessionId (v : Z) (c : client) : client :=
  {| requestId := requestId c; sessionId := v; sessions := sessions c;
     busy := busy c; tasks := tasks c; wire := wire c; events := events c;
     rejected := rejected c; uncaught := uncaught c |}.
Definition set_sessions (v : gmap string nat) (c : client) : client :=
  {| requestId := requestId c; sessionId := sessionId c; sessions := v;
     busy := busy c; tasks := tasks c; wire := wire c; events := events c;
     rejected := rejected c; uncaught := uncaught c |}.
Definition set_busy (v : bool) (c : client) : client :=
  {| requestId := requestId c; sessionId := sessionId c;
     sessions := sessions c; busy := v; tasks := tasks c; wire := wire c;
     events := events c; rejected := rejected c; uncaught := uncaught c |}.
Definition set_tasks (v : list task) (c : client) : client :=
  {| requestId := requestId c; sessionId := sessionId c;
     sessions := sessions c; busy := busy c; tasks := v; wire := wire c;
     events := events c; rejected := rejected c; uncaught := uncaught c |}.
Definition set_wire (v : list Buffer.t) (c : client) : client :=
  {| requestId := requestId c; sessionId := sessionId c;
     sessions := sessions c; busy := busy c; tasks := tasks c; wire := v;
     events := events c; rejected := rejected c; uncaught := uncaught c |}.
Definition set_events (v : list event) (c : client) : client :=
  {| requestId := requestId c; sessionId := sessionId c;
     sessions := sessions c; busy := busy c; tasks := tasks c;
     wire := wire c; events := v; rejected := rejected c;
     uncaught := uncaught c |}.
Definition set_rejected (v : list exn) (c : client) : client :=
  {| requestId := requestId c; sessionId := sessionId c;
     sessions := sessions c; busy := busy c; tasks := tasks c;
     wire := wire c; events := events c; rejected := v;
     uncaught := uncaught c |}.
Definition set_uncaught (v : option exn) (c : client) : client :=
  {| requestId := requestId c; sessionId := sessionId c;
     sessions := sessions c; busy := busy c; tasks := tasks c;
     wire := wire c; events := events c; rejected := rejected c;
     uncaught := v |}.

Definition set_pc (v : pc) (t : task) : task :=
  {| t_command := t_command t; t_request := t_request t; t_key := t_key t;
     t_pc := v; t_session := t_session t |}.
Definition set_session (v : option VeluxSession) (t : task) : task :=
  {| t_command := t_command t; t_request := t_request t; t_key := t_key t;
     t_pc := t_pc t; t_session := v |}.

(** [this.emit(...)]: listeners only observe. *)
Definition emit (ev : event) (c : client) : client :=
  set_events (events c ++ [ev]) c.

(** [this.#emitError(...args)] *)
Definition emitError (msg : message) (request : option VeluxRequest)
    (c : client) : client :=
  emit (EvError msg request) c.

(** An exception that propagates out of an event handler or a timer. *)
Definition crash (e : exn) (c : client) : client :=
  set_uncaught (Some e) c.

(** Run [k] unless an exception is propagating. *)
Definition andThen (c : client) (k : client -> client) : client :=
  match uncaught c with
  | Some _ => c
  | None => k c
  end.

Definition update_task (i : nat) (f : task -> task) (c : client) : client :=
  set_tasks (alter f i (tasks c)) c.

Definition update_session (i : nat) (f : VeluxSession -> VeluxSession)
    (c : client) : client :=
  update_task i (fun t => set_session (f <$> t_session t) t) c.

(** [new VeluxSession(command, request)] *)
Definition new_session : VeluxSession :=
  {| s_result := VUndefined; s_cfm_listener := true; s_cfm_timer := true;
     s_done_timer := false |}.

(** [session.emit('error', error)]: rejects the pending [once()], and
    with no listener throws [error]. *)
Definition session_emit_error (i : nat) (e : exn) (c : client) : client :=
  match tasks c !! i with
  | None => c
  | Some t =>
    match t_pc t with
    | AwaitCfm => update_task i (set_pc (GotCfm (Throw e))) c
    | AwaitDone => update_task i (set_pc (GotDone (Throw e))) c
    | _ => crash e c
    end
  end.

(** [session.emit('cfm', payload)]: the constructor's listener runs once
    (it clears [cfmTimeout] and sets [result]), then the pending [once()]
    resolves. *)
Definition session_emit_cfm (i : nat) (payload : value) (c : client)
  : client :=
  match tasks c !! i with
  | None => c
  | Some t =>
    let c :=
      update_session i (fun s =>
        if s_cfm_listener s then
          {| s_result := if ntf (t_command t) then VArr [] else payload;
             s_cfm_listener := false; s_cfm_timer := false;
             s_done_timer := s_done_timer s |}
        else s) c in
    match t_pc t with
    | AwaitCfm => update_task i (set_pc (GotCfm (Ok payload))) c
    | _ => c
    end
  end.

(** [session.emit('done')]: the listener of [waitForDone] clears
    [doneTimeout], and the pending [once()] resolves. *)
Definition session_emit_done (i : nat) (c : client) : client :=
  match tasks c !! i with
  | None => c
  | Some t =>
    let c :=
      update_session i (fun s =>
        {| s_result := s_result s; s_cfm_listener := s_cfm_listener s;
           s_cfm_timer := s_cfm_timer s; s_done_timer := false |}) c in
    match t_pc t with
    | AwaitDone => update_task i (set_pc (GotDone (Ok tt))) c
    | _ => c
    end
  end.

Definition set_result (i : nat) (v : value) (c : client) : client :=
  update_session i (fun s =>
    {| s_result := v; s_cfm_listener := s_cfm_listener s;
       s_cfm_timer := s_cfm_timer s; s_done_timer := s_done_timer s |}) c.

(** The session of call [i], as a decoder sees it. *)
Definition view (c : client) (i : nat) : option session_view :=
  t ← tasks c !! i;
  s ← t_session t;
  Some {| sv_result := s_result s; sv_done := false |}.

(** The frame of a request: the body of [request()] between the
    ['request'] and the ['send'] event. *)
Definition frame (cmd : Z) (data : option Buffer.t) : except Buffer.t :=
  let len := from_option (@length Z) 0%nat data in
  let buf := Buffer.alloc (len + 5) in
  let buf := <[0%nat := protocolId]> buf in
  let buf := <[1%nat := (Z.of_nat len + 3) mod 256]> buf in
  buf ← Buffer.writeUInt16BE buf cmd 2;
  let buf := from_option (fun d => Buffer.copy d buf 4) buf data in
  let checksum := Buffer.xor_all buf in
  Buffer.writeUInt8 buf checksum (len + 4).

(** The checksum that [#receive] computes over all bytes but the last. *)
Definition checksum_of (buf : Buffer.t) : Z :=
  Buffer.xor_all (take (length buf - 1) buf).

(** [buf.subarray(4, -1)] *)
Definition frame_data (buf : Buffer.t) : Buffer.t :=
  Buffer.subarray buf 4 (length buf - 1).

Section Engine.

(** The registry imported from [VeluxApi.js]. *)
Variable commands : list (string * command).

(** [commands[name]] *)
Fixpoint command_in (l : list (string * command)) (name : string)
  : option command :=
  match l with
  | [] => None
  | (n, cmd) :: rest =>
    match command_in rest name with
    | Some later => Some later
    | None => if String.eqb n name then Some cmd else None
    end
  end.

Definition command_by_name (name : string) : option command :=
  command_in commands name.

(** [commandNameById[cmd]]: the table is filled in the order of
    [commands], a later entry overwriting an earlier one. *)
Fixpoint name_in (l : list (string * command)) (cmd : Z) : option string :=
  match l with
  | [] => None
  | (n, c) :: rest =>
    match name_in rest cmd with
    | Some later => Some later
    | None => if id c =? cmd then Some n else None
    end
  end.

Definition commandNameById (cmd : Z) : option string :=
  name_in commands cmd.

(** *** [#receive] *)

(** What the decoder did to the session it was handed. *)
Definition apply_view (session : option nat) (sv : option session_view)
    (c : client) : client :=
  match session, sv with
  | Some i, Some v =>
    let c := set_result i (sv_result v) c in
    if sv_done v then session_emit_done i c else c
  | _, _ => c
  end.

(** [try { payload = command.decode?.(data, session) } catch (error) ...] *)
Definition decode_step (command : command) (data : Buffer.t)
    (session : option nat) (c : client) : value * client :=
  match decode command with
  | None => (VUndefined, c)
  | Some dec =>
    let '(r, sv) := dec data (session ≫= view c) in
    let c := apply_view session sv c in
    match r with
    | Ok payload => (payload, c)
    | Throw e =>
      (VUndefined,
       match session with
       | Some i => session_emit_error i e c
       | None => emitError (Message (message_of e)) None c
       end)
    end
  end.

(** [if (payload?.sessionId != null) { ... }] *)
Definition session_step (payload : value) (session : option nat)
    (c : client) : option nat * value * client :=
  let sid := Js.get payload "sessionId" in
  if Js.not_null sid then
    let session := sessions c !! ("s" +:+ Js.to_string sid) in
    if Js.not_null (Js.get payload "nodeId") then
      let payload := Js.delete (Js.delete payload "sessionId") "status" in
      match session with
      | None => (session, payload, c)
      | Some i =>                          (* session?.result.push(payload) *)
        match sv_result <$> view c i with
        | Some (VArr items) =>
          (session, payload, set_result i (VArr (items ++ [payload])) c)
        | _ =>
          (session, payload,
           crash (TypeError "session.result.push is not a function") c)
        end
      end
    else (session, payload, c)
  else (session, payload, c).

(** The rest of [#receive] after the checksum test. *)
Definition dispatch (buf : Buffer.t) (c : client) : client :=
  match Buffer.readUInt16BE buf 2 with
  | Throw e => crash e c
  | Ok cmd =>
    let data := frame_data buf in
    match commandNameById cmd with
    | None =>
      (* the error is emitted, then [cmdName.endsWith] throws *)
      crash (TypeError "Cannot read properties of undefined")
            (emitError (UnknownCommandId cmd) None c)
    | Some cmdName =>
      let c :=
        if negb (Js.endsWith cmdName "_CFM")
           && negb (Js.endsWith cmdName "_NTF")
        then emitError (UnexpectedCommand cmdName) None c
        else c in
      match command_by_name cmdName with
      | None => crash (TypeError "Cannot read properties of undefined") c
      | Some command =>
        let session :=
          sessions c !! from_option pretty "undefined" (req command) in
        let '(payload, c) := decode_step command data session c in
        andThen c (fun c =>
        let '(session, payload, c) := session_step payload session c in
        andThen c (fun c =>
        let request := i ← session; t_request <$> tasks c !! i in
        let c := emit (EvNotification cmd cmdName data payload request) c in
        let c :=
          if Js.endsWith cmdName "_CFM"
          then from_option (fun i => session_emit_cfm i payload c) c session
          else c in
        match command_by_name "GW_SESSION_FINISHED_NTF" with
        | None => crash (TypeError "Cannot read properties of undefined") c
        | Some finished =>
          if cmd =? id finished
          then from_option (fun i => session_emit_done i c) c session
          else c
        end))
      end
    end
  end.

Definition receive (buf : Buffer.t) (c : client) : client :=
  let c := emit (EvData buf) c in
  if negb (bool_decide (buf !! 0%nat = Some protocolId)) then
    match buf !! 0%nat with
    | Some byte => emitError (UnknownProtocol byte) None c
    | None =>
      (* toHexString(undefined, 2): the buffer is empty *)
      crash (TypeError "Cannot read properties of undefined") c
    end
  else
    let checksum := checksum_of buf in
    let c :=
      if negb (bool_decide (buf !! (length buf - 1)%nat = Some checksum))
      then emitError
             (InvalidChecksum (buf !! (length buf - 1)%nat) checksum buf)
             None c
        (* // return *)
      else c in
    dispatch buf c.

(** The ['data'] handler of the socket:
    [(data) => { this.#receive(decode(data)) }]. *)
Definition on_data (pool : nat -> Z) (data : Buffer.t) (c : client)
  : client :=
  match Slip.decode pool data with
  | Throw e => crash e c
  | Ok buf => receive buf c
  end.

(** *** [request] *)

(** From [this._busy = true] to the first [await once(session, 'cfm')]. *)
Definition do_write (i : nat) (t : task) (c : client) : client :=
  let request := t_request t in
  let c := set_busy true c in
  let c := emit (EvRequest request) c in
  match frame (r_cmd request) (r_data request) with
  | Throw e => update_task i (set_pc (Threw e)) c
  | Ok buf =>
    let c := emit (EvSend buf) c in
    let c := set_wire (wire c ++ [Slip.encode buf]) c in
    update_task i (set_pc AwaitCfm) c
  end.

(** The [catch (error)] that closes [request()]. *)
Definition fail (i : nat) (t : task) (e : exn) (c : client) : client :=
  match command_by_name "GW_PASSWORD_ENTER_REQ" with
  | None =>
    update_task i
      (set_pc (Threw (TypeError "Cannot read properties of undefined"))) c
  | Some password_enter =>
    if r_cmd (t_request t) =? id password_enter
    then update_task i (set_pc (Threw e)) c
    else
      let c := emitError (Message (message_of e)) (Some (t_request t)) c in
      update_task i (set_pc (Returned VUndefined)) c
  end.

(** From [const result = session.result] to [return result]. *)
Definition finish (i : nat) (t : task) (c : client) : client :=
  let result := from_option s_result VUndefined (t_session t) in
  let c := set_sessions (delete (t_key t) (sessions c)) c in
  let c := emit (EvResponse (t_request t) result) c in
  update_task i (set_pc (Returned result)) c.

(** Call [i] runs from the [await] it stands at to its next one. *)
Definition resume (i : nat) (c : client) : client :=
  match tasks c !! i with
  | None => c
  | Some t =>
    match t_pc t with
    | WaitSlot =>
      if bool_decide (is_Some (sessions c !! t_key t)) then c
      else
        let c := update_task i (set_session (Some new_session)) c in
        let c := set_sessions (<[t_key t := i]> (sessions c)) c in
        if busy c then update_task i (set_pc WaitBusy) c
        else do_write i t c
    | WaitBusy =>
      if busy c then c else do_write i t c
    | GotCfm (Ok _) =>
      let c := set_busy false c in
      if ntf (t_command t) then
        (* session.waitForDone() *)
        let c :=
          update_session i (fun s =>
            {| s_result := s_result s;
               s_cfm_listener := s_cfm_listener s;
               s_cfm_timer := s_cfm_timer s; s_done_timer := true |}) c in
        update_task i (set_pc AwaitDone) c
      else finish i t c
    | GotCfm (Throw e) =>
      let c := set_busy false c in
      let c := set_sessions (delete (t_key t) (sessions c)) c in
      fail i t e c
    | GotDone (Ok _) => finish i t c
    | GotDone (Throw e) => fail i t e c
    | AwaitCfm | AwaitDone | Returned _ | Threw _ => c
    end
  end.

(** [request(command, params, userInput)] up to its first [await]; the
    socket is connected. *)
Definition call (command : command) (params : list (string * value))
    (userInput : bool) (c : client) : client :=
  let reject e c := set_rejected (rejected c ++ [e]) c in
  let cmd := id command in
  let error msg := if userInput then UserInputError msg else SyntaxError msg in
  match commandNameById cmd with
  | None => reject (error (pretty cmd +:+ ": unknown command")) c
  | Some cmdName =>
    if negb (Js.endsWith cmdName "_REQ") then
      reject (error (cmdName +:+ ": not a request command")) c
    else
      let '(params, c) :=
        if session command then
          let c := set_sessionId (sessionId c + 1) c in       (* ++this._sessionId *)
          (VObj (Js.assign params "sessionId"
                   (VNum (sessionId c mod 0xFFFF))), c)
        else (VObj params, c) in
      (* const data = command.encode?.(params, userInput) *)
      match match encode command with
            | Some enc =>
              '(bytes, params) ← enc params userInput; Ok (Some bytes, params)
            | None => Ok (None, params)
            end with
      | Throw e => reject e c
      | Ok (data, params) =>
        if bool_decide (250 < from_option (@length Z) 0 data)%nat then
          reject (SyntaxError "data: more than 250 bytes") c
        else
          let c := set_requestId (requestId c + 1) c in     (* ++this._requestId *)
          let request :=
            {| r_id := requestId c; r_cmd := cmd; r_cmdName := cmdName;
               r_params := params; r_data := data |} in
          let sid := Js.get params "sessionId" in
          let sessionKey :=
            if Js.not_null sid then "s" +:+ Js.to_string sid
            else pretty cmd in
          let i := length (tasks c) in
          let t :=
            {| t_command := command; t_request := request;
               t_key := sessionKey; t_pc := WaitSlot;
               t_session := None |} in
          resume i (set_tasks (tasks c ++ [t]) c)
      end
  end.

(** The callback of [cfmTimeout]. *)
Definition cfm_timeout (i : nat) (c : client) : client :=
  match tasks c !! i ≫= t_session with
  | Some s =>
    if s_cfm_timer s then
      let c :=
        update_session i (fun s =>
          {| s_result := s_result s; s_cfm_listener := s_cfm_listener s;
             s_cfm_timer := false; s_done_timer := s_done_timer s |}) c in
      session_emit_error i (Error "CFM timeout") c
    else c
  | None => c
  end.

(** The callback of [doneTimeout]. *)
Definition done_timeout (i : nat) (c : client) : client :=
  match tasks c !! i ≫= t_session with
  | Some s =>
    if s_done_timer s then
      let c :=
        update_session i (fun s =>
          {| s_result := s_result s; s_cfm_listener := s_cfm_listener s;
             s_cfm_timer := s_cfm_timer s; s_done_timer := false |}) c in
      session_emit_error i (Error "NTF timout") c
    else c
  | None => c
  end.

(** *** The event loop *)

(** What the event loop can run next: a call of [request()], the
    continuation of a call, a frame from the gateway, a timer. *)
Inductive action : Type :=
| Call (command : command) (params : list (string * value))
    (userInput : bool)
| Resume (i : nat)
| Receive (buf : Buffer.t)
| Data (pool : nat -> Z) (data : Buffer.t)
| CfmTimeout (i : nat)
| DoneTimeout (i : nat).

(** One turn; an uncaught exception ends the process. *)
Definition exec (a : action) (c : client) : client :=
  andThen c (fun c =>
    match a with
    | Call command params userInput => call command params userInput c
    | Resume i => resume i c
    | Receive buf => receive buf c
    | Data pool data => on_data pool data c
    | CfmTimeout i => cfm_timeout i c
    | DoneTimeout i => done_timeout i c
    end).

Definition run (l : list action) (c : client) : client :=
  fold_left (fun c a => exec a c) l c.

(** The states the client can be in. *)
Inductive reachable : client -> Prop :=
| reachable_init : reachable init
| reachable_exec a c : reachable c -> reachable (exec a c).

End Engine.

(** [command] is the entry [name] of the registry, and [name] the name
    that [commandNameById] has for its id. *)
Definition registered (commands : list (string * command)) (name : string)
    (command : command) : Prop :=
  commandNameById commands (id command) = Some name
  /\ command_by_name commands name = Some command.

(** *** The phases of a call *)

(** Call [i] holds the send flag, from [this._busy = true] to
    [this._busy = false]: its frame is being written and its confirmation
    awaited. *)
Definition writing (t : task) : bool :=
  match t_pc t with
  | AwaitCfm | GotCfm _ => true
  | _ => false
  end.

(** The frame of the call has been written and [request()] has neither
    returned nor thrown. *)
Definition in_flight (t : task) : bool :=
  match t_pc t with
  | AwaitCfm | GotCfm _ | AwaitDone | GotDone _ => true
  | _ => false
  end.

(** [request()] has returned or thrown. *)
Definition completed (t : task) : bool :=
  match t_pc t with
  | Returned _ | Threw _ => true
  | _ => false
  end.

(** The key under which [request()] registers a request. *)
Definition key_of (r : VeluxRequest) : string :=
  let sid := Js.get (r_params r) "sessionId" in
  if Js.not_null sid then "s" +:+ Js.to_string sid else pretty (r_cmd r).

(** What the serialisation of the calls depends on: the session table,
    the send flag and, of each call, its key, its request and the phase
    it is in. *)
Inductive phase : Type := PhSlot | PhBusy | PhCfm | PhDone | PhEnd.

Definition phase_of (p : pc) : phase :=
  match p with
  | WaitSlot => PhSlot
  | WaitBusy => PhBusy
  | AwaitCfm | GotCfm _ => PhCfm
  | AwaitDone | GotDone _ => PhDone
  | Returned _ | Threw _ => PhEnd
  end.

Definition task_shape (t : task) : string * VeluxRequest * phase :=
  (t_key t, t_request t, phase_of (t_pc t)).

Definition shape (c : client)
  : gmap string nat * bool * list (string * VeluxRequest * phase) :=
  (sessions c, busy c, map task_shape (tasks c)).

(** A call that holds its entry of the session table. *)
Definition live (ph : phase) : Prop :=
  ph = PhBusy \/ ph = PhCfm \/ ph = PhDone.

(** The invariant: a live call owns the entry of its key, at most one
    call is in the confirmation phase and none while the send flag is
    down, and every key is the key of its request. *)
Definition Inv
    (s : gmap string nat * bool * list (string * VeluxRequest * phase))
  : Prop :=
  let '(ss, b, ts) := s in
  (forall i k r ph, ts !! i = Some (k, r, ph) -> live ph -> ss !! k = Some i)
  /\ (forall i j k r k' r',
        ts !! i = Some (k, r, PhCfm) -> ts !! j = Some (k', r', PhCfm) ->
        i = j)
  /\ (b = false -> forall i k r, ts !! i <> Some (k, r, PhCfm))
  /\ (forall i k r ph, ts !! i = Some (k, r, ph) -> k = key_of r).

(** The request records that the ['request'] event has carried. *)
Definition requests_emitted (c : client) : list VeluxRequest :=
  omap (fun ev => match ev with EvRequest r => Some r | _ => None end)
       (events c).

(** Every entry of the session table names a call whose key it is. *)
Definition Owned
    (s : gmap string nat * bool * list (string * VeluxRequest * phase))
  : Prop :=
  let '(ss, b, ts) := s in
  forall k j, ss !! k = Some j -> exists r ph, ts !! j = Some (k, r, ph).

(** How one turn of a call changes its phase, the session table and the
    send flag. *)
Inductive move (k : string) (i : nat) (ss : gmap string nat) (b : bool)
  : phase -> phase -> gmap string nat -> bool -> Prop :=
| move_register :
    ss !! k = None -> b = true ->
    move k i ss b PhSlot PhBusy (<[k := i]> ss) true
| move_register_write ph' :
    ss !! k = None -> b = false -> ph' = PhCfm \/ ph' = PhEnd ->
    move k i ss b PhSlot ph' (<[k := i]> ss) true
| move_write ph' :
    b = false -> ph' = PhCfm \/ ph' = PhEnd ->
    move k i ss b PhBusy ph' ss true
| move_collect :
    move k i ss b PhCfm PhDone ss false
| move_end_cfm :
    move k i ss b PhCfm PhEnd (delete k ss) false
| move_end_done :
    move k i ss b PhDone PhEnd (delete k ss) b
| move_fail_done :
    move k i ss b PhDone PhEnd ss b.

End Client.

(** ** src/lib/VeluxClient.js: the client with the [gw...] methods

    This client sends raw payloads and matches a confirmation with the one
    request it remembers in [_request]; its [gw...] methods decode the
    confirmation themselves.  [send] waits with [once(this, name)] of
    [node:events], which is fulfilled by the event [name] and rejected by
    an ['error'] event of the client, whichever comes first.  The socket
    is connected, the client has a listener for ['error'], and the
    listeners other than those of [once] only observe. *)

Module VeluxClient.

Import Api.

Definition commandsById_table : list (Z * string) :=
  [
    (0x0000, "GW_ERROR_NTF");
    (0x0001, "GW_REBOOT_REQ");
    (0x0002, "GW_REBOOT_CFM");
    (0x0003, "GW_SET_FACTORY_DEFAULT_REQ");
    (0x0004, "GW_SET_FACTORY_DEFAULT_CFM");
    (0x0008, "GW_GET_VERSION_REQ");
    (0x0009, "GW_GET_VERSION_CFM");
    (0x000A, "GW_GET_PROTOCOL_VERSION_REQ");
    (0x000B, "GW_GET_PROTOCOL_VERSION_CFM");
    (0x000C, "GW_GET_STATE_REQ");
    (0x000D, "GW_GET_STATE_CFM");
    (0x000E, "GW_LEAVE_LEARN_STATE_REQ");
    (0x000F, "GW_LEAVE_LEARN_STATE_CFM");
    (0x00E0, "GW_GET_NETWORK_SETUP_REQ");
    (0x00E1, "GW_GET_NETWORK_SETUP_CFM");
    (0x00E2, "GW_SET_NETWORK_SETUP_REQ");
    (0x00E3, "GW_SET_NETWORK_SETUP_CFM");
    (0x0100, "GW_CS_GET_SYSTEMTABLE_DATA_REQ");
    (0x0101, "GW_CS_GET_SYSTEMTABLE_DATA_CFM");
    (0x0102, "GW_CS_GET_SYSTEMTABLE_DATA_NTF");
    (0x0103, "GW_CS_DISCOVER_NODES_REQ");
    (0x0104, "GW_CS_DISCOVER_NODES_CFM");
    (0x0105, "GW_CS_DISCOVER_NODES_NTF");
    (0x0106, "GW_CS_REMOVE_NODES_REQ");
    (0x0107, "GW_CS_REMOVE_NODES_CFM");
    (0x0108, "GW_CS_VIRGIN_STATE_REQ");
    (0x0109, "GW_CS_VIRGIN_STATE_CFM");
    (0x010A, "GW_CS_CONTROLLER_COPY_REQ");
    (0x010B, "GW_CS_CONTROLLER_COPY_CFM");
    (0x010C, "GW_CS_CONTROLLER_COPY_NTF");
    (0x010D, "GW_CS_CONTROLLER_COPY_CANCEL_NTF");
    (0x010E, "GW_CS_RECEIVE_KEY_REQ");
    (0x010F, "GW_CS_RECEIVE_KEY_CFM");
    (0x0110, "GW_CS_RECEIVE_KEY_NTF");
    (0x0111, "GW_CS_PGC_JOB_NTF");
    (0x0112, "GW_CS_SYSTEM_TABLE_UPDATE_NTF");
    (0x0113, "GW_CS_GENERATE_NEW_KEY_REQ");
    (0x0114, "GW_CS_GENERATE_NEW_KEY_CFM");
    (0x0115, "GW_CS_GENERATE_NEW_KEY_NTF");
    (0x0116, "GW_CS_REPAIR_KEY_REQ");
    (0x0117, "GW_CS_REPAIR_KEY_CFM");
    (0x0118, "GW_CS_REPAIR_KEY_NTF");
    (0x0119, "GW_CS_ACTIVATE_CONFIGURATION_MODE_REQ");
    (0x011A, "GW_CS_ACTIVATE_CONFIGURATION_MODE_CFM");
    (0x0200, "GW_GET_NODE_INFORMATION_REQ");
    (0x0201, "GW_GET_NODE_INFORMATION_CFM");
    (0x0210, "GW_GET_NODE_INFORMATION_NTF");
    (0x0202, "GW_GET_ALL_NODES_INFORMATION_REQ");
    (0x0203, "GW_GET_ALL_NODES_INFORMATION_CFM");
    (0x0204, "GW_GET_ALL_NODES_INFORMATION_NTF");
    (0x0205, "GW_GET_ALL_NODES_INFORMATION_FINISHED_NTF");
    (0x0206, "GW_SET_NODE_VARIATION_REQ");
    (0x0207, "GW_SET_NODE_VARIATION_CFM");
    (0x0208, "GW_SET_NODE_NAME_REQ");
    (0x0209, "GW_SET_NODE_NAME_CFM");
    (0x020C, "GW_NODE_INFORMATION_CHANGED_NTF");
    (0x0211, "GW_NODE_STATE_POSITION_CHANGED_NTF");
    (0x020D, "GW_SET_NODE_ORDER_AND_PLACEMENT_REQ");
    (0x020E, "GW_SET_NODE_ORDER_AND_PLACEMENT_CFM");
    (0x0220, "GW_GET_GROUP_INFORMATION_REQ");
    (0x0221, "GW_GET_GROUP_INFORMATION_CFM");
    (0x0230, "GW_GET_GROUP_INFORMATION_NTF");
    (0x0222, "GW_SET_GROUP_INFORMATION_REQ");
    (0x0223, "GW_SET_GROUP_INFORMATION_CFM");
    (0x0224, "GW_GROUP_INFORMATION_CHANGED_NTF");
    (0x0225, "GW_DELETE_GROUP_REQ");
    (0x0226, "GW_DELETE_GROUP_CFM");
    (0x0227, "GW_NEW_GROUP_REQ");
    (0x0228, "GW_NEW_GROUP_CFM");
    (0x0229, "GW_GET_ALL_GROUPS_INFORMATION_REQ");
    (0x022A, "GW_GET_ALL_GROUPS_INFORMATION_CFM");
    (0x022B, "GW_GET_ALL_GROUPS_INFORMATION_NTF");
    (0x022C, "GW_GET_ALL_GROUPS_INFORMATION_FINISHED_NTF");
    (0x022D, "GW_GROUP_DELETED_NTF");
    (0x0240, "GW_HOUSE_STATUS_MONITOR_ENABLE_REQ");
    (0x0241, "GW_HOUSE_STATUS_MONITOR_ENABLE_CFM");
    (0x0242, "GW_HOUSE_STATUS_MONITOR_DISABLE_REQ");
    (0x0243, "GW_HOUSE_STATUS_MONITOR_DISABLE_CFM");
    (0x0300, "GW_COMMAND_SEND_REQ");
    (0x0301, "GW_COMMAND_SEND_CFM");
    (0x0302, "GW_COMMAND_RUN_STATUS_NTF");
    (0x0303, "GW_COMMAND_REMAINING_TIME_NTF");
    (0x0304, "GW_SESSION_FINISHED_NTF");
    (0x0305, "GW_STATUS_REQUEST_REQ");
    (0x0306, "GW_STATUS_REQUEST_CFM");
    (0x0307, "GW_STATUS_REQUEST_NTF");
    (0x0308, "GW_WINK_SEND_REQ");
    (0x0309, "GW_WINK_SEND_CFM");
    (0x030A, "GW_WINK_SEND_NTF");
    (0x0310, "GW_SET_LIMITATION_REQ");
    (0x0311, "GW_SET_LIMITATION_CFM");
    (0x0312, "GW_GET_LIMITATION_STATUS_REQ");
    (0x0313, "GW_GET_LIMITATION_STATUS_CFM");
    (0x0314, "GW_LIMITATION_STATUS_NTF");
    (0x0320, "GW_MODE_SEND_REQ");
    (0x0321, "GW_MODE_SEND_CFM");
    (0x0322, "GW_MODE_SEND_NTF");
    (0x0400, "GW_INITIALIZE_SCENE_REQ");
    (0x0401, "GW_INITIALIZE_SCENE_CFM");
    (0x0402, "GW_INITIALIZE_SCENE_NTF");
    (0x0403, "GW_INITIALIZE_SCENE_CANCEL_REQ");
    (0x0404, "GW_INITIALIZE_SCENE_CANCEL_CFM");
    (0x0405, "GW_RECORD_SCENE_REQ");
    (0x0406, "GW_RECORD_SCENE_CFM");
    (0x0407, "GW_RECORD_SCENE_NTF");
    (0x0408, "GW_DELETE_SCENE_REQ");
    (0x0409, "GW_DELETE_SCENE_CFM");
    (0x040A, "GW_RENAME_SCENE_REQ");
    (0x040B, "GW_RENAME_SCENE_CFM");
    (0x040C, "GW_GET_SCENE_LIST_REQ");
    (0x040D, "GW_GET_SCENE_LIST_CFM");
    (0x040E, "GW_GET_SCENE_LIST_NTF");
    (0x040F, "GW_GET_SCENE_INFOAMATION_REQ");
    (0x0410, "GW_GET_SCENE_INFOAMATION_CFM");
    (0x0411, "GW_GET_SCENE_INFOAMATION_NTF");
    (0x0412, "GW_ACTIVATE_SCENE_REQ");
    (0x0413, "GW_ACTIVATE_SCENE_CFM");
    (0x0415, "GW_STOP_SCENE_REQ");
    (0x0416, "GW_STOP_SCENE_CFM");
    (0x0419, "GW_SCENE_INFORMATION_CHANGED_NTF");
    (0x0447, "GW_ACTIVATE_PRODUCTGROUP_REQ");
    (0x0448, "GW_ACTIVATE_PRODUCTGROUP_CFM");
    (0x0449, "GW_ACTIVATE_PRODUCTGROUP_NTF");
    (0x0460, "GW_GET_CONTACT_INPUT_LINK_LIST_REQ");
    (0x0461, "GW_GET_CONTACT_INPUT_LINK_LIST_CFM");
    (0x0462, "GW_SET_CONTACT_INPUT_LINK_REQ");
    (0x0463, "GW_SET_CONTACT_INPUT_LINK_CFM");
    (0x0464, "GW_REMOVE_CONTACT_INPUT_LINK_REQ");
    (0x0465, "GW_REMOVE_CONTACT_INPUT_LINK_CFM");
    (0x0500, "GW_GET_ACTIVATION_LOG_HEADER_REQ");
    (0x0501, "GW_GET_ACTIVATION_LOG_HEADER_CFM");
    (0x0502, "GW_CLEAR_ACTIVATION_LOG_REQ");
    (0x0503, "GW_CLEAR_ACTIVATION_LOG_CFM");
    (0x0504, "GW_GET_ACTIVATION_LOG_LINE_REQ");
    (0x0505, "GW_GET_ACTIVATION_LOG_LINE_CFM");
    (0x0506, "GW_ACTIVATION_LOG_UPDATED_NTF");
    (0x0507, "GW_GET_MULTIPLE_ACTIVATION_LOG_LINES_REQ");
    (0x0508, "GW_GET_MULTIPLE_ACTIVATION_LOG_LINES_NTF");
    (0x0509, "GW_GET_MULTIPLE_ACTIVATION_LOG_LINES_CFM");
    (0x2000, "GW_SET_UTC_REQ");
    (0x2001, "GW_SET_UTC_CFM");
    (0x2002, "GW_RTC_SET_TIME_ZONE_REQ");
    (0x2003, "GW_RTC_SET_TIME_ZONE_CFM");
    (0x2004, "GW_GET_LOCAL_TIME_REQ");
    (0x2005, "GW_GET_LOCAL_TIME_CFM");
    (0x3000, "GW_PASSWORD_ENTER_REQ");
    (0x3001, "GW_PASSWORD_ENTER_CFM");
    (0x3002, "GW_PASSWORD_CHANGE_REQ");
    (0x3003, "GW_PASSWORD_CHANGE_CFM");
    (0x3004, "GW_PASSWORD_CHANGE_NTF")
  ].

(** [commandsById[cmd]]: in an object literal a later key overrides an
    earlier one. *)
Fixpoint name_in (l : list (Z * string)) (cmd : Z) : option string :=
  match l with
  | [] => None
  | (id, name) :: rest =>
    match name_in rest cmd with
    | Some later => Some later
    | None => if id =? cmd then Some name else None
    end
  end.

Definition commandsById (cmd : Z) : option string :=
  name_in commandsById_table cmd.

(** [commands[name]], filled from [commandsById]; no name occurs twice
    there. *)
Fixpoint id_in (l : list (Z * string)) (name : string) : option Z :=
  match l with
  | [] => None
  | (id, n) :: rest =>
    match id_in rest name with
    | Some later => Some later
    | None => if String.eqb n name then Some id else None
    end
  end.

Definition commands (name : string) : option Z :=
  id_in commandsById_table name.

(** [name.slice(0, -3)] *)
Definition slice_3 (name : string) : string :=
  substring 0 (String.length name - 3) name.

(** The message of a [VeluxError] that the client emits. *)
Inductive message : Type :=
| InvalidProtocol (byte : Z)
| InvalidChecksum (byte : option Z) (checksum : Z)
| InvalidCommandId (cmd : Z)
| UnexpectedCommand (cmd : Z) (cmdName : string).

Record VeluxRequest : Type := {
  r_id : Z;
  r_cmd : Z;
  r_cmdName : string;
  r_resName : string;
  r_data : option Buffer.t
}.

(** What a call of [send] ends with when it fails: the error that the
    client emitted while the call waited, or an exception. *)
Inductive failure : Type :=
| VeluxError (m : message)
| Exception (e : exn).

Inductive event : Type :=
| EvData (buf : Buffer.t)
| EvError (m : message)
| EvRequest (request : VeluxRequest)
| EvSend (buf : Buffer.t)
| EvNotification (cmd : Z) (cmdName : string) (data : Buffer.t)
| EvResponse (request : VeluxRequest) (cmd : Z) (cmdName : string)
    (data : Buffer.t)
| EvNamed (name : string) (data : Buffer.t).

(** Where a call of [send] stands. *)
Inductive phase : Type :=
| Written                       (* at [await this._client.write(...)] *)
| Waiting (name : string)       (* at [await once(this, name)] *)
| Resolved (data : Buffer.t)    (* [once] fulfilled, [a[0]] is [data] *)
| Rejected (e : failure)        (* [once] rejected *)
| Returned (data : Buffer.t)
| Threw (e : failure).

Record client : Type := {
  requestId : Z;
  request : option VeluxRequest;          (* [this._request] *)
  calls : list phase;
  wire : list Buffer.t;
  events : list event;
  uncaught : option exn
}.

Definition init : client :=
  {| requestId := 0; request := None; calls := []; wire := [];
     events := []; uncaught := None |}.

Definition set_requestId (v : Z) (c : client) : client :=
  {| requestId := v; request := request c; calls := calls c;
     wire := wire c; events := events c; uncaught := uncaught c |}.
Definition set_request (v : option VeluxRequest) (c : client) : client :=
  {| requestId := requestId c; request := v; calls := calls c;
     wire := wire c; events := events c; uncaught := uncaught c |}.
Definition set_calls (v : list phase) (c : client) : client :=
  {| requestId := requestId c; request := request c; calls := v;
     wire := wire c; events := events c; uncaught := uncaught c |}.
Definition set_wire (v : list Buffer.t) (c : client) : client :=
  {| requestId := requestId c; request := request c; calls := calls c;
     wire := v; events := events c; uncaught := uncaught c |}.
Definition set_events (v : list event) (c : client) : client :=
  {| requestId := requestId c; request := request c; calls := calls c;
     wire := wire c; events := v; uncaught := uncaught c |}.
Definition set_uncaught (v : option exn) (c : client) : client :=
  {| requestId := requestId c; request := request c; calls := calls c;
     wire := wire c; events := events c; uncaught := v |}.

(** [this.emit(...)] of an event that no [once] waits for. *)
Definition emit (ev : event) (c : client) : client :=
  set_events (events c ++ [ev]) c.

(** [this.emit('error', new VeluxError(...))]: every pending [once] is
    rejected with the error. *)
Definition emit_error (m : message) (c : client) : client :=
  let c := emit (EvError m) c in
  set_calls (map (fun p => match p with
                           | Waiting _ => Rejected (VeluxError m)
                           | _ => p
                           end) (calls c)) c.

(** [this.emit(name, data)]: every [once(this, name)] is fulfilled. *)
Definition emit_named (name : string) (data : Buffer.t) (c : client)
  : client :=
  let c := emit (EvNamed name data) c in
  set_calls (map (fun p => match p with
                           | Waiting n =>
                             if String.eqb n name then Resolved data else p
                           | _ => p
                           end) (calls c)) c.

(** [new VeluxRequest(id, cmd, data)] *)
Section WithLib.

Variable lib : hb_lib_tools.

Definition new_VeluxRequest (id cmd : Z) (data : option Buffer.t)
  : except VeluxRequest :=
  match commandsById cmd with
  | Some cmdName =>
    if Js.endsWith cmdName "_REQ" then
      if bool_decide (250 < from_option (@length Z) 0 data)%nat then
        Throw (SyntaxError "data: more than 250 bytes")
      else
        Ok {| r_id := id; r_cmd := cmd; r_cmdName := cmdName;
              r_resName := slice_3 cmdName +:+ "CFM"; r_data := data |}
    else
      Throw (SyntaxError ("cmd: 0x" +:+ toHexString lib cmd 4
                          +:+ ": unknown request command ID"))
  | None =>
    Throw (SyntaxError ("cmd: 0x" +:+ toHexString lib cmd 4
                        +:+ ": unknown request command ID"))
  end.

(** [receive(buf)] *)
Definition receive (buf : Buffer.t) (c : client) : client :=
  let c := emit (EvData buf) c in
  if negb (bool_decide (buf !! 0%nat = Some Client.protocolId)) then
    match buf !! 0%nat with
    | Some byte => emit_error (InvalidProtocol byte) c
    | None =>
      (* toHexString(undefined, 2): the buffer is empty *)
      set_uncaught (Some (TypeError "Cannot read properties of undefined")) c
    end
  else
    let checksum := Client.checksum_of buf in
    if negb (bool_decide (buf !! (length buf - 1)%nat = Some checksum)) then
      emit_error (InvalidChecksum (buf !! (length buf - 1)%nat) checksum) c
    else
      match Buffer.readUInt16BE buf 2 with
      | Throw e => set_uncaught (Some e) c
      | Ok cmd =>
        let data := Client.frame_data buf in
        match commandsById cmd with
        | None => emit_error (InvalidCommandId cmd) c
        | Some cmdName =>
          if Js.endsWith cmdName "_NTF" then
            let c := emit (EvNotification cmd cmdName data) c in
            emit_named cmdName data c
          else if Js.endsWith cmdName "_CFM" then
            (* try { new VeluxResponse(this._request, cmd, data) ... } *)
            match request c with
            | Some r =>
              if String.eqb (slice_3 (r_cmdName r)) (slice_3 cmdName) then
                let c := emit (EvResponse r cmd cmdName data) c in
                emit_named cmdName data c
              else emit_error (UnexpectedCommand cmd cmdName) c
            | None => emit_error (UnexpectedCommand cmd cmdName) c
            end
          else emit_error (UnexpectedCommand cmd cmdName) c
        end
      end.

(** [send(cmd, data)] up to [await this._client.write(encode(buf))]; the
    call is the next entry of [calls]. *)
Definition send (cmd : Z) (data : option Buffer.t) (c : client) : client :=
  let c := set_requestId (requestId c + 1) c in          (* ++this._requestId *)
  match new_VeluxRequest (requestId c) cmd data with
  | Throw e => set_calls (calls c ++ [Threw (Exception e)]) c
  | Ok r =>
    let c := set_request (Some r) c in
    let c := emit (EvRequest r) c in
    match Client.frame cmd data with
    | Throw e => set_calls (calls c ++ [Threw (Exception e)]) c
    | Ok buf =>
      let c := emit (EvSend buf) c in
      let c := set_wire (wire c ++ [Slip.encode buf]) c in
      set_calls (calls c ++ [Written]) c
    end
  end.

(** Call [i] of [send] runs from the [await] it stands at to the next
    one, or to its end. *)
Definition resume (i : nat) (c : client) : client :=
  match calls c !! i with
  | Some Written =>
    (* once(this, this._request.cmdName.slice(0, -3) + 'CFM') *)
    match request c with
    | Some r =>
      set_calls (<[i := Waiting (slice_3 (r_cmdName r) +:+ "CFM")]> (calls c)) c
    | None =>
      set_calls
        (<[i := Threw (Exception
                         (TypeError "Cannot read properties of null"))]>
           (calls c)) c
    end
  | Some (Resolved data) =>
    (* this._request = null; return a[0] *)
    set_calls (<[i := Returned data]> (calls c)) (set_request None c)
  | Some (Rejected e) => set_calls (<[i := Threw e]> (calls c)) c
  | _ => c
  end.

Inductive action : Type :=
| Send (cmd : Z) (data : option Buffer.t)
| Resume (i : nat)
| Receive (buf : Buffer.t).

(** One turn; an uncaught exception ends the process. *)
Definition exec (a : action) (c : client) : client :=
  match uncaught c with
  | Some _ => c
  | None =>
    match a with
    | Send cmd data => send cmd data c
    | Resume i => resume i c
    | Receive buf => receive buf c
    end
  end.

Definition run (l : list action) (c : client) : client :=
  fold_left (fun c a => exec a c) l c.

(** *** The [gw...] methods: what they send, and what they make of the
    confirmation that [send] returns *)

(** [sw] is filled by [for (let i = 0; i < 6; i++)]. *)
Definition gwGetVersion_result (response : Buffer.t) : except value :=
  sw ← read_bytes response 0 6;
  hardwareVersion ← Buffer.readUInt8 response 6;
  productGroup ← Buffer.readUInt8 response 7;
  productType ← Buffer.readUInt8 response 8;
  Ok (VObj [ ("softwareVersion", VStr (join_dot sw));
             ("hardwareVersion", VNum hardwareVersion);
             ("productGroup", VNum productGroup);
             ("productType", VNum productType) ]).

(** One pass of the loop in the listener that [gwCsGetSystemtableData]
    installs for [GW_CS_GET_SYSTEMTABLE_DATA_NTF].  The operands of [<<],
    [|], [&] and [>>] are bytes or 16-bit numbers, on which they are the
    operations of [Z]. *)
Definition systemtable_entry (data : Buffer.t) (i : nat) : except value :=
  index ← Buffer.readUInt8 data (11 * i + 1);
  a2 ← Buffer.readUInt8 data (11 * i + 2);
  a3 ← Buffer.readUInt8 data (11 * i + 3);
  a4 ← Buffer.readUInt8 data (11 * i + 4);
  let address := Z.lor (Z.lor (Z.shiftl a2 16) (Z.shiftl a3 8)) a4 in
  actuatorType ← Buffer.readUInt16BE data (11 * 1 + 5);
  powerState ← Buffer.readUInt8 data (11 * i + 7);
  manufacturerId ← Buffer.readUInt8 data (11 * i + 8);
  b9 ← Buffer.readUInt8 data (11 * i + 9);
  b10 ← Buffer.readUInt8 data (11 * i + 10);
  b11 ← Buffer.readUInt8 data (11 * i + 11);
  let backbone := Z.lor (Z.lor (Z.shiftl b9 16) (Z.shiftl b10 8)) b11 in
  Ok (VObj
        [ ("index", VNum index);
          ("address", VStr ("0x" +:+ toHexString lib address 6));
          ("actuatorType",
           VObj [ ("_raw", VStr (toHexString lib actuatorType 4));
                  ("type", VNum (Z.shiftr (Z.land actuatorType 0xFFC0) 6));
                  ("subtype", VNum (Z.land actuatorType 0x3F)) ]);
          ("powerState",
           VObj [ ("_raw", VStr ("0x" +:+ toHexString lib powerState 2));
                  ("powerSaveMode", VNum (Z.land powerState 0x03));
                  ("ioMembership",
                   VNum (Z.shiftr (Z.land powerState 0x04) 2));
                  ("rfSupport", VNum (Z.shiftr (Z.land powerState 0x08) 3));
                  ("turnaroundTime",
                   VNum (Z.shiftr (Z.land powerState 0xC0) 6)) ]);
          ("manufacturer", VStr (decodeManufacturerId lib manufacturerId));
          ("backbone", VStr ("0x" +:+ toHexString lib backbone 6)) ]).

Fixpoint systemtable_loop (data : Buffer.t) (i n : nat)
    (response : list value) : except (list value) :=
  match n with
  | O => Ok response
  | S n' =>
    entry ← systemtable_entry data i;
    systemtable_loop data (S i) n' (response ++ [entry])   (* response.push *)
  end.

(** The listener: the entries are pushed on [response]; the result tells
    whether [GW_CS_GET_SYSTEMTABLE_DATA_DONE] is emitted. *)
Definition systemtable_listener (data : Buffer.t) (response : list value)
  : except (list value * bool) :=
  nEntries ← Buffer.readUInt8 data 0;
  response ← systemtable_loop data 0 (Z.to_nat nEntries) response;
  remaining ← Buffer.readUInt8 data (Z.to_nat nEntries * 11 + 1);
  Ok (response, remaining =? 0).

End WithLib.

End VeluxClient.

(** ** Examples: a registry and frames to run the client on *)

(** The registry with the reference helpers. *)
Definition registry : list (string * Api.command) := Api.commands RefLib.lib.

(** The modelled registry with the reference helpers. *)
Definition registry_modelled : list (string * Api.command) :=
  Api.modelled_commands RefLib.lib RefLib.utf8_decode.

(** A frame as the gateway sends it, with the right checksum. *)
Definition gateway_frame (cmd : Z) (data : list Z) : list Z :=
  match Client.frame cmd (Some data) with
  | Ok buf => buf
  | Throw _ => []
  end.

(** * Properties *)

(** ** SLIP framing *)

Section SlipFacts.

Import Slip.

Lemma length_stuff b : (1 <= length (stuff b) <= 2)%nat.
Proof. unfold stuff. repeat case_match; simpl; lia. Qed.

Lemma length_flat_map_stuff (bs : list Z) :
  (length bs <= length (flat_map stuff bs) <= 2 * length bs)%nat.
Proof.
  induction bs as [|b bs IH]; simpl; [lia|].
  rewrite length_app. pose proof (length_stuff b). lia.
Qed.

(** The loop of [encode] appends the stuffed bytes to what [out] already
    holds, as long as [out] has room for them. *)
Lemma encode_loop_stuff (rest : list Z) :
  forall (fuel : nat) (done pre tail : list Z),
    (length rest <= fuel)%nat ->
    (2 * length rest <= length tail)%nat ->
    encode_loop fuel (done ++ rest) (pre ++ tail) (length done) (length pre)
    = (pre ++ flat_map stuff rest
           ++ drop (length (flat_map stuff rest)) tail,
       (length pre + length (flat_map stuff rest))%nat).
Proof.
  induction rest as [|b rest IH]; intros fuel done pre tail Hfuel Hroom.
  - simpl. rewrite app_nil_r, drop_0, Nat.add_0_r.
    destruct fuel; cbn [encode_loop]; [done|].
    by rewrite lookup_ge_None_2 by lia.
  - destruct fuel as [|fuel]; simpl in Hfuel; [lia|].
    simpl in Hroom.
    destruct tail as [|t0 [|t1 tail]]; simpl in Hroom; try lia.
    cbn [encode_loop].
    rewrite lookup_app_r by lia. rewrite Nat.sub_diag. cbn [lookup list_lookup].
    replace (done ++ b :: rest) with ((done ++ [b]) ++ rest)
      by (by rewrite <- app_assoc).
    replace (S (length done)) with (length (done ++ [b]))
      by (rewrite length_app; simpl; lia).
    cbn [flat_map].
    destruct (b =? END) eqn:HEND; [|destruct (b =? ESC) eqn:HESC].
    + assert (stuff b = [ESC; ESC_END]) as ->
        by (unfold stuff; by rewrite HEND).
      replace (<[S (length pre):=ESC_END]> (<[length pre:=ESC]> (pre ++ t0 :: t1 :: tail)))
        with ((pre ++ [ESC; ESC_END]) ++ tail).
      2:{ rewrite (insert_app_r_alt pre) by lia. rewrite Nat.sub_diag.
          cbn [insert list_insert].
          rewrite (insert_app_r_alt pre) by lia.
          replace (S (length pre) - length pre)%nat with 1%nat by lia.
          cbn [insert list_insert]. by rewrite <- app_assoc. }
      replace (S (S (length pre))) with (length (pre ++ [ESC; ESC_END]))
        by (rewrite length_app; simpl; lia).
      rewrite IH by (simpl; lia).
      rewrite length_app. cbn [length app drop].
      rewrite <- !app_assoc. f_equal. lia.
    + assert (stuff b = [ESC; ESC_ESC]) as ->
        by (unfold stuff; by rewrite HEND, HESC).
      replace (<[S (length pre):=ESC_ESC]> (<[length pre:=ESC]> (pre ++ t0 :: t1 :: tail)))
        with ((pre ++ [ESC; ESC_ESC]) ++ tail).
      2:{ rewrite (insert_app_r_alt pre) by lia. rewrite Nat.sub_diag.
          cbn [insert list_insert].
          rewrite (insert_app_r_alt pre) by lia.
          replace (S (length pre) - length pre)%nat with 1%nat by lia.
          cbn [insert list_insert]. by rewrite <- app_assoc. }
      replace (S (S (length pre))) with (length (pre ++ [ESC; ESC_ESC]))
        by (rewrite length_app; simpl; lia).
      rewrite IH by (simpl; lia).
      rewrite length_app. cbn [length app drop].
      rewrite <- !app_assoc. f_equal. lia.
    + assert (stuff b = [b]) as ->
        by (unfold stuff; by rewrite HEND, HESC).
      replace (<[length pre:=b]> (pre ++ t0 :: t1 :: tail))
        with ((pre ++ [b]) ++ t1 :: tail).
      2:{ rewrite (insert_app_r_alt pre) by lia. rewrite Nat.sub_diag.
          cbn [insert list_insert]. by rewrite <- app_assoc. }
      replace (S (length pre)) with (length (pre ++ [b]))
        by (rewrite length_app; simpl; lia).
      rewrite IH by (simpl; lia).
      rewrite length_app. cbn [length app drop].
      rewrite <- !app_assoc. f_equal. lia.
Qed.

(** [encode] wraps the stuffed bytes in two [END]s. *)
Lemma encode_stuff (buf : list Z) :
  encode buf = END :: flat_map stuff buf ++ [END].
Proof.
  unfold encode, Buffer.alloc, Buffer.subarray.
  replace (length buf * 2 + 2)%nat with (S (S (2 * length buf))) by lia.
  cbn [repeat insert list_insert].
  pose proof (encode_loop_stuff buf (length buf) [] [END]
                (0 :: repeat 0 (2 * length buf))) as H.
  cbn [app length] in H. rewrite H by (simpl; rewrite ?repeat_length; lia).
  clear H. pose proof (length_flat_map_stuff buf) as Hlen.
  set (s := flat_map stuff buf) in *.
  rewrite drop_0, Nat.sub_0_r.
  replace (END :: s ++ drop (length s) (0 :: repeat 0 (2 * length buf)))
    with ((END :: s) ++ drop (length s) (0 :: repeat 0 (2 * length buf)))
    by done.
  rewrite insert_app_r_alt by (simpl; lia).
  replace (1 + length s - length (END :: s))%nat with 0%nat by (simpl; lia).
  destruct (drop (length s) (0 :: repeat 0 (2 * length buf))) as [|d ds] eqn:Hd.
  { apply (f_equal length) in Hd. rewrite length_drop in Hd. simpl in Hd.
    rewrite repeat_length in Hd. lia. }
  cbn [insert list_insert].
  replace ((END :: s) ++ END :: ds) with ((END :: s ++ [END]) ++ ds)
    by (simpl; by rewrite <- app_assoc).
  apply take_app_length'. simpl. rewrite length_app. simpl. lia.
Qed.

(** The loop of [decode] over stuffed bytes: after it, [out] holds the
    unescaped bytes only where the input byte needed no escape. *)
Lemma decode_loop_stuffed (rest : list Z) :
  forall (fuel : nat) (junk outdone outrest : list Z),
    (length rest <= fuel)%nat ->
    (length outdone < length junk)%nat ->
    (length rest <= length outrest)%nat ->
    exists buf',
      decode_loop fuel (junk ++ flat_map stuff rest ++ [END])
                  (outdone ++ outrest) (length junk) (length outdone)
      = Ok (buf',
            outdone ++ zip_with kept rest outrest
                    ++ drop (length rest) outrest,
            (length outdone + length rest)%nat).
Proof.
  induction rest as [|b rest IH]; intros fuel junk outdone outrest Hfuel Ho Hroom.
  - exists (junk ++ [END]). cbn [flat_map app zip_with length].
    rewrite drop_0, Nat.add_0_r.
    destruct fuel; cbn [decode_loop]; [done|].
    rewrite bool_decide_eq_false_2; [done|].
    rewrite length_app. simpl. lia.
  - destruct fuel as [|fuel]; simpl in Hfuel; [lia|].
    destruct outrest as [|m outrest]; simpl in Hroom; [lia|].
    cbn [decode_loop flat_map].
    rewrite bool_decide_eq_true_2.
    2:{ rewrite !length_app. pose proof (length_stuff b). simpl. lia. }
    rewrite lookup_app_r by lia. rewrite Nat.sub_diag.
    rewrite <- !app_assoc.
    destruct (b =? END) eqn:HEND; [|destruct (b =? ESC) eqn:HESC].
    + assert (stuff b = [ESC; ESC_END]) as ->
        by (unfold stuff; by rewrite HEND).
      cbn [app lookup list_lookup].
      change (ESC =? END) with false. change (ESC =? ESC) with true.
      cbn match.
      rewrite lookup_app_r by lia.
      replace (S (length junk) - length junk)%nat with 1%nat by lia.
      cbn [lookup list_lookup].
      change (ESC_END =? ESC_END) with true. cbn match.
      rewrite insert_app_l by lia.
      destruct (IH fuel (<[length outdone:=END]> junk ++ [ESC; ESC_END])
                  (outdone ++ [m]) outrest) as [buf' Hbuf'].
      { lia. }
      { rewrite !length_app, length_insert. simpl. lia. }
      { lia. }
      exists buf'. rewrite !length_app, length_insert in Hbuf'.
      cbn [length] in Hbuf'.
      replace (length junk + 2)%nat with (S (S (length junk))) in Hbuf' by lia.
      replace (length outdone + 1)%nat with (S (length outdone)) in Hbuf' by lia.
      rewrite <- !app_assoc in Hbuf'. cbn [app] in Hbuf'.
      rewrite Hbuf'. cbn [zip_with length drop app].
      assert (kept b m = m) as ->
        by (unfold kept, escaped; by rewrite HEND).
      do 2 f_equal. lia.
    + assert (stuff b = [ESC; ESC_ESC]) as ->
        by (unfold stuff; by rewrite HEND, HESC).
      cbn [app lookup list_lookup].
      change (ESC =? END) with false. change (ESC =? ESC) with true.
      cbn match.
      rewrite lookup_app_r by lia.
      replace (S (length junk) - length junk)%nat with 1%nat by lia.
      cbn [lookup list_lookup].
      change (ESC_ESC =? ESC_END) with false.
      change (ESC_ESC =? ESC_ESC) with true. cbn match.
      rewrite insert_app_l by lia.
      destruct (IH fuel (<[length outdone:=ESC]> junk ++ [ESC; ESC_ESC])
                  (outdone ++ [m]) outrest) as [buf' Hbuf'].
      { lia. }
      { rewrite !length_app, length_insert. simpl. lia. }
      { lia. }
      exists buf'. rewrite !length_app, length_insert in Hbuf'.
      cbn [length] in Hbuf'.
      replace (length junk + 2)%nat with (S (S (length junk))) in Hbuf' by lia.
      replace (length outdone + 1)%nat with (S (length outdone)) in Hbuf' by lia.
      rewrite <- !app_assoc in Hbuf'. cbn [app] in Hbuf'.
      rewrite Hbuf'. cbn [zip_with length drop app].
      assert (kept b m = m) as ->
        by (unfold kept, escaped; by rewrite HEND, HESC).
      do 2 f_equal. lia.
    + assert (stuff b = [b]) as ->
        by (unfold stuff; by rewrite HEND, HESC).
      cbn [app lookup list_lookup]. rewrite HEND, HESC.
      rewrite insert_app_r_alt by lia. rewrite Nat.sub_diag.
      cbn [insert list_insert].
      destruct (IH fuel (junk ++ [b]) (outdone ++ [b]) outrest)
        as [buf' Hbuf'].
      { lia. }
      { rewrite !length_app. simpl. lia. }
      { lia. }
      exists buf'. rewrite !length_app in Hbuf'. cbn [length] in Hbuf'.
      replace (length junk + 1)%nat with (S (length junk)) in Hbuf' by lia.
      replace (length outdone + 1)%nat with (S (length outdone)) in Hbuf' by lia.
      rewrite <- !app_assoc in Hbuf'. cbn [app] in Hbuf'.
      rewrite Hbuf'. cbn [zip_with length drop app].
      assert (kept b m = b) as ->
        by (unfold kept, escaped; by rewrite HEND, HESC).
      do 2 f_equal. lia.
Qed.

(** Decoding an encoded buffer: every byte that needed no escape comes
    back, and every byte that was escaped comes back as the byte that the
    unsafely allocated output held at its index. *)
Lemma decode_encode (pool : nat -> Z) (buf : list Z) :
  decode pool (encode buf)
  = Ok (zip_with kept buf (Buffer.allocUnsafe pool (length buf))).
Proof.
  rewrite encode_stuff. unfold decode, decode_run.
  pose proof (length_flat_map_stuff buf) as Hlen.
  set (s := flat_map stuff buf) in *.
  assert (length (END :: s ++ [END]) = S (S (length s))) as Hl
    by (simpl; rewrite length_app; simpl; lia).
  rewrite Hl.
  rewrite bool_decide_eq_false_2 by lia.
  rewrite (bool_decide_eq_true_2 ((END :: s ++ [END]) !! 0%nat = Some END))
    by done.
  rewrite bool_decide_eq_true_2.
  2:{ replace (S (S (length s)) - 1)%nat with (S (length s)) by lia.
      change (END :: s ++ [END]) with ([END] ++ s ++ [END]).
      rewrite lookup_app_r by (simpl; lia).
      rewrite lookup_app_r by (simpl; lia).
      by replace (S (length s) - length [END] - length s)%nat with 0%nat
        by (simpl; lia). }
  cbn [orb negb].
  replace (S (S (length s)) - 2)%nat with (length s) by lia.
  destruct (decode_loop_stuffed buf (S (S (length s))) [END] []
              (Buffer.allocUnsafe pool (length s))) as [buf' Hbuf'].
  { lia. }
  { simpl. lia. }
  { unfold Buffer.allocUnsafe. rewrite length_map, length_seq. lia. }
  cbn [app length] in Hbuf'. fold s in Hbuf'.
  rewrite Hbuf'. cbn. f_equal. unfold Buffer.subarray.
  rewrite drop_0, Nat.sub_0_r.
  rewrite take_app_length'.
  2:{ rewrite length_zip_with_l; [done|].
      unfold Buffer.allocUnsafe. rewrite length_map, length_seq. lia. }
  rewrite <- (zip_with_take_r kept buf (Buffer.allocUnsafe pool (length s))).
  f_equal. unfold Buffer.allocUnsafe.
  rewrite <- fmap_take. rewrite take_seq. f_equal. f_equal. lia.
Qed.

(** On buffers without [END] and [ESC] bytes the round trip holds. *)
Lemma decode_encode_unescaped (pool : nat -> Z) (buf : list Z) :
  Forall (fun b => escaped b = false) buf ->
  decode pool (encode buf) = Ok buf.
Proof.
  intros Hbuf. rewrite decode_encode. f_equal.
  unfold Buffer.allocUnsafe.
  generalize 0%nat. induction Hbuf as [|b buf Hb _ IH]; intros n; [done|].
  cbn [length seq map zip_with]. unfold kept at 1. rewrite Hb.
  f_equal. apply IH.
Qed.

End SlipFacts.

(** C1 (the round trip [decode(encode(b)) == b] for every [b]) does not
    hold of the code: for the one-byte buffer [C0], [decode] assigns the
    unescaped byte to its input [buf] instead of [out], and returns the byte
    that the unsafely allocated [out] happened to hold. *)
Theorem slip_round_trip_loses_END :
  forall pool : nat -> Z,
    Slip.decode pool (Slip.encode [Slip.END]) = Ok [pool 0%nat].
Proof. intros pool. rewrite decode_encode. reflexivity. Qed.

(** The same for [ESC], and what the call leaves in the caller's buffer:
    the unescaped byte, written over the leading [END]. *)
Example slip_round_trip_loses_ESC :
  Slip.decode_run (fun _ => 0xAA) (Slip.encode [Slip.ESC; 3])
  = Ok ([0xAA; 3], [0xDB; 0xDB; 0xDD; 3; 0xC0]).
Proof. reflexivity. Qed.

(** [encode] is as specified: [END], the payload with every [END] replaced
    by [ESC, ESC_END] and every [ESC] by [ESC, ESC_ESC], [END]. *)
Theorem slip_encode_stuffs (buf : list Z) :
  Slip.encode buf = Slip.END :: flat_map Slip.stuff buf ++ [Slip.END].
Proof. apply encode_stuff. Qed.

(** The round trip does hold for every buffer without [END] and [ESC]
    bytes. *)
Theorem slip_round_trip_unescaped :
  forall (pool : nat -> Z) (buf : list Z),
    Forall (fun b => Slip.escaped b = false) buf ->
    Slip.decode pool (Slip.encode buf) = Ok buf.
Proof. exact decode_encode_unescaped. Qed.

Lemma slip_round_trip_unescaped_witness :
  Slip.decode (fun _ => 0) (Slip.encode [1; 2; 3]) = Ok [1; 2; 3].
Proof.
  apply (slip_round_trip_unescaped (fun _ => 0) [1; 2; 3]).
  repeat constructor.
Defined.


(** ** The wire frame *)

Section FrameFacts.

Lemma lxor_byte (a b : Z) :
  0 <= a < 256 -> 0 <= b < 256 -> 0 <= Z.lxor a b < 256.
Proof.
  intros Ha Hb. split; [apply Z.lxor_nonneg; lia|].
  destruct (Z.eq_dec (Z.lxor a b) 0) as [->|Hne]; [lia|].
  assert (0 < Z.lxor a b) by (pose proof (proj2 (Z.lxor_nonneg a b)); lia).
  change 256 with (2 ^ 8). apply Z.log2_lt_pow2; [done|].
  pose proof (Z.log2_lxor a b ltac:(lia) ltac:(lia)) as Hl.
  assert (Z.log2 a < 8).
  { destruct (Z.eq_dec a 0) as [->|]; [done|].
    apply Z.log2_lt_pow2; lia. }
  assert (Z.log2 b < 8).
  { destruct (Z.eq_dec b 0) as [->|]; [done|].
    apply Z.log2_lt_pow2; lia. }
  lia.
Qed.

Lemma fold_lxor_byte (l : list Z) :
  forall acc, 0 <= acc < 256 -> Buffer.wf l ->
              0 <= fold_left Z.lxor l acc < 256.
Proof.
  induction l as [|b l IH]; intros acc Hacc Hl; [done|].
  inversion Hl; subst. simpl. apply IH; [|done]. by apply lxor_byte.
Qed.

Lemma xor_all_byte (l : list Z) : Buffer.wf l -> 0 <= Buffer.xor_all l < 256.
Proof. intros. apply fold_lxor_byte; [lia|done]. Qed.

Lemma xor_all_snoc (l : list Z) (b : Z) :
  Buffer.xor_all (l ++ [b]) = Z.lxor (Buffer.xor_all l) b.
Proof. unfold Buffer.xor_all. by rewrite fold_left_app. Qed.

(** [src.copy(dst, off)] overwrites as many bytes as [src] has. *)
Lemma copy_middle (src : list Z) :
  forall pre mid post : list Z,
    length mid = length src ->
    Buffer.copy src (pre ++ mid ++ post) (length pre) = pre ++ src ++ post.
Proof.
  induction src as [|b src IH]; intros pre mid post Hlen.
  - by destruct mid.
  - destruct mid as [|m mid]; [done|]. simpl in Hlen.
    cbn [Buffer.copy]. rewrite insert_app_r_alt by lia.
    rewrite Nat.sub_diag. cbn [app insert list_insert].
    replace (pre ++ b :: mid ++ post) with ((pre ++ [b]) ++ mid ++ post)
      by (by rewrite <- app_assoc).
    replace (S (length pre)) with (length (pre ++ [b]))
      by (rewrite length_app; simpl; lia).
    rewrite IH by lia. by rewrite <- app_assoc.
Qed.

(** The frame that [request()] builds for a command id and a payload. *)
Lemma frame_bytes (cmd : Z) (p : list Z) :
  0 <= cmd <= 0xFFFF -> Buffer.wf p -> (length p <= 250)%nat ->
  let body := [0; Z.of_nat (length p) + 3; cmd / 256; cmd mod 256] ++ p in
  Client.frame cmd (Some p) = Ok (body ++ [Buffer.xor_all body]).
Proof.
  intros Hcmd Hp Hlen body. unfold Client.frame, Buffer.alloc.
  cbn [from_option].
  replace (length p + 5)%nat with (S (S (S (S (length p + 1))))) by lia.
  cbn [repeat insert list_insert].
  unfold Buffer.writeUInt16BE.
  rewrite bool_decide_eq_true_2 by lia.
  rewrite bool_decide_eq_true_2
    by (cbn [length]; rewrite repeat_length; lia).
  cbn [andb insert list_insert mbind except_bind].
  rewrite Z.mod_small by lia.
  rewrite Z.shiftr_div_pow2 by lia.
  change 255 with (Z.ones 8). rewrite Z.land_ones by lia.
  change (2 ^ 8) with 256.
  rewrite repeat_app. cbn [repeat].
  change (Client.protocolId :: ?x) with (0 :: x).
  pose proof (copy_middle p [0; Z.of_nat (length p) + 3; cmd / 256; cmd mod 256]
                (repeat 0 (length p)) [0]) as Hcopy.
  cbn [length app] in Hcopy. cbn [app].
  rewrite Hcopy by (by rewrite repeat_length). clear Hcopy.
  change (0 :: Z.of_nat (length p) + 3 :: cmd / 256 :: cmd mod 256 :: p ++ [0])
    with (body ++ [0]).
  rewrite xor_all_snoc, Z.lxor_0_r.
  assert (Buffer.wf body) as Hbody.
  { unfold body. repeat apply Forall_cons_2; try done; try lia.
    - split; [apply Z.div_pos; lia|]. apply Z.div_lt_upper_bound; lia.
    - apply Z.mod_pos_bound. lia. }
  pose proof (xor_all_byte body Hbody) as Hc.
  unfold Buffer.writeUInt8.
  rewrite bool_decide_eq_true_2 by lia.
  rewrite bool_decide_eq_true_2
    by (unfold body; rewrite !length_app; simpl; lia).
  cbn [andb]. f_equal.
  rewrite insert_app_r_alt by (unfold body; simpl; lia).
  replace (length p + 4 - length body)%nat with 0%nat
    by (unfold body; simpl; lia).
  done.
Qed.

End FrameFacts.



(** ** The dispatcher *)

Section ReceiveFacts.

Import Api Client.

Variable commands : list (string * command).



Lemma receive_checksum_match (body : list Z) (c : client) :
  body !! 0%nat = Some 0 ->
  receive commands (body ++ [Buffer.xor_all body]) c
  = dispatch commands (body ++ [Buffer.xor_all body])
      (emit (EvData (body ++ [Buffer.xor_all body])) c).
Proof.
  intros H0. unfold receive, checksum_of.
  assert (0 < length body)%nat by (by apply lookup_lt_Some in H0).
  rewrite lookup_app_l by lia. rewrite H0.
  rewrite bool_decide_eq_true_2 by done. cbn [negb].
  rewrite length_app. cbn [length].
  replace (length body + 1 - 1)%nat with (length body) by lia.
  rewrite take_app_length, lookup_app_r by lia.
  rewrite Nat.sub_diag. cbn [lookup list_lookup].
  rewrite bool_decide_eq_true_2 by done. done.
Qed.

(** *** What [#receive] and the timers leave alone *)

Lemma map_shape_alter (f : task -> task) (i : nat) (l : list task) :
  (forall t, l !! i = Some t -> task_shape (f t) = task_shape t) ->
  map task_shape (alter f i l) = map task_shape l.
Proof.
  revert i. induction l as [|t l IH]; intros i Hf; [done|].
  destruct i as [|i]; cbn.
  - f_equal. by apply Hf.
  - f_equal. apply IH. intros t' Ht'. by apply Hf.
Qed.

Lemma shape_update_task (i : nat) (f : task -> task) (c : client) :
  (forall t, tasks c !! i = Some t -> task_shape (f t) = task_shape t) ->
  shape (update_task i f c) = shape c.
Proof.
  intros Hf. unfold shape, update_task. cbn. by rewrite map_shape_alter.
Qed.

Lemma shape_update_session i f c : shape (update_session i f c) = shape c.
Proof. by apply shape_update_task. Qed.

Lemma shape_set_result i v c : shape (set_result i v c) = shape c.
Proof. apply shape_update_session. Qed.

Lemma tasks_update_session_pc i f c t :
  tasks (update_session i f c) !! i = Some t ->
  exists t0, tasks c !! i = Some t0 /\ t_pc t = t_pc t0.
Proof.
  unfold update_session, update_task. cbn. intros Ht.
  destruct (tasks c !! i) as [t0|] eqn:Ht0.
  - rewrite (list_lookup_alter_eq _ _ _) in Ht. rewrite Ht0 in Ht.
    injection Ht as <-. by exists t0.
  - apply lookup_lt_Some in Ht. rewrite length_alter in Ht.
    apply lookup_ge_None in Ht0. lia.
Qed.

Lemma shape_session_emit_error i e c :
  shape (session_emit_error i e c) = shape c.
Proof.
  unfold session_emit_error. destruct (tasks c !! i) as [t|] eqn:Ht; [|done].
  destruct (t_pc t) eqn:Hpc; try done;
    apply shape_update_task; intros t' Ht'; simplify_eq;
    unfold task_shape; cbn; by rewrite Hpc.
Qed.

Lemma shape_session_emit_cfm i payload c :
  shape (session_emit_cfm i payload c) = shape c.
Proof.
  unfold session_emit_cfm. destruct (tasks c !! i) as [t|] eqn:Ht; [|done].
  destruct (t_pc t) eqn:Hpc; rewrite ?shape_update_session; try done.
  rewrite shape_update_task; [apply shape_update_session|].
  intros t' Ht'. apply tasks_update_session_pc in Ht' as (t0 & Ht0 & Hpc').
  simplify_eq. unfold task_shape; cbn. by rewrite Hpc', Hpc.
Qed.

Lemma shape_session_emit_done i c :
  shape (session_emit_done i c) = shape c.
Proof.
  unfold session_emit_done. destruct (tasks c !! i) as [t|] eqn:Ht; [|done].
  destruct (t_pc t) eqn:Hpc; rewrite ?shape_update_session; try done.
  rewrite shape_update_task; [apply shape_update_session|].
  intros t' Ht'. apply tasks_update_session_pc in Ht' as (t0 & Ht0 & Hpc').
  simplify_eq. unfold task_shape; cbn. by rewrite Hpc', Hpc.
Qed.

Lemma shape_apply_view session sv c :
  shape (apply_view session sv c) = shape c.
Proof.
  unfold apply_view. destruct session, sv; try done.
  case_match; rewrite ?shape_session_emit_done; apply shape_set_result.
Qed.

Lemma shape_decode_step command data session c :
  shape (decode_step command data session c).2 = shape c.
Proof.
  unfold decode_step. destruct (decode command) as [dec|]; [|done].
  destruct (dec data (session ≫= view c)) as [[payload|e] sv]; cbn.
  - apply shape_apply_view.
  - destruct session; rewrite ?shape_session_emit_error;
      apply shape_apply_view.
Qed.

Lemma shape_session_step payload session c :
  shape (session_step payload session c).2 = shape c.
Proof.
  unfold session_step. repeat case_match; cbn; try done.
  apply shape_set_result.
Qed.

Lemma shape_andThen c (k : client -> client) :
  (forall c', shape (k c') = shape c') -> shape (andThen c k) = shape c.
Proof. intros Hk. unfold andThen. by destruct (uncaught c). Qed.

Lemma shape_dispatch buf c : shape (dispatch commands buf c) = shape c.
Proof.
  unfold dispatch.
  destruct (Buffer.readUInt16BE buf 2) as [cmd|e]; [|done].
  destruct (commandNameById commands cmd) as [cmdName|]; [|done].
  set (c0 := if _ : bool then _ else c).
  assert (shape c0 = shape c) as <- by (unfold c0; by case_match).
  clearbody c0.
  destruct (command_by_name commands cmdName) as [command|]; [|done].
  pose proof (shape_decode_step command (frame_data buf)
                (sessions c0 !! from_option pretty "undefined" (req command))
                c0) as H1.
  destruct (decode_step _ _ _ _) as [payload c1]. cbn in H1. rewrite <- H1.
  apply shape_andThen. intros c2.
  pose proof (shape_session_step payload
                (sessions c0 !! from_option pretty "undefined" (req command))
                c2) as H2.
  destruct (session_step _ _ _) as [[session payload'] c3]. cbn in H2.
  rewrite <- H2. apply shape_andThen. intros c4.
  set (c5 := emit _ c4).
  assert (shape c5 = shape c4) as <- by done. clearbody c5.
  set (c6 := if _ : bool then _ else c5).
  assert (shape c6 = shape c5) as <-.
  { unfold c6. case_match; [|done].
    destruct session; cbn; [apply shape_session_emit_cfm|done]. }
  clearbody c6.
  destruct (command_by_name commands "GW_SESSION_FINISHED_NTF"); [|done].
  case_match; [|done].
  destruct session; cbn; [apply shape_session_emit_done|done].
Qed.

Lemma shape_receive buf c : shape (receive commands buf c) = shape c.
Proof.
  unfold receive. case_match; [by case_match|].
  rewrite shape_dispatch. by case_match.
Qed.

Lemma shape_on_data pool data c : shape (on_data commands pool data c) = shape c.
Proof.
  unfold on_data. destruct (Slip.decode pool data); [|done].
  apply shape_receive.
Qed.

Lemma shape_cfm_timeout i c : shape (cfm_timeout i c) = shape c.
Proof.
  unfold cfm_timeout. repeat case_match; try done.
  rewrite shape_session_emit_error. apply shape_update_session.
Qed.

Lemma shape_done_timeout i c : shape (done_timeout i c) = shape c.
Proof.
  unfold done_timeout. repeat case_match; try done.
  rewrite shape_session_emit_error. apply shape_update_session.
Qed.

End ReceiveFacts.

(** ** The request pipeline *)

Section RequestFacts.

Import Api Client.

Variable commands : list (string * command).

Local Abbreviation shapes := (list (string * VeluxRequest * phase)).

Lemma lookup_insert_cases {A} (l : list A) (i j : nat) (x y z : A) :
  l !! i = Some y -> <[i := x]> l !! j = Some z ->
  (j = i /\ z = x) \/ (j <> i /\ l !! j = Some z).
Proof.
  intros Hi Hj. destruct (decide (i = j)) as [->|Hne].
  - rewrite list_lookup_insert_eq in Hj by (by eapply lookup_lt_Some).
    left. by simplify_eq.
  - rewrite list_lookup_insert_ne in Hj by done. right. by split.
Qed.

Lemma inv_move ss b (ts : shapes) i k r ph ph' ss' b' :
  Inv (ss, b, ts) -> ts !! i = Some (k, r, ph) ->
  move k i ss b ph ph' ss' b' ->
  Inv (ss', b', <[i := (k, r, ph')]> ts).
Proof.
  intros (HA & HB & HC & HD) Hi Hmove.
  assert (forall j k1 r1 ph1,
             <[i := (k, r, ph')]> ts !! j = Some (k1, r1, ph1) ->
             (j = i /\ k1 = k /\ r1 = r /\ ph1 = ph')
             \/ (j <> i /\ ts !! j = Some (k1, r1, ph1))) as Hcases.
  { intros j k1 r1 ph1 Hj.
    destruct (lookup_insert_cases _ _ _ _ _ _ Hi Hj) as [[-> ?]|[? ?]];
      [left; by simplify_eq|by right]. }
  split; [|split; [|split]].
  - (* a live call owns the entry of its key *)
    intros j k1 r1 ph1 Hj Hlive.
    destruct (Hcases _ _ _ _ Hj) as [(-> & -> & -> & ->)|[Hne Hj']].
    + unfold live in *. inversion Hmove; subst;
        repeat match goal with H : _ \/ _ |- _ => destruct H end;
        simplify_eq;
        first [ by apply lookup_insert_eq
              | by (apply (HA i k r _ Hi); auto) ].
    + pose proof (HA _ _ _ _ Hj' Hlive) as Hss.
      inversion Hmove; subst; try done.
      * rewrite lookup_insert_ne; [done|]. intros ->. congruence.
      * rewrite lookup_insert_ne; [done|]. intros ->. congruence.
      * rewrite lookup_delete_ne; [done|]. intros ->.
        assert (ss !! k1 = Some i)
          by (apply (HA i k1 r _ Hi); unfold live; by auto).
        congruence.
      * rewrite lookup_delete_ne; [done|]. intros ->.
        assert (ss !! k1 = Some i)
          by (apply (HA i k1 r _ Hi); unfold live; by auto).
        congruence.
  - (* at most one call awaits its confirmation *)
    intros j1 j2 k1 r1 k2 r2 Hj1 Hj2.
    destruct (Hcases _ _ _ _ Hj1) as [(-> & -> & -> & Hph1)|[Hne1 Hj1']];
      destruct (Hcases _ _ _ _ Hj2) as [(-> & -> & -> & Hph2)|[Hne2 Hj2']];
      try done.
    + exfalso. inversion Hmove; subst; try done;
        by eapply HC.
    + exfalso. inversion Hmove; subst; try done;
        by eapply HC.
    + by eapply HB.
  - (* none does while the send flag is down *)
    intros Hb' j k1 r1 Hj.
    destruct (Hcases _ _ _ _ Hj) as [(-> & -> & -> & Hph)|[Hne Hj']].
    + inversion Hmove; subst; done.
    + inversion Hmove; subst; try done.
      * apply Hne. by eapply HB.
      * apply Hne. by eapply HB.
      * by eapply HC.
      * by eapply HC.
  - (* the key of a call is the key of its request *)
    intros j k1 r1 ph1 Hj.
    destruct (Hcases _ _ _ _ Hj) as [(-> & -> & -> & Hph)|[Hne Hj']];
      by eapply HD.
Qed.

Lemma inv_snoc ss b (ts : shapes) k r :
  Inv (ss, b, ts) -> k = key_of r -> Inv (ss, b, ts ++ [(k, r, PhSlot)]).
Proof.
  intros (HA & HB & HC & HD) Hk.
  assert (forall j k1 r1 ph1,
             (ts ++ [(k, r, PhSlot)]) !! j = Some (k1, r1, ph1) ->
             ts !! j = Some (k1, r1, ph1)
             \/ (k1 = k /\ r1 = r /\ ph1 = PhSlot)) as Hcases.
  { intros j k1 r1 ph1 Hj. apply lookup_app_Some in Hj as [?|[_ Hj]]; [by left|].
    right. destruct (j - length ts)%nat; cbn in Hj; [simplify_eq; auto|done]. }
  split; [|split; [|split]].
  - intros j k1 r1 ph1 Hj Hlive.
    destruct (Hcases _ _ _ _ Hj) as [?|(-> & -> & ->)]; [by eapply HA|].
    by destruct Hlive as [?|[?|?]].
  - intros j1 j2 k1 r1 k2 r2 Hj1 Hj2.
    destruct (Hcases _ _ _ _ Hj1) as [?|(_ & _ & ?)]; [|done].
    destruct (Hcases _ _ _ _ Hj2) as [?|(_ & _ & ?)]; [|done].
    by eapply HB.
  - intros Hb j k1 r1 Hj.
    destruct (Hcases _ _ _ _ Hj) as [?|(_ & _ & ?)]; [|done].
    by eapply HC.
  - intros j k1 r1 ph1 Hj.
    destruct (Hcases _ _ _ _ Hj) as [?|(-> & -> & _)]; [by eapply HD|done].
Qed.

(** *** One turn of a call *)

Lemma map_shape_alter_pc (p : pc) (i : nat) (l : list task) (t : task) :
  l !! i = Some t ->
  map task_shape (alter (set_pc p) i l)
  = <[i := (t_key t, t_request t, phase_of p)]> (map task_shape l).
Proof.
  revert i. induction l as [|t0 l IH]; intros i Hi; [done|].
  destruct i as [|i]; cbn in *.
  - by simplify_eq.
  - f_equal. by apply IH.
Qed.

Lemma do_write_facts i t c :
  exists p,
    (phase_of p = PhCfm \/ phase_of p = PhEnd)
    /\ tasks (do_write i t c) = alter (set_pc p) i (tasks c)
    /\ sessions (do_write i t c) = sessions c
    /\ busy (do_write i t c) = true.
Proof.
  unfold do_write.
  destruct (frame (r_cmd (t_request t)) (r_data (t_request t))) as [buf|e].
  - exists AwaitCfm. cbn. by auto.
  - exists (Threw e). cbn. by auto.
Qed.

Lemma fail_facts i t e c :
  exists p,
    phase_of p = PhEnd
    /\ tasks (fail commands i t e c) = alter (set_pc p) i (tasks c)
    /\ sessions (fail commands i t e c) = sessions c
    /\ busy (fail commands i t e c) = busy c.
Proof.
  unfold fail.
  destruct (command_by_name commands "GW_PASSWORD_ENTER_REQ") as [pw|].
  - case_match.
    + exists (Threw e). cbn. by auto.
    + exists (Returned VUndefined). cbn. by auto.
  - eexists (Threw _). cbn. by auto.
Qed.

Lemma resume_shape i c :
  shape (resume commands i c) = shape c
  \/ exists k r ph ph',
      map task_shape (tasks c) !! i = Some (k, r, ph)
      /\ move k i (sessions c) (busy c) ph ph'
              (sessions (resume commands i c)) (busy (resume commands i c))
      /\ map task_shape (tasks (resume commands i c))
         = <[i := (k, r, ph')]> (map task_shape (tasks c)).
Proof.
  unfold resume. destruct (tasks c !! i) as [t|] eqn:Ht; [|by left].
  assert (map task_shape (tasks c) !! i
          = Some (t_key t, t_request t, phase_of (t_pc t))) as Hshape
    by (by rewrite list_lookup_fmap, Ht).
  destruct (t_pc t) as [| | |[payload|e]| |[u|e]| |] eqn:Hpc;
    try (by left); cbn [phase_of] in Hshape.
  - (* WaitSlot *)
    case_bool_decide as Hslot; [by left|]. right.
    assert (sessions c !! t_key t = None) as Hnone
      by (by destruct (sessions c !! t_key t) eqn:E; [destruct Hslot|]).
    set (c1 := set_sessions _ _).
    assert (tasks c1 !! i = Some (set_session (Some new_session) t)) as Ht1.
    { unfold c1. cbn. rewrite list_lookup_alter_eq. by rewrite Ht. }
    assert (map task_shape (tasks c1) = map task_shape (tasks c)) as Hts1.
    { unfold c1. cbn. by apply map_shape_alter. }
    change (busy c1) with (busy c).
    destruct (busy c) eqn:Hbusy.
    + exists (t_key t), (t_request t), PhSlot, PhBusy. cbn.
      split; [done|]. split; [rewrite ?Hbusy; by constructor|].
      rewrite (map_shape_alter_pc _ _ _ _ Ht1).
      unfold c1; cbn. by rewrite map_shape_alter.
    + destruct (do_write_facts i t c1) as (p & Hp & -> & -> & ->).
      exists (t_key t), (t_request t), PhSlot, (phase_of p).
      split; [done|]. split; [by constructor|].
      rewrite (map_shape_alter_pc _ _ _ _ Ht1). by rewrite Hts1.
  - (* WaitBusy *)
    destruct (busy c) eqn:Hbusy; [by left|]. right.
    destruct (do_write_facts i t c) as (p & Hp & -> & -> & ->).
    exists (t_key t), (t_request t), PhBusy, (phase_of p).
    split; [done|]. split; [by constructor|].
    by rewrite (map_shape_alter_pc _ _ _ _ Ht).
  - (* GotCfm (Ok _) *)
    right. destruct (ntf (t_command t)).
    + exists (t_key t), (t_request t), PhCfm, PhDone. cbn.
      split; [done|]. split; [by constructor|].
      erewrite (map_shape_alter_pc AwaitDone).
      2:{ rewrite list_lookup_alter_eq. by rewrite Ht. }
      cbn. by rewrite map_shape_alter.
    + exists (t_key t), (t_request t), PhCfm, PhEnd. unfold finish. cbn.
      split; [done|]. split; [by constructor|].
      by rewrite (map_shape_alter_pc _ _ _ _ Ht).
  - (* GotCfm (Throw e) *)
    right.
    destruct (fail_facts i t e
                (set_sessions (delete (t_key t) (sessions (set_busy false c)))
                   (set_busy false c))) as (p & Hp & -> & -> & ->).
    exists (t_key t), (t_request t), PhCfm, PhEnd. cbn.
    split; [done|]. split; [by constructor|].
    by rewrite (map_shape_alter_pc _ _ _ _ Ht), Hp.
  - (* GotDone (Ok _) *)
    right. exists (t_key t), (t_request t), PhDone, PhEnd. unfold finish. cbn.
    split; [done|]. split; [by constructor|].
    by rewrite (map_shape_alter_pc _ _ _ _ Ht).
  - (* GotDone (Throw e) *)
    right. destruct (fail_facts i t e c) as (p & Hp & -> & -> & ->).
    exists (t_key t), (t_request t), PhDone, PhEnd.
    split; [done|]. split; [by constructor|].
    by rewrite (map_shape_alter_pc _ _ _ _ Ht), Hp.
Qed.

Lemma inv_resume i c : Inv (shape c) -> Inv (shape (resume commands i c)).
Proof.
  intros HI. destruct (resume_shape i c) as [->|(k & r & ph & ph' & Hi & Hm & Hts)];
    [done|].
  unfold shape. rewrite Hts. by eapply inv_move.
Qed.

Lemma inv_call command params userInput c :
  Inv (shape c) -> Inv (shape (call commands command params userInput c)).
Proof.
  intros HI. unfold call.
  destruct (commandNameById commands (id command)) as [cmdName|]; [|done].
  case_match; [done|].
  set (pc0 := if session command then _ else _).
  assert (shape pc0.2 = shape c) as Hpc0 by (unfold pc0; by case_match).
  destruct pc0 as [params0 c0]. cbn in Hpc0.
  destruct (match encode command with
            | Some enc => _
            | None => _
            end) as [[data params1]|e]; [|by rewrite <- Hpc0 in HI].
  case_match; [by rewrite <- Hpc0 in HI|].
  apply inv_resume. unfold shape. cbn.
  rewrite map_app. cbn. apply inv_snoc; [|done].
  by rewrite <- Hpc0 in HI.
Qed.

Lemma inv_exec a c : Inv (shape c) -> Inv (shape (exec commands a c)).
Proof.
  intros HI. unfold exec, andThen. destruct (uncaught c); [done|].
  destruct a.
  - by apply inv_call.
  - by apply inv_resume.
  - by rewrite shape_receive.
  - by rewrite shape_on_data.
  - by rewrite shape_cfm_timeout.
  - by rewrite shape_done_timeout.
Qed.

Lemma inv_reachable c : reachable commands c -> Inv (shape c).
Proof.
  induction 1 as [|a c _ IH].
  - repeat split; intros; by simplify_eq.
  - by apply inv_exec.
Qed.

Lemma writing_phase t : writing t = true -> phase_of (t_pc t) = PhCfm.
Proof. unfold writing. by destruct (t_pc t). Qed.

Lemma in_flight_live t : in_flight t = true -> live (phase_of (t_pc t)).
Proof. unfold in_flight, live. destruct (t_pc t); cbn; by auto. Qed.

End RequestFacts.

(** ** Session ids and failures *)

Section CallFacts.

Import Api Client.

Variable commands : list (string * command).

Lemma sessionId_update_task i f c : sessionId (update_task i f c) = sessionId c.
Proof. done. Qed.

Lemma sessionId_resume i c : sessionId (resume commands i c) = sessionId c.
Proof.
  unfold resume, do_write, fail, finish.
  repeat case_match; reflexivity.
Qed.

(** A turn of a call keeps its request. *)
Lemma request_resume i c t :
  tasks c !! i = Some t ->
  exists t', tasks (resume commands i c) !! i = Some t'
             /\ t_request t' = t_request t /\ t_key t' = t_key t.
Proof.
  intros Ht.
  assert (map task_shape (tasks c) !! i
          = Some (t_key t, t_request t, phase_of (t_pc t))) as Hshape
    by (by rewrite list_lookup_fmap, Ht).
  assert (exists ph, map task_shape (tasks (resume commands i c)) !! i
                     = Some (t_key t, t_request t, ph)) as [ph Hph].
  { destruct (resume_shape commands i c) as [Heq|(k & r & ph & ph' & Hi & _ & Hts)].
    - exists (phase_of (t_pc t)).
      assert (map task_shape (tasks (resume commands i c))
              = map task_shape (tasks c)) as -> by (by injection Heq).
      done.
    - exists ph'. rewrite Hts. rewrite Hshape in Hi. simplify_eq.
      apply list_lookup_insert_eq. by eapply lookup_lt_Some. }
  rewrite list_lookup_fmap in Hph.
  destruct (tasks (resume commands i c) !! i) as [t'|]; [|done].
  exists t'. cbn in Hph. unfold task_shape in Hph. by simplify_eq.
Qed.

(** The session id that [request()] assigns: the incremented counter
    modulo [0xFFFF]. *)
Lemma call_assigns_session_id command params userInput c cmdName :
  commandNameById commands (id command) = Some cmdName ->
  Js.endsWith cmdName "_REQ" = true ->
  session command = true -> encode command = None ->
  let c' := call commands command params userInput c in
  sessionId c' = sessionId c + 1
  /\ exists t,
      tasks c' !! length (tasks c) = Some t
      /\ r_params (t_request t)
         = VObj (Js.assign params "sessionId"
                   (VNum ((sessionId c + 1) mod 0xFFFF))).
Proof.
  intros Hname Hreq Hsession Hencode c'. unfold c', call.
  rewrite Hname, Hreq, Hsession, Hencode. cbn [negb].
  rewrite bool_decide_eq_false_2 by (cbn; lia).
  rewrite sessionId_resume. split; [done|].
  cbn [tasks set_tasks set_requestId set_sessionId sessionId].
  match goal with
  | |- context [resume commands ?i (set_tasks (?l ++ [?t0]) ?c0)] =>
    destruct (request_resume i (set_tasks (l ++ [t0]) c0) t0)
      as (t' & Ht' & Hr & _)
  end.
  { cbn [tasks set_tasks set_requestId set_sessionId].
    rewrite lookup_app_r by lia. by rewrite Nat.sub_diag. }
  exists t'. split; [exact Ht'|]. by rewrite Hr.
Qed.

(** The assigned id is never [0xFFFF]. *)
Lemma session_id_never_FFFF (n : Z) : 0 <= n -> n mod 0xFFFF <> 0xFFFF.
Proof. intros Hn. pose proof (Z.mod_pos_bound n 0xFFFF). lia. Qed.

(** *** How a failed request ends *)

(** A failure while the confirmation is awaited: the send flag is released
    and the entry removed; the error is thrown for [GW_PASSWORD_ENTER_REQ]
    and emitted otherwise. *)
Lemma failure_before_confirmation i c t e password_enter :
  tasks c !! i = Some t -> t_pc t = GotCfm (Throw e) ->
  command_by_name commands "GW_PASSWORD_ENTER_REQ" = Some password_enter ->
  let c' := resume commands i c in
  sessions c' = delete (t_key t) (sessions c)
  /\ busy c' = false
  /\ (r_cmd (t_request t) = id password_enter ->
      t_pc <$> tasks c' !! i = Some (Threw e) /\ events c' = events c)
  /\ (r_cmd (t_request t) <> id password_enter ->
      t_pc <$> tasks c' !! i = Some (Returned VUndefined)
      /\ events c'
         = events c ++ [EvError (Message (message_of e)) (Some (t_request t))]).
Proof.
  intros Ht Hpc Hpw c'. unfold c', resume, fail. rewrite Ht, Hpc, Hpw.
  destruct (r_cmd (t_request t) =? id password_enter) eqn:Hcmd.
  - apply Z.eqb_eq in Hcmd. cbn. repeat split; try done.
    rewrite list_lookup_alter_eq. by rewrite Ht.
  - apply Z.eqb_neq in Hcmd. cbn. repeat split; try done.
    rewrite list_lookup_alter_eq. by rewrite Ht.
Qed.

(** A failure while the end of the stream is awaited: the error is thrown
    or emitted in the same way, but the entry stays in the table. *)
Lemma failure_in_stream i c t e password_enter :
  tasks c !! i = Some t -> t_pc t = GotDone (Throw e) ->
  command_by_name commands "GW_PASSWORD_ENTER_REQ" = Some password_enter ->
  let c' := resume commands i c in
  sessions c' = sessions c
  /\ busy c' = busy c
  /\ (r_cmd (t_request t) = id password_enter ->
      t_pc <$> tasks c' !! i = Some (Threw e) /\ events c' = events c)
  /\ (r_cmd (t_request t) <> id password_enter ->
      t_pc <$> tasks c' !! i = Some (Returned VUndefined)
      /\ events c'
         = events c ++ [EvError (Message (message_of e)) (Some (t_request t))]).
Proof.
  intros Ht Hpc Hpw c'. unfold c', resume, fail. rewrite Ht, Hpc, Hpw.
  destruct (r_cmd (t_request t) =? id password_enter) eqn:Hcmd.
  - apply Z.eqb_eq in Hcmd. cbn. repeat split; try done.
    rewrite list_lookup_alter_eq. by rewrite Ht.
  - apply Z.eqb_neq in Hcmd. cbn. repeat split; try done.
    rewrite list_lookup_alter_eq. by rewrite Ht.
Qed.

End CallFacts.

(** ** The claims about the engine *)

Import Api Client.

Lemma reachable_run commands (l : list (action)) :
  forall c, reachable commands c -> reachable commands (run commands l c).
Proof.
  induction l as [|a l IH]; intros c Hc; [done|].
  cbn. apply IH. by constructor.
Qed.

(** *** What a decoder and the session events change *)

Section SessionEventFacts.

Import Api Client.

Context {A : Type} (field : client -> A).
Hypothesis field_tasks : forall v c, field (set_tasks v c) = field c.





End SessionEventFacts.

Section AwaitingFacts.

Import Api Client.






End AwaitingFacts.



(** A confirmation with a wrong checksum still completes its request: the
    error is emitted, then the notification, and the call returns the
    decoded version. *)
Example checksum_mismatch_completes_request :
  let c := run registry
             [ Call GW_GET_VERSION_REQ [] false;
               Receive [0; 12; 0; 9; 0; 2; 0; 0; 71; 0; 5; 14; 3; 0];
               Resume 0 ] init in
  t_pc <$> tasks c !! 0%nat
  = Some (Returned (VObj [ ("softwareVersion", VStr "2.0.0.71");
                           ("hardwareVersion", VNum 5);
                           ("productGroup", VNum 14);
                           ("productType", VNum 3) ]))
  /\ events c !! 3%nat
     = Some (EvError (InvalidChecksum (Some 0) 72
                        [0; 12; 0; 9; 0; 2; 0; 0; 71; 0; 5; 14; 3; 0]) None)
  /\ uncaught c = None.
Proof. vm_compute. done. Qed.

(** C5: in every state the client can reach, at most one call is in the
    writing phase (it holds the send flag), and of the calls of one command
    without a session id at most one has its frame written and has not
    completed: the frame of a second call is written only once the first
    call has returned or thrown. *)
Theorem requests_are_serialized
    (commands : list (string * command)) (c : client) :
  reachable commands c ->
  (forall i j ti tj,
      tasks c !! i = Some ti -> tasks c !! j = Some tj ->
      writing ti = true -> writing tj = true -> i = j)
  /\ (forall i j ti tj,
        tasks c !! i = Some ti -> tasks c !! j = Some tj ->
        r_cmd (t_request ti) = r_cmd (t_request tj) ->
        Js.get (r_params (t_request ti)) "sessionId" = VUndefined ->
        Js.get (r_params (t_request tj)) "sessionId" = VUndefined ->
        in_flight ti = true -> in_flight tj = true -> i = j).
Proof.
  intros Hc. destruct (inv_reachable commands c Hc) as (HA & HB & _ & HD).
  assert (forall i t, tasks c !! i = Some t ->
            map task_shape (tasks c) !! i
            = Some (t_key t, t_request t, phase_of (t_pc t))) as Hshape.
  { intros i t Ht. by rewrite list_lookup_fmap, Ht. }
  split.
  - intros i j ti tj Hi Hj Hwi Hwj.
    apply Hshape in Hi, Hj.
    rewrite (writing_phase _ Hwi) in Hi. rewrite (writing_phase _ Hwj) in Hj.
    by eapply HB.
  - intros i j ti tj Hi Hj Hcmd Hsi Hsj Hfi Hfj.
    apply Hshape in Hi, Hj.
    pose proof (HA _ _ _ _ Hi (in_flight_live _ Hfi)) as Hti.
    pose proof (HA _ _ _ _ Hj (in_flight_live _ Hfj)) as Htj.
    rewrite (HD _ _ _ _ Hi) in Hti. rewrite (HD _ _ _ _ Hj) in Htj.
    unfold key_of in Hti, Htj. rewrite Hsi in Hti. rewrite Hsj in Htj.
    cbn in Hti, Htj. rewrite Hcmd in Hti. congruence.
Qed.

Lemma requests_are_serialized_witness :
  let c := run registry
             [ Call GW_GET_VERSION_REQ [] false;
               Call GW_GET_VERSION_REQ [] false ] init in
  (forall i j ti tj,
      tasks c !! i = Some ti -> tasks c !! j = Some tj ->
      writing ti = true -> writing tj = true -> i = j)
  /\ (forall i j ti tj,
        tasks c !! i = Some ti -> tasks c !! j = Some tj ->
        r_cmd (t_request ti) = r_cmd (t_request tj) ->
        Js.get (r_params (t_request ti)) "sessionId" = VUndefined ->
        Js.get (r_params (t_request tj)) "sessionId" = VUndefined ->
        in_flight ti = true -> in_flight tj = true -> i = j).
Proof.
  apply (requests_are_serialized registry
           (run registry
              [ Call GW_GET_VERSION_REQ [] false;
                Call GW_GET_VERSION_REQ [] false ] init)).
  apply reachable_run. constructor.
Defined.

(** Two simultaneous calls of [GW_GET_VERSION_REQ]: the second waits for
    the slot, one frame is on the wire; once the first has returned, the
    second frame follows. *)
Example concurrent_get_version :
  let c := run registry
             [ Call GW_GET_VERSION_REQ [] false;
               Call GW_GET_VERSION_REQ [] false;
               Resume 1 ] init in
  let c' := run registry
              [ Receive (gateway_frame 0x0009 [0; 2; 0; 0; 71; 0; 5; 14; 3]);
                Resume 1; Resume 0; Resume 1 ] c in
  map t_pc (tasks c) = [AwaitCfm; WaitSlot]
  /\ length (wire c) = 1%nat
  /\ map completed (tasks c') = [true; false]
  /\ map in_flight (tasks c') = [false; true]
  /\ length (wire c') = 2%nat.
Proof. vm_compute. done. Qed.

(** C4 (session ids are [(previous + 1) mod 0x10000]) does not hold of the
    code, which reduces the counter modulo [0xFFFF]: after the session id
    [0xFFFE] the next request gets [0x0000], and [0xFFFF] is never
    assigned. *)
Theorem session_id_after_FFFE_is_zero :
  let c := call registry GW_ACTIVATE_SCENE_REQ [] false
             (set_sessionId 0xFFFE init) in
  (r_params ∘ t_request) <$> tasks c !! 0%nat
  = Some (VObj [("sessionId", VNum 0)])
  /\ t_key <$> tasks c !! 0%nat = Some "s0"
  /\ sessionId c = 0xFFFF.
Proof. vm_compute. done. Qed.

(** Below the wrap the session id is the previous one plus one: after
    [0x0041] comes [0x0042]. *)
Example session_id_after_0041 :
  let c := call registry GW_ACTIVATE_SCENE_REQ [] false
             (set_sessionId 0x0041 init) in
  (r_params ∘ t_request) <$> tasks c !! 0%nat
  = Some (VObj [("sessionId", VNum 0x0042)]).
Proof. vm_compute. done. Qed.

(** Every request of a session-bearing command without an encoder gets the
    incremented counter modulo [0xFFFF] as its session id. *)
Theorem session_id_is_counter_mod_FFFF
    (commands : list (string * command)) (command : command)
    (params : list (string * value)) (userInput : bool) (c : client)
    (cmdName : string) :
  commandNameById commands (id command) = Some cmdName ->
  Js.endsWith cmdName "_REQ" = true ->
  session command = true -> encode command = None ->
  let c' := call commands command params userInput c in
  sessionId c' = sessionId c + 1
  /\ exists t,
      tasks c' !! length (tasks c) = Some t
      /\ r_params (t_request t)
         = VObj (Js.assign params "sessionId"
                   (VNum ((sessionId c + 1) mod 0xFFFF))).
Proof. apply call_assigns_session_id. Qed.

Lemma session_id_is_counter_mod_FFFF_witness :
  let c := set_sessionId 0x0041 init in
  let c' := call registry GW_ACTIVATE_SCENE_REQ [] false c in
  sessionId c' = sessionId c + 1
  /\ exists t,
      tasks c' !! length (tasks c) = Some t
      /\ r_params (t_request t)
         = VObj (Js.assign [] "sessionId"
                   (VNum ((sessionId c + 1) mod 0xFFFF))).
Proof.
  apply (session_id_is_counter_mod_FFFF registry GW_ACTIVATE_SCENE_REQ []
           false (set_sessionId 0x0041 init) "GW_ACTIVATE_SCENE_REQ");
    reflexivity.
Defined.

(** C6 (a request that fails always loses its session-table entry) does
    not hold of the code when the stream times out: the confirmation of
    [GW_CS_GET_SYSTEMTABLE_DATA_REQ] arrives, no notification follows,
    [doneTimeout] fires; the call emits the error and returns [undefined],
    but its entry stays in the table, and a later call of the same command
    waits for the slot for ever. *)
Theorem stream_timeout_keeps_session :
  let c := run registry
             [ Call GW_CS_GET_SYSTEMTABLE_DATA_REQ [] false;
               Receive (gateway_frame 0x0101 []);
               Resume 0; DoneTimeout 0; Resume 0 ] init in
  let c' := run registry
              [ Call GW_CS_GET_SYSTEMTABLE_DATA_REQ [] false;
                Resume 1; Resume 1 ] c in
  t_pc <$> tasks c !! 0%nat = Some (Returned VUndefined)
  /\ last (events c)
     = Some (EvError (Message "NTF timout")
               (Some {| r_id := 1; r_cmd := 0x0100;
                        r_cmdName := "GW_CS_GET_SYSTEMTABLE_DATA_REQ";
                        r_params := VObj []; r_data := None |}))
  /\ sessions c !! "256" = Some 0%nat
  /\ uncaught c = None
  /\ t_pc <$> tasks c' !! 1%nat = Some WaitSlot
  /\ length (wire c') = 1%nat.
Proof. vm_compute. done. Qed.

(** The sibling path: when the confirmation times out the entry is
    removed. *)
Example cfm_timeout_removes_session :
  let c := run registry
             [ Call GW_CS_GET_SYSTEMTABLE_DATA_REQ [] false;
               CfmTimeout 0; Resume 0 ] init in
  t_pc <$> tasks c !! 0%nat = Some (Returned VUndefined)
  /\ last (events c)
     = Some (EvError (Message "CFM timeout")
               (Some {| r_id := 1; r_cmd := 0x0100;
                        r_cmdName := "GW_CS_GET_SYSTEMTABLE_DATA_REQ";
                        r_params := VObj []; r_data := None |}))
  /\ sessions c !! "256" = None
  /\ busy c = false.
Proof. vm_compute. done. Qed.

(** A request that fails while its confirmation is awaited releases the
    send flag and loses its entry; its error is thrown to the caller for
    [GW_PASSWORD_ENTER_REQ] and emitted on ['error'] otherwise, the call
    returning [undefined]. *)
Theorem failed_confirmation_removes_session
    (commands : list (string * command)) (i : nat) (c : client) (t : task)
    (e : exn) (password_enter : command) :
  tasks c !! i = Some t -> t_pc t = GotCfm (Throw e) ->
  command_by_name commands "GW_PASSWORD_ENTER_REQ" = Some password_enter ->
  let c' := resume commands i c in
  sessions c' = delete (t_key t) (sessions c)
  /\ busy c' = false
  /\ (r_cmd (t_request t) = id password_enter ->
      t_pc <$> tasks c' !! i = Some (Threw e) /\ events c' = events c)
  /\ (r_cmd (t_request t) <> id password_enter ->
      t_pc <$> tasks c' !! i = Some (Returned VUndefined)
      /\ events c'
         = events c ++ [EvError (Message (message_of e)) (Some (t_request t))]).
Proof. apply failure_before_confirmation. Qed.

Lemma failed_confirmation_removes_session_witness :
  let c := run registry [ Call GW_GET_VERSION_REQ [] false; CfmTimeout 0 ] init in
  let t := {| t_command := GW_GET_VERSION_REQ;
              t_request := {| r_id := 1; r_cmd := 0x0008;
                              r_cmdName := "GW_GET_VERSION_REQ";
                              r_params := VObj []; r_data := None |};
              t_key := "8"; t_pc := GotCfm (Throw (Error "CFM timeout"));
              t_session := Some {| s_result := VUndefined;
                                   s_cfm_listener := true;
                                   s_cfm_timer := false;
                                   s_done_timer := false |} |} in
  let c' := resume registry 0 c in
  sessions c' = delete (t_key t) (sessions c)
  /\ busy c' = false
  /\ (r_cmd (t_request t) = id (GW_PASSWORD_ENTER_REQ RefLib.lib) ->
      t_pc <$> tasks c' !! 0%nat = Some (Threw (Error "CFM timeout"))
      /\ events c' = events c)
  /\ (r_cmd (t_request t) <> id (GW_PASSWORD_ENTER_REQ RefLib.lib) ->
      t_pc <$> tasks c' !! 0%nat = Some (Returned VUndefined)
      /\ events c'
         = events c ++ [EvError (Message (message_of (Error "CFM timeout")))
                          (Some (t_request t))]).
Proof.
  apply (failed_confirmation_removes_session registry 0
           (run registry [ Call GW_GET_VERSION_REQ [] false; CfmTimeout 0 ] init)
           {| t_command := GW_GET_VERSION_REQ;
              t_request := {| r_id := 1; r_cmd := 0x0008;
                              r_cmdName := "GW_GET_VERSION_REQ";
                              r_params := VObj []; r_data := None |};
              t_key := "8"; t_pc := GotCfm (Throw (Error "CFM timeout"));
              t_session := Some {| s_result := VUndefined;
                                   s_cfm_listener := true;
                                   s_cfm_timer := false;
                                   s_done_timer := false |} |}
           (Error "CFM timeout") (GW_PASSWORD_ENTER_REQ RefLib.lib));
    reflexivity.
Defined.

(** For [GW_PASSWORD_ENTER_REQ] the error is raised to the caller and
    nothing is emitted. *)
Example password_failure_is_thrown :
  let c := run registry
             [ Call (GW_PASSWORD_ENTER_REQ RefLib.lib)
                 [("password", VStr "abc")] false;
               Receive (gateway_frame 0x3001 [1]); Resume 0 ] init in
  t_pc <$> tasks c !! 0%nat = Some (Threw (Error "invalid password"))
  /\ sessions c !! "12288" = None
  /\ Forall (fun ev => match ev with EvError _ _ => False | _ => True end)
       (events c).
Proof. vm_compute. repeat split; repeat constructor. Qed.

(** C7 (entry [i] is read from the [i]-th record, and a stream of a
    two-entry and a one-entry notification gives three entries) does not
    hold of the code, which reads every actuator type at offset
    [11 * 1 + 5]: a notification with one entry has 13 bytes, the read at
    offset 16 is out of range and the decoder throws; in a notification
    with two entries both entries get the actuator type of the second
    record. *)
Theorem systemtable_actuator_type_offset :
  (forall (lib : hb_lib_tools) (s : option session_view),
      (GW_CS_GET_SYSTEMTABLE_DATA_NTF_decode lib
         [1; 2; 1; 2; 3; 0x00; 0x80; 5; 1; 0; 0; 0; 0] s).1
      = Throw (RangeError "ERR_OUT_OF_RANGE"))
  /\ (forall lib : hb_lib_tools,
        (GW_CS_GET_SYSTEMTABLE_DATA_NTF_decode lib
           [2; 0; 1; 2; 3; 0x01; 0x01; 5; 1; 0; 0; 0;
               1; 1; 2; 3; 0x00; 0x80; 5; 2; 0; 0; 0; 1]
           (Some {| sv_result := VArr []; sv_done := false |})).1
        = Ok (VArr
                [ VObj [ ("nodeId", VNum 0); ("actuatorType", VNum 0x0080);
                         ("powerState", decodePowerState 5);
                         ("manufacturer", VStr "VELUX");
                         ("model", VStr "Roller Shutter") ];
                  VObj [ ("nodeId", VNum 1); ("actuatorType", VNum 0x0080);
                         ("powerState", decodePowerState 5);
                         ("manufacturer", VStr "Somfy");
                         ("model", VStr "Roller Shutter") ] ])).
Proof. split; intros; reflexivity. Qed.

(** The scenario of the specification: the second notification makes the
    request fail, and the call returns [undefined] instead of three
    entries. *)
Example systemtable_stream_fails :
  let c := run registry
             [ Call GW_CS_GET_SYSTEMTABLE_DATA_REQ [] false;
               Receive (gateway_frame 0x0101 []);
               Resume 0;
               Receive (gateway_frame 0x0102
                          [2; 0; 1; 2; 3; 0x01; 0x01; 5; 1; 0; 0; 0;
                              1; 1; 2; 3; 0x00; 0x80; 5; 2; 0; 0; 0; 1]);
               Receive (gateway_frame 0x0102
                          [1; 2; 1; 2; 3; 0x00; 0x80; 5; 1; 0; 0; 0; 0]);
               Resume 0 ] init in
  t_pc <$> tasks c !! 0%nat = Some (Returned VUndefined)
  /\ last (events c)
     = Some (EvError (Message "ERR_OUT_OF_RANGE")
               (Some {| r_id := 1; r_cmd := 0x0100;
                        r_cmdName := "GW_CS_GET_SYSTEMTABLE_DATA_REQ";
                        r_params := VObj []; r_data := None |})).
Proof. vm_compute. done. Qed.

(** Every other field of an entry is read from its own record, the
    entries are appended in order, and the stream ends when the byte after
    the last entry is zero. *)
Example systemtable_two_entries_done :
  (GW_CS_GET_SYSTEMTABLE_DATA_NTF_decode RefLib.lib
     [2; 7; 1; 2; 3; 0x01; 0x01; 5; 1; 0; 0; 0;
         9; 1; 2; 3; 0x00; 0x80; 6; 2; 0; 0; 0; 0]
     (Some {| sv_result := VArr [VNum 42]; sv_done := false |})).2
  = Some {| sv_result :=
              VArr [ VNum 42;
                     VObj [ ("nodeId", VNum 7); ("actuatorType", VNum 0x0080);
                            ("powerState", decodePowerState 5);
                            ("manufacturer", VStr "VELUX");
                            ("model", VStr "Roller Shutter") ];
                     VObj [ ("nodeId", VNum 9); ("actuatorType", VNum 0x0080);
                            ("powerState", decodePowerState 6);
                            ("manufacturer", VStr "Somfy");
                            ("model", VStr "Roller Shutter") ] ];
            sv_done := true |}.
Proof. reflexivity. Qed.

(** ** The claims about the codecs *)

(** C8 as stated (the software version is bytes 0 to 5, six components)
    fails on the confirmation of a gateway at firmware 2.0.0.71: the
    decoder answers ["2.0.0.71"], bytes 1 to 4. *)
Lemma version_is_not_six_components :
  let data := [0; 2; 0; 0; 71; 0; 5; 14; 3] in
  exists payload,
    GW_GET_VERSION_CFM_decode data = Ok payload
    /\ Js.get payload "softwareVersion" = VStr "2.0.0.71"
    /\ spec_softwareVersion data = "0.2.0.0.71.0"
    /\ Js.get payload "softwareVersion" <> VStr (spec_softwareVersion data).
Proof. eexists. repeat split. vm_compute. discriminate. Qed.

(** C8, amended: the decoder forms the software version from bytes 1 to 4
    of the nine-byte confirmation as four dot-joined components; byte 6 is
    the hardware version, bytes 7 and 8 the product group and type. *)
Theorem version_is_bytes_1_to_4 (b0 b1 b2 b3 b4 b5 b6 b7 b8 : Z) :
  GW_GET_VERSION_CFM_decode [b0; b1; b2; b3; b4; b5; b6; b7; b8]
  = Ok (VObj [ ("softwareVersion",
                VStr (pretty b1 +:+ "." +:+ pretty b2 +:+ "."
                      +:+ pretty b3 +:+ "." +:+ pretty b4));
               ("hardwareVersion", VNum b6);
               ("productGroup", VNum b7);
               ("productType", VNum b8) ]).
Proof. reflexivity. Qed.

(** A confirmation of any other length is refused. *)
Lemma version_needs_nine_bytes (data : list Z) :
  length data <> 9%nat ->
  exists e, GW_GET_VERSION_CFM_decode data = Throw e.
Proof.
  intros Hlen. unfold GW_GET_VERSION_CFM_decode, checkData.
  rewrite (proj2 (Z.eqb_neq _ _)) by lia. by eexists.
Qed.

(** [round_div a b] is the integer nearest to [a / b], a half rounding
    up. *)
Lemma round_div_nearest (a b : Z) :
  0 < b ->
  2 * b * Js.round_div a b <= 2 * a + b < 2 * b * Js.round_div a b + 2 * b.
Proof.
  intros Hb. unfold Js.round_div.
  pose proof (Z.div_mod (2 * a + b) (2 * b) ltac:(lia)).
  pose proof (Z.mod_pos_bound (2 * a + b) (2 * b) ltac:(lia)).
  lia.
Qed.

(** C9: the position decoder maps [v <= 0xC800] to [round(v / 0x0200)], a
    percentage between 0 and 100; a value between [0xC800] and [0xD000] to
    a relative offset; the four sentinels to their names and [0xF7FF] to
    ['unknown']; the encoder maps a percentage [p] to [p * 0x0200], which
    the decoder maps back, and the four names to their sentinels. *)
Theorem position_codec :
  (forall v, 0 <= v <= 0xC800 ->
             decodePosition v = Percent (Js.round_div v 0x0200)
             /\ 0 <= Js.round_div v 0x0200 <= 100
             /\ 0x0200 * Js.round_div v 0x0200 - 0x0100 <= v
                < 0x0200 * Js.round_div v 0x0200 + 0x0100)
  /\ (forall v, 0xC800 < v < 0xD000 ->
                decodePosition v
                = Relative (Js.round_div (v - 0xC800) 10 - 100))
  /\ position_value (decodePosition 0xD100) = VStr "target"
  /\ position_value (decodePosition 0xD200) = VStr "current"
  /\ position_value (decodePosition 0xD300) = VStr "default"
  /\ position_value (decodePosition 0xD400) = VStr "ignore"
  /\ position_value (decodePosition 0xF7FF) = VStr "unknown"
  /\ (forall p, encodePosition (Percent p) = Js.Num (p * 0x0200))
  /\ (forall p, 0 <= p <= 100 -> decodePosition (p * 0x0200) = Percent p)
  /\ encodePosition Target = Js.Num 0xD100
  /\ encodePosition Current = Js.Num 0xD200
  /\ encodePosition Default = Js.Num 0xD300
  /\ encodePosition Ignore = Js.Num 0xD400.
Proof.
  split; [|split; [|repeat split; try reflexivity]].
  - intros v Hv. split; [|split].
    + unfold decodePosition.
      rewrite !(proj2 (Z.eqb_neq _ _)) by lia.
      by rewrite (proj2 (Z.leb_le _ _)) by lia.
    + pose proof (round_div_nearest v 0x0200). lia.
    + pose proof (round_div_nearest v 0x0200). lia.
  - intros v Hv. unfold decodePosition.
    rewrite !(proj2 (Z.eqb_neq _ _)) by lia.
    by rewrite (proj2 (Z.leb_gt _ _)) by lia.
  - intros p Hp. unfold decodePosition.
    rewrite !(proj2 (Z.eqb_neq _ _)) by lia.
    rewrite (proj2 (Z.leb_le _ _)) by lia.
    f_equal. pose proof (round_div_nearest (p * 0x0200) 0x0200). lia.
Qed.

Lemma position_codec_witness :
  position_value (decodePosition 0x6400) = VNum 50
  /\ position_value (decodePosition 0xC864) = VStr "relative -90"
  /\ decodePosition (50 * 0x0200) = Percent 50.
Proof.
  destruct position_codec as (Hpercent & Hrelative & _ & _ & _ & _ & _ & _
                              & Hback & _).
  split; [|split].
  - rewrite (proj1 (Hpercent 0x6400 ltac:(lia))). reflexivity.
  - rewrite (Hrelative 0xC864 ltac:(lia)). reflexivity.
  - apply (Hback 50). lia.
Defined.

(** ** The password *)

Section PasswordFacts.

Lemma length_copy (src : list Z) :
  forall (dst : list Z) (off : nat),
    length (Buffer.copy src dst off) = length dst.
Proof.
  induction src as [|b src IH]; intros dst off; [done|].
  cbn [Buffer.copy]. by rewrite IH, length_insert.
Qed.

Lemma length_write (s : string) :
  forall (buf : list Z) (off : nat),
    length (Buffer.write buf s off) = length buf.
Proof.
  induction s as [|c s IH]; intros buf off; [done|].
  cbn [Buffer.write]. case_bool_decide; [|done].
  by rewrite IH, length_copy.
Qed.

(** A string whose UTF-8 encoding fits is written whole. *)
Lemma write_fits (s : string) :
  forall pre mid post : list Z,
    length mid = length (Buffer.utf8_string s) ->
    Buffer.write (pre ++ mid ++ post) s (length pre)
    = pre ++ Buffer.utf8_string s ++ post.
Proof.
  unfold Buffer.utf8_string.
  induction s as [|c s IH]; intros pre mid post Hlen.
  - by destruct mid.
  - cbn [list_ascii_of_string flat_map] in *. rewrite length_app in Hlen.
    cbn [Buffer.write].
    rewrite bool_decide_eq_true_2 by (rewrite !length_app; lia).
    rewrite <- (take_drop (length (Buffer.utf8 c)) mid).
    rewrite <- (app_assoc _ _ post).
    rewrite copy_middle by (rewrite length_take; lia).
    rewrite (app_assoc pre), <- length_app.
    rewrite IH by (rewrite length_drop; lia).
    by rewrite <- !app_assoc.
Qed.

Lemma length_replace_dot_star (s : string) :
  String.length (replace_dot_star s) = String.length s.
Proof. induction s as [|c s IH]; [done|]. cbn. by rewrite IH. Qed.

Lemma replace_dot_star_stars (s : string) :
  has_line_terminator s = false ->
  replace_dot_star s = stars (String.length s).
Proof.
  induction s as [|c s IH]; [done|]. cbn.
  intros [Hc Hs]%orb_false_iff. by rewrite Hc, IH.
Qed.

Variable lib : hb_lib_tools.
Hypothesis Hlib : validators_accept lib.

Lemma password_encode (p : string) (userInput : bool) :
  p <> EmptyString ->
  GW_PASSWORD_ENTER_REQ_encode lib (VObj [("password", VStr p)]) userInput
  = Ok (Buffer.write (Buffer.alloc 32) p 0,
        VObj [("password", VStr (replace_dot_star p))]).
Proof.
  intros Hp. destruct Hlib as [Hobj Hstr].
  unfold GW_PASSWORD_ENTER_REQ_encode.
  destruct (Hobj "params" [("password", VStr p)] userInput) as [v ->].
  cbn [mbind except_bind Js.get Js.lookup String.eqb Ascii.eqb Bool.eqb].
  destruct (Hstr "params.password" p true userInput Hp) as [v' ->].
  reflexivity.
Qed.

Lemma password_request_event (p : string) (userInput : bool) :
  p <> EmptyString ->
  events (call (Api.commands lib) (GW_PASSWORD_ENTER_REQ lib)
            [("password", VStr p)] userInput init) !! 0%nat
  = Some (EvRequest
            {| r_id := 1; r_cmd := 0x3000;
               r_cmdName := "GW_PASSWORD_ENTER_REQ";
               r_params := VObj [("password", VStr (replace_dot_star p))];
               r_data := Some (Buffer.write (Buffer.alloc 32) p 0) |}).
Proof.
  intros Hp. unfold call.
  change (commandNameById (Api.commands lib) (id (GW_PASSWORD_ENTER_REQ lib)))
    with (Some "GW_PASSWORD_ENTER_REQ").
  change (Js.endsWith "GW_PASSWORD_ENTER_REQ" "_REQ") with true.
  cbn [negb session encode GW_PASSWORD_ENTER_REQ].
  rewrite password_encode by done.
  cbn [mbind except_bind from_option].
  rewrite bool_decide_eq_false_2 by (rewrite length_write; simpl; lia).
  set (data := Buffer.write (Buffer.alloc 32) p 0).
  unfold resume. cbn [tasks set_tasks set_requestId init app length
                      lookup list_lookup t_pc sessions t_key].
  rewrite bool_decide_eq_false_2 by (rewrite lookup_empty; by intros [? ?]).
  cbn [busy update_task set_sessions set_tasks]. unfold do_write.
  cbn [t_request].
  destruct (frame _ _); reflexivity.
Qed.

End PasswordFacts.

(** C10 as stated fails on the code: the buffer has room for 32 bytes, so
    of a longer password it holds the first 32 only; and the request record
    carries the encoded payload as its [data], so the record on the
    ['request'] event does hold the clear text, next to the masked
    [params]. *)
Lemma password_claim_counterexamples :
  let long := "aaaaaaaaaaaaaaaaaaaaaaaaaaaaaaaaa" in
  (String.length long = 33%nat
   /\ (GW_PASSWORD_ENTER_REQ_encode RefLib.lib
         (VObj [("password", VStr long)]) false)
      = Ok (repeat 0x61 32, VObj [("password", VStr (stars 33))]))
  /\ events (call registry (GW_PASSWORD_ENTER_REQ RefLib.lib)
               [("password", VStr "abc")] false init) !! 0%nat
     = Some (EvRequest
               {| r_id := 1; r_cmd := 0x3000;
                  r_cmdName := "GW_PASSWORD_ENTER_REQ";
                  r_params := VObj [("password", VStr "***")];
                  r_data := Some (Buffer.utf8_string "abc" ++ repeat 0 29) |}).
Proof. vm_compute. repeat split. Qed.

(** The dot of [/./g] matches no line terminator: a line feed in the
    password stays in [params.password]. *)
Example password_line_feed_is_not_replaced :
  let two_lines := String "a" (String "010" "b") in
  GW_PASSWORD_ENTER_REQ_encode RefLib.lib
    (VObj [("password", VStr two_lines)]) false
  = Ok ([0x61; 0x0A; 0x62] ++ repeat 0 29,
        VObj [("password", VStr (String "*" (String "010" "*")))])
  /\ String "*" (String "010" "*") <> stars 3.
Proof. vm_compute. split; [reflexivity|discriminate]. Qed.

Lemma refLib_accepts : validators_accept RefLib.lib.
Proof.
  split.
  - intros key fields userInput. by eexists.
  - intros key s nonEmpty userInput Hs. cbn. unfold RefLib.toString.
    destruct s; [done|]. rewrite andb_false_r. by eexists.
Qed.

(** * Further properties of the modelled code *)

(** ** SLIP framing: what [encode] emits and what [decode] accepts *)

Section SlipMore.

Import Slip.

Lemma stuff_no_END (b : Z) : Forall (fun x => x <> END) (stuff b).
Proof.
  unfold stuff.
  destruct (b =? END) eqn:HEND; [|destruct (b =? ESC) eqn:HESC].
  - repeat constructor; discriminate.
  - repeat constructor; discriminate.
  - apply Z.eqb_neq in HEND. by repeat constructor.
Qed.

Lemma flat_map_stuff_no_END (buf : list Z) :
  Forall (fun x => x <> END) (flat_map stuff buf).
Proof.
  induction buf as [|b buf IH]; [constructor|].
  cbn [flat_map]. apply Forall_app. split; [apply stuff_no_END|done].
Qed.

(** The loop of [decode] over stuffed bytes that are followed by more of
    the frame: it reaches the byte after them, with every byte that needed
    no escape copied to [out]. *)
Lemma decode_loop_prefix (rest : list Z) :
  forall (fuel : nat) (done outdone outrest suffix : list Z),
    (length outdone < length done)%nat ->
    (length rest <= length outrest)%nat ->
    suffix <> [] ->
    exists done',
      length done' = (length done + length (flat_map stuff rest))%nat
      /\ decode_loop (length rest + fuel) (done ++ flat_map stuff rest ++ suffix)
           (outdone ++ outrest) (length done) (length outdone)
         = decode_loop fuel (done' ++ suffix)
             (outdone ++ zip_with kept rest outrest
                      ++ drop (length rest) outrest)
             (length done') (length outdone + length rest).
Proof.
  induction rest as [|b rest IH]; intros fuel done outdone outrest suffix Ho Hroom Hs.
  - exists done. cbn [flat_map app zip_with length].
    rewrite drop_0, !Nat.add_0_r. done.
  - destruct outrest as [|m outrest]; simpl in Hroom; [lia|].
    assert (0 < length suffix)%nat by (destruct suffix; [done|simpl; lia]).
    cbn [length Nat.add decode_loop flat_map].
    rewrite bool_decide_eq_true_2.
    2:{ rewrite !length_app. pose proof (length_stuff b). lia. }
    rewrite lookup_app_r by lia. rewrite Nat.sub_diag.
    rewrite <- !app_assoc.
    destruct (b =? END) eqn:HEND; [|destruct (b =? ESC) eqn:HESC].
    + assert (stuff b = [ESC; ESC_END]) as ->
        by (unfold stuff; by rewrite HEND).
      cbn [app lookup list_lookup].
      change (ESC =? END) with false. change (ESC =? ESC) with true.
      cbn match.
      rewrite lookup_app_r by lia.
      replace (S (length done) - length done)%nat with 1%nat by lia.
      cbn [lookup list_lookup].
      change (ESC_END =? ESC_END) with true. cbn match.
      rewrite insert_app_l by lia.
      destruct (IH fuel (<[length outdone:=END]> done ++ [ESC; ESC_END])
                  (outdone ++ [m]) outrest suffix) as (done' & Hlen & Hrun).
      { rewrite !length_app, length_insert. simpl. lia. }
      { lia. }
      { done. }
      exists done'. split.
      { rewrite Hlen, !length_app, length_insert. simpl. lia. }
      rewrite !length_app, length_insert in Hrun. cbn [length] in Hrun.
      replace (length done + 2)%nat with (S (S (length done))) in Hrun by lia.
      replace (length outdone + 1)%nat with (S (length outdone)) in Hrun by lia.
      rewrite <- !app_assoc in Hrun. cbn [app] in Hrun.
      rewrite Hrun. cbn [zip_with length drop app].
      assert (kept b m = m) as ->
        by (unfold kept, escaped; by rewrite HEND).
      by replace (length outdone + S (length rest))%nat
        with (S (length outdone) + length rest)%nat by lia.
    + assert (stuff b = [ESC; ESC_ESC]) as ->
        by (unfold stuff; by rewrite HEND, HESC).
      cbn [app lookup list_lookup].
      change (ESC =? END) with false. change (ESC =? ESC) with true.
      cbn match.
      rewrite lookup_app_r by lia.
      replace (S (length done) - length done)%nat with 1%nat by lia.
      cbn [lookup list_lookup].
      change (ESC_ESC =? ESC_END) with false.
      change (ESC_ESC =? ESC_ESC) with true. cbn match.
      rewrite insert_app_l by lia.
      destruct (IH fuel (<[length outdone:=ESC]> done ++ [ESC; ESC_ESC])
                  (outdone ++ [m]) outrest suffix) as (done' & Hlen & Hrun).
      { rewrite !length_app, length_insert. simpl. lia. }
      { lia. }
      { done. }
      exists done'. split.
      { rewrite Hlen, !length_app, length_insert. simpl. lia. }
      rewrite !length_app, length_insert in Hrun. cbn [length] in Hrun.
      replace (length done + 2)%nat with (S (S (length done))) in Hrun by lia.
      replace (length outdone + 1)%nat with (S (length outdone)) in Hrun by lia.
      rewrite <- !app_assoc in Hrun. cbn [app] in Hrun.
      rewrite Hrun. cbn [zip_with length drop app].
      assert (kept b m = m) as ->
        by (unfold kept, escaped; by rewrite HEND, HESC).
      by replace (length outdone + S (length rest))%nat
        with (S (length outdone) + length rest)%nat by lia.
    + assert (stuff b = [b]) as ->
        by (unfold stuff; by rewrite HEND, HESC).
      cbn [app lookup list_lookup]. rewrite HEND, HESC.
      rewrite insert_app_r_alt by lia. rewrite Nat.sub_diag.
      cbn [insert list_insert].
      destruct (IH fuel (done ++ [b]) (outdone ++ [b]) outrest suffix)
        as (done' & Hlen & Hrun).
      { rewrite !length_app. simpl. lia. }
      { lia. }
      { done. }
      exists done'. split.
      { rewrite Hlen, !length_app. simpl. lia. }
      rewrite !length_app in Hrun. cbn [length] in Hrun.
      replace (length done + 1)%nat with (S (length done)) in Hrun by lia.
      replace (length outdone + 1)%nat with (S (length outdone)) in Hrun by lia.
      rewrite <- !app_assoc in Hrun. cbn [app] in Hrun.
      rewrite Hrun. cbn [zip_with length drop app].
      assert (kept b m = b) as ->
        by (unfold kept, escaped; by rewrite HEND, HESC).
      by replace (length outdone + S (length rest))%nat
        with (S (length outdone) + length rest)%nat by lia.
Qed.

(** Two frames in one buffer: the [END] that closes the first is an [END]
    inside the frame. *)
Lemma decode_two_frames (pool : nat -> Z) (a tail : list Z) :
  tail <> [] -> last tail = Some END ->
  decode pool (encode a ++ tail) = Throw (Error "invalid END in slip frame").
Proof.
  intros Htail Hlast. rewrite encode_stuff. unfold decode, decode_run.
  pose proof (length_flat_map_stuff a) as Hlen.
  set (s := flat_map stuff a) in *.
  assert (0 < length tail)%nat by (destruct tail; [done|simpl; lia]).
  set (frame := (END :: s ++ [END]) ++ tail).
  assert (length frame = (length s + 2 + length tail)%nat) as Hl.
  { unfold frame. rewrite length_app. simpl. rewrite length_app. simpl. lia. }
  rewrite Hl.
  rewrite bool_decide_eq_false_2 by lia.
  rewrite (bool_decide_eq_true_2 (frame !! 0%nat = Some END)) by done.
  rewrite bool_decide_eq_true_2.
  2:{ unfold frame. rewrite lookup_app_r by (simpl; rewrite length_app; simpl; lia).
      rewrite last_lookup in Hlast. rewrite <- Hlast. f_equal.
      simpl. rewrite length_app. simpl. lia. }
  cbn [orb negb].
  set (out := Buffer.allocUnsafe pool (length s + 2 + length tail - 2)).
  assert (length a <= length out)%nat as Hout.
  { unfold out, Buffer.allocUnsafe. rewrite length_map, length_seq. lia. }
  destruct (decode_loop_prefix a (length s + 2 + length tail - length a)
              [END] [] out (END :: tail)) as (done' & Hd & Hrun).
  { simpl. lia. }
  { done. }
  { done. }
  replace (length s + 2 + length tail)%nat
    with (length a + (length s + 2 + length tail - length a))%nat at 1 by lia.
  replace frame with ([END] ++ s ++ END :: tail).
  2:{ unfold frame. cbn. by rewrite <- app_assoc. }
  cbn [app length] in Hrun. cbn [app]. fold s in Hrun. rewrite Hrun.
  destruct (length s + 2 + length tail - length a)%nat as [|fuel] eqn:Hfuel; [lia|].
  cbn [decode_loop].
  rewrite bool_decide_eq_true_2 by (rewrite length_app; simpl; lia).
  rewrite lookup_app_r by lia. rewrite Nat.sub_diag. cbn [lookup list_lookup].
  change (END =? END) with true. done.
Qed.

End SlipMore.

(** [encode] frames its output: an [END] at both ends and none in
    between, and at most two bytes for every byte of the input. *)
Theorem slip_encode_delimited (buf : list Z) :
  exists body,
    Slip.encode buf = Slip.END :: body ++ [Slip.END]
    /\ Forall (fun b => b <> Slip.END) body
    /\ (length buf <= length body <= 2 * length buf)%nat.
Proof.
  exists (flat_map Slip.stuff buf). split; [apply encode_stuff|].
  split; [apply flat_map_stuff_no_END|apply length_flat_map_stuff].
Qed.

(** [decode] never fails on what [encode] returns, and gives back a buffer
    of the length of the original in which every byte other than [END] and
    [ESC] is the original one; in the place of an [END] or [ESC] is the
    byte that the unsafely allocated output held there. *)
Theorem slip_round_trip_keeps_plain_bytes (pool : nat -> Z) (buf : list Z) :
  exists out,
    Slip.decode pool (Slip.encode buf) = Ok out
    /\ length out = length buf
    /\ forall (i : nat) (b : Z),
        buf !! i = Some b ->
        out !! i = Some (if Slip.escaped b then pool i else b).
Proof.
  eexists. split; [apply decode_encode|].
  assert (length (Buffer.allocUnsafe pool (length buf)) = length buf) as Hl
    by (unfold Buffer.allocUnsafe; by rewrite length_map, length_seq).
  split.
  - rewrite length_zip_with_l; [done|]. by rewrite Hl.
  - intros i b Hb. rewrite lookup_zip_with, Hb. cbn.
    unfold Buffer.allocUnsafe. rewrite list_lookup_fmap.
    rewrite lookup_seq_lt by (by eapply lookup_lt_Some). done.
Qed.

(** Two frames that arrive in one chunk are not split: [decode] meets the
    [END] that closes the first one inside the buffer and throws, and the
    ['data'] handler of the socket, which calls it, throws with it. *)
Theorem two_frames_in_one_chunk_throw
    (commands : list (string * command)) (pool : nat -> Z) (a b : list Z)
    (c : client) :
  Slip.decode pool (Slip.encode a ++ Slip.encode b)
  = Throw (Error "invalid END in slip frame")
  /\ on_data commands pool (Slip.encode a ++ Slip.encode b) c
     = crash (Error "invalid END in slip frame") c.
Proof.
  assert (Slip.decode pool (Slip.encode a ++ Slip.encode b)
          = Throw (Error "invalid END in slip frame")) as H.
  { apply decode_two_frames.
    - rewrite encode_stuff. done.
    - rewrite encode_stuff.
      change (Slip.END :: flat_map Slip.stuff b ++ [Slip.END])
        with ((Slip.END :: flat_map Slip.stuff b) ++ [Slip.END]).
      by rewrite last_snoc. }
  split; [done|]. unfold on_data. by rewrite H.
Qed.

(** ** The network setup *)

Section CodecFacts.

(** *** [decodeIpv4] *)

Lemma to_int32_range (n : Z) : - 2 ^ 31 <= Js.to_int32 n < 2 ^ 31.
Proof.
  unfold Js.to_int32. pose proof (Z.mod_pos_bound (n + 2 ^ 31) (2 ^ 32)). lia.
Qed.

Lemma to_int32_small (n : Z) : - 2 ^ 31 <= n < 2 ^ 31 -> Js.to_int32 n = n.
Proof. intros Hn. unfold Js.to_int32. rewrite Z.mod_small; lia. Qed.

Lemma to_int32_mod (n : Z) : Js.to_int32 n mod 2 ^ 32 = n mod 2 ^ 32.
Proof.
  unfold Js.to_int32.
  rewrite <- Zminus_mod_idemp_l. rewrite Z.mod_mod by lia.
  rewrite Zminus_mod_idemp_l. f_equal. lia.
Qed.

(** The bits of [ToInt32(n)] below bit 32 are those of [n]. *)
Lemma to_int32_div_mod (n : Z) (k : Z) :
  0 <= k <= 24 ->
  (Js.to_int32 n / 2 ^ k) mod 2 ^ 8 = (n / 2 ^ k) mod 2 ^ 8.
Proof.
  intros Hk.
  assert (exists q, Js.to_int32 n = n + q * 2 ^ 32) as [q ->].
  { exists (- ((n + 2 ^ 31) / 2 ^ 32)). unfold Js.to_int32.
    rewrite Z.mod_eq by lia. lia. }
  replace (q * 2 ^ 32) with (q * 2 ^ (32 - k) * 2 ^ k).
  2:{ rewrite <- Z.mul_assoc, <- Z.pow_add_r by lia. do 2 f_equal. lia. }
  rewrite Z.div_add by lia.
  replace (q * 2 ^ (32 - k)) with (q * 2 ^ (24 - k) * 2 ^ 8).
  2:{ rewrite <- Z.mul_assoc, <- Z.pow_add_r by lia. do 2 f_equal. lia. }
  by rewrite Z.mod_add by lia.
Qed.

Lemma land_low_byte (x : Z) : Z.land x 0xFF = x mod 2 ^ 8.
Proof. change 0xFF with (Z.ones 8). by rewrite Z.land_ones by lia. Qed.

(** [(n & (0xFF << k)) >> k] for a byte that is not the top one. *)
Lemma byte_of_word (n k : Z) :
  0 <= k <= 16 ->
  Js.shr (Js.band n (0xFF * 2 ^ k)) k = (n / 2 ^ k) mod 2 ^ 8.
Proof.
  intros Hk. unfold Js.shr, Js.band.
  rewrite (to_int32_small (0xFF * 2 ^ k)).
  2:{ assert (0 < 2 ^ k <= 2 ^ 16)
        by (split; [lia|apply Z.pow_le_mono_r; lia]). lia. }
  rewrite (Z.mod_small k 32) by lia.
  assert (Z.land (Js.to_int32 n) (0xFF * 2 ^ k)
          = Z.shiftl ((Js.to_int32 n / 2 ^ k) mod 2 ^ 8) k) as ->.
  { rewrite <- land_low_byte, <- Z.shiftr_div_pow2 by lia.
    replace (0xFF * 2 ^ k) with (Z.shiftl (Z.ones 8) k)
      by (by rewrite Z.shiftl_mul_pow2 by lia).
    apply Z.bits_inj'. intros i Hi.
    rewrite Z.land_spec, !Z.shiftl_spec by lia. rewrite Z.land_spec.
    destruct (Z.ltb_spec i k).
    - rewrite !(Z.testbit_neg_r _ (i - k)) by lia. by rewrite !andb_false_r.
    - rewrite Z.shiftr_spec by lia.
      replace (i - k + k) with i by lia. done. }
  assert (0 <= (Js.to_int32 n / 2 ^ k) mod 2 ^ 8 < 2 ^ 8)
    by (apply Z.mod_pos_bound; lia).
  rewrite to_int32_small.
  2:{ rewrite Z.shiftl_mul_pow2 by lia.
      assert (0 < 2 ^ k <= 2 ^ 16)
        by (split; [lia|apply Z.pow_le_mono_r; lia]). nia. }
  rewrite Z.shiftr_shiftl_l, Z.sub_diag by lia.
  rewrite Z.shiftl_0_r. apply to_int32_div_mod. lia.
Qed.

(** [((n & 0xFF000000) >> 24) & 0xFF]: the mask is negative as a 32-bit
    integer, and the shift propagates the sign. *)
Lemma top_byte_of_word (n : Z) :
  Js.band (Js.shr (Js.band n 0xFF000000) 24) 0xFF = (n / 2 ^ 24) mod 2 ^ 8.
Proof.
  unfold Js.shr, Js.band.
  change (Js.to_int32 0xFF000000) with (Z.lnot (Z.ones 24)).
  change (Js.to_int32 0xFF) with 0xFF. change (24 mod 32) with 24.
  rewrite <- Z.ldiff_land, Z.ldiff_ones_r by lia.
  pose proof (to_int32_range n) as Hn.
  assert (- 2 ^ 7 <= Js.to_int32 n / 2 ^ 24 < 2 ^ 7) as Hq.
  { split.
    - apply Z.div_le_lower_bound; lia.
    - apply Z.div_lt_upper_bound; lia. }
  rewrite (Z.shiftr_div_pow2 (Js.to_int32 n)) by lia.
  rewrite (to_int32_small (Z.shiftl _ 24))
    by (rewrite Z.shiftl_mul_pow2 by lia; lia).
  rewrite Z.shiftr_shiftl_l, Z.sub_diag, Z.shiftl_0_r by lia.
  rewrite to_int32_small by lia.
  rewrite land_low_byte. apply to_int32_div_mod. lia.
Qed.

Lemma low_byte_of_word (n : Z) : Js.band n 0xFF = n mod 2 ^ 8.
Proof.
  unfold Js.band. change (Js.to_int32 0xFF) with 0xFF.
  rewrite land_low_byte.
  pose proof (to_int32_div_mod n 0 ltac:(lia)) as H.
  by rewrite !Z.div_1_r in H.
Qed.

Lemma decodeIpv4_bytes (a b c d : Z) :
  0 <= a < 256 -> 0 <= b < 256 -> 0 <= c < 256 -> 0 <= d < 256 ->
  decodeIpv4 (a * 2 ^ 24 + b * 2 ^ 16 + c * 2 ^ 8 + d)
  = pretty a +:+ "." +:+ pretty b +:+ "." +:+ pretty c +:+ "." +:+ pretty d.
Proof.
  intros Ha Hb Hc Hd. unfold decodeIpv4.
  set (n := a * 2 ^ 24 + b * 2 ^ 16 + c * 2 ^ 8 + d).
  rewrite top_byte_of_word, low_byte_of_word.
  change 0x00FF0000 with (0xFF * 2 ^ 16). change 0x0000FF00 with (0xFF * 2 ^ 8).
  rewrite !byte_of_word by lia.
  assert (n / 2 ^ 24 = a) as ->.
  { symmetry. apply (Z.div_unique_pos n (2 ^ 24) a (b * 2 ^ 16 + c * 2 ^ 8 + d));
      unfold n; lia. }
  assert (n / 2 ^ 16 = a * 2 ^ 8 + b) as ->.
  { symmetry. apply (Z.div_unique_pos n (2 ^ 16) _ (c * 2 ^ 8 + d));
      unfold n; lia. }
  assert (n / 2 ^ 8 = a * 2 ^ 16 + b * 2 ^ 8 + c) as ->.
  { symmetry. apply (Z.div_unique_pos n (2 ^ 8) _ d); unfold n; lia. }
  assert (a mod 2 ^ 8 = a) as -> by (apply Z.mod_small; lia).
  assert ((a * 2 ^ 8 + b) mod 2 ^ 8 = b) as ->.
  { rewrite Z.add_comm, Z.mod_add by lia. apply Z.mod_small; lia. }
  assert ((a * 2 ^ 16 + b * 2 ^ 8 + c) mod 2 ^ 8 = c) as ->.
  { replace (a * 2 ^ 16 + b * 2 ^ 8 + c) with (c + (a * 2 ^ 8 + b) * 2 ^ 8) by lia.
    rewrite Z.mod_add by lia. apply Z.mod_small; lia. }
  assert (n mod 2 ^ 8 = d) as ->.
  { unfold n.
    replace (a * 2 ^ 24 + b * 2 ^ 16 + c * 2 ^ 8 + d)
      with (d + (a * 2 ^ 16 + b * 2 ^ 8 + c) * 2 ^ 8) by lia.
    rewrite Z.mod_add by lia. apply Z.mod_small; lia. }
  reflexivity.
Qed.

End CodecFacts.

(** The network setup that [GW_GET_NETWORK_SETUP_CFM] carries: the three
    addresses are the dotted quads of bytes 0 to 3, 4 to 7 and 8 to 11 in
    that order, also when the first byte is 128 or more, and [dhcp] tells
    whether byte 12 is not zero. *)
Theorem network_setup_is_dotted_quads
    (a0 a1 a2 a3 m0 m1 m2 m3 g0 g1 g2 g3 dhcp : Z) :
  Buffer.wf [a0; a1; a2; a3; m0; m1; m2; m3; g0; g1; g2; g3] ->
  GW_GET_NETWORK_SETUP_CFM_decode
    [a0; a1; a2; a3; m0; m1; m2; m3; g0; g1; g2; g3; dhcp]
  = Ok (VObj
          [ ("address",
             VStr (pretty a0 +:+ "." +:+ pretty a1 +:+ "." +:+ pretty a2
                   +:+ "." +:+ pretty a3));
            ("mask",
             VStr (pretty m0 +:+ "." +:+ pretty m1 +:+ "." +:+ pretty m2
                   +:+ "." +:+ pretty m3));
            ("gateway",
             VStr (pretty g0 +:+ "." +:+ pretty g1 +:+ "." +:+ pretty g2
                   +:+ "." +:+ pretty g3));
            ("dhcp", VBool (negb (dhcp =? 0))) ]).
Proof.
  intros Hwf. unfold Buffer.wf in Hwf.
  repeat match goal with
         | H : Forall _ (_ :: _) |- _ =>
           apply Forall_cons_1 in H; destruct H as [? H]
         end.
  unfold GW_GET_NETWORK_SETUP_CFM_decode.
  cbn -[decodeIpv4 Z.pow Z.mul Z.add].
  by rewrite !decodeIpv4_bytes by lia.
Qed.

Lemma network_setup_is_dotted_quads_witness :
  GW_GET_NETWORK_SETUP_CFM_decode
    [192; 168; 1; 20; 255; 255; 255; 0; 192; 168; 1; 1; 1]
  = Ok (VObj
          [ ("address", VStr "192.168.1.20");
            ("mask", VStr "255.255.255.0");
            ("gateway", VStr "192.168.1.1");
            ("dhcp", VBool true) ]).
Proof.
  apply (network_setup_is_dotted_quads 192 168 1 20 255 255 255 0 192 168 1 1 1).
  repeat constructor; lia.
Defined.

(** ** The system table and the node parameters *)

Section DecoderFacts.

Lemma readUInt8_lookup (data : list Z) (off : nat) (b : Z) :
  data !! off = Some b -> Buffer.readUInt8 data off = Ok b.
Proof. intros H. unfold Buffer.readUInt8. by rewrite H. Qed.

Lemma readUInt8_total (data : list Z) (off : nat) :
  (off < length data)%nat -> Buffer.readUInt8 data off = Ok (data !!! off).
Proof.
  intros H. apply readUInt8_lookup. by apply list_lookup_lookup_total_lt.
Qed.

Lemma checkData_length (data : list Z) (n : nat) :
  length data = n -> checkData data (Z.of_nat n) = Ok tt.
Proof. intros <-. unfold checkData. by rewrite Z.eqb_refl. Qed.

Lemma checkData_ok (data : list Z) (n : Z) :
  Z.of_nat (length data) = n -> checkData data n = Ok tt.
Proof. intros <-. unfold checkData. by rewrite Z.eqb_refl. Qed.

Variable lib : hb_lib_tools.

(** *** The system table *)

Lemma systemtable_entry_at (data : list Z) (i : nat) :
  (11 * i + 8 < length data)%nat -> (17 < length data)%nat ->
  systemtable_entry lib data i = Ok (entry_at lib data i).
Proof.
  intros Hi H17. unfold systemtable_entry, Buffer.readUInt16BE.
  rewrite !readUInt8_total by lia.
  change (11 * 1 + 5)%nat with 16%nat.
  rewrite (list_lookup_lookup_total_lt data 16) by lia.
  rewrite (list_lookup_lookup_total_lt data 17) by lia.
  reflexivity.
Qed.

Lemma systemtable_loop_entries (data : list Z) (count : nat) :
  forall (i : nat) (result acc : list value) (d : bool),
    (11 * (i + count) + 2 <= length data)%nat -> (17 < length data)%nat ->
    systemtable_loop lib data count i result
      (Some {| sv_result := VArr acc; sv_done := d |})
    = (Ok (result ++ map (entry_at lib data) (seq i count)),
       Some {| sv_result := VArr (acc ++ map (entry_at lib data) (seq i count));
               sv_done := d |}).
Proof.
  induction count as [|count IH]; intros i result acc d Hlen H17.
  - cbn. by rewrite !app_nil_r.
  - cbn [systemtable_loop].
    rewrite systemtable_entry_at by lia.
    cbn [session_push sv_result sv_done].
    rewrite IH by lia. cbn [seq map]. by rewrite <- !app_assoc.
Qed.

End DecoderFacts.

(** A system table notification with two or more entries is decoded into
    as many entries, appended in order to the result of the session; each
    takes its node id, power state and manufacturer from its own 11-byte
    record, and all of them the actuator type at the bytes 16 and 17, those
    of the second record.  The session is done when the byte after the
    last record is zero. *)
Theorem systemtable_entries_share_actuator_type
    (lib : hb_lib_tools) (data : list Z) (n : nat) (acc : list value)
    (d : bool) :
  (2 <= n)%nat -> data !! 0%nat = Some (Z.of_nat n) ->
  length data = (2 + 11 * n)%nat ->
  let entries := map (entry_at lib data) (seq 0 n) in
  GW_CS_GET_SYSTEMTABLE_DATA_NTF_decode lib data
    (Some {| sv_result := VArr acc; sv_done := d |})
  = (Ok (VArr entries),
     Some {| sv_result := VArr (acc ++ entries);
             sv_done := (data !!! (11 * n + 1)%nat =? 0) || d |})
  /\ length entries = n
  /\ forall i, (i < n)%nat -> entries !! i = Some (entry_at lib data i).
Proof.
  intros Hn H0 Hlen entries. split; [|split].
  - unfold GW_CS_GET_SYSTEMTABLE_DATA_NTF_decode.
    rewrite (readUInt8_lookup _ _ _ H0).
    replace (2 + Z.of_nat n * 11) with (Z.of_nat (2 + 11 * n)) by lia.
    rewrite (checkData_length _ _ Hlen). rewrite Nat2Z.id.
    rewrite systemtable_loop_entries by lia.
    rewrite readUInt8_total by lia.
    replace (n * 11 + 1)%nat with (11 * n + 1)%nat by lia.
    cbn [app]. fold entries.
    destruct (data !!! (11 * n + 1)%nat =? 0); reflexivity.
  - unfold entries. by rewrite length_map, length_seq.
  - intros i Hi. unfold entries.
    rewrite list_lookup_fmap, lookup_seq_lt by done. reflexivity.
Qed.

Lemma systemtable_entries_share_actuator_type_witness :
  let data := [2; 7; 1; 2; 3; 0x01; 0x01; 5; 1; 0; 0; 0;
                  9; 1; 2; 3; 0x00; 0x80; 6; 2; 0; 0; 0; 0] in
  let entries := map (entry_at RefLib.lib data) (seq 0 2) in
  GW_CS_GET_SYSTEMTABLE_DATA_NTF_decode RefLib.lib data
    (Some {| sv_result := VArr []; sv_done := false |})
  = (Ok (VArr entries),
     Some {| sv_result := VArr ([] ++ entries);
             sv_done := (data !!! (11 * 2 + 1)%nat =? 0) || false |})
  /\ length entries = 2%nat
  /\ forall i, (i < 2)%nat ->
       entries !! i = Some (entry_at RefLib.lib data i).
Proof.
  apply (systemtable_entries_share_actuator_type RefLib.lib
           [2; 7; 1; 2; 3; 0x01; 0x01; 5; 1; 0; 0; 0;
               9; 1; 2; 3; 0x00; 0x80; 6; 2; 0; 0; 0; 0] 2 [] false).
  - lia.
  - reflexivity.
  - reflexivity.
Defined.

(** A system table notification with exactly one entry is never decoded:
    its 13 bytes end before the offset 16 at which the decoder reads the
    actuator type. *)
Theorem systemtable_single_entry_throws
    (lib : hb_lib_tools) (data : list Z) (s : option session_view) :
  data !! 0%nat = Some 1 -> length data = 13%nat ->
  GW_CS_GET_SYSTEMTABLE_DATA_NTF_decode lib data s
  = (Throw (RangeError "ERR_OUT_OF_RANGE"), s).
Proof.
  intros H0 Hlen. unfold GW_CS_GET_SYSTEMTABLE_DATA_NTF_decode.
  rewrite (readUInt8_lookup _ _ _ H0).
  change (2 + 1 * 11) with (Z.of_nat 13).
  rewrite (checkData_length _ _ Hlen).
  change (Z.to_nat 1) with 1%nat. cbn [systemtable_loop].
  unfold systemtable_entry, Buffer.readUInt16BE.
  rewrite !readUInt8_total by lia.
  change (11 * 1 + 5)%nat with 16%nat.
  rewrite (lookup_ge_None_2 data 16) by lia. reflexivity.
Qed.

Lemma systemtable_single_entry_throws_witness :
  GW_CS_GET_SYSTEMTABLE_DATA_NTF_decode RefLib.lib
    [1; 2; 1; 2; 3; 0x00; 0x80; 5; 1; 0; 0; 0; 0] None
  = (Throw (RangeError "ERR_OUT_OF_RANGE"), None).
Proof.
  apply (systemtable_single_entry_throws RefLib.lib
           [1; 2; 1; 2; 3; 0x00; 0x80; 5; 1; 0; 0; 0; 0] None);
    reflexivity.
Defined.

(** A run status whose node parameter (byte 4) is one of the functional
    parameters 1 to 16 is never decoded: [decodeNodeParameter] calls the
    number as the tag of a template literal, which throws a [TypeError]. *)
Theorem run_status_of_functional_parameter_throws
    (lib : hb_lib_tools) (data : list Z) (p : Z) :
  length data = 13%nat -> data !! 4%nat = Some p -> 1 <= p <= 0x10 ->
  decodeNodeParameter lib p = Throw (TypeError "parameter is not a function")
  /\ GW_COMMAND_RUN_STATUS_NTF_decode lib data
     = Throw (TypeError "parameter is not a function").
Proof.
  intros Hlen H4 Hp.
  assert (decodeNodeParameter lib p
          = Throw (TypeError "parameter is not a function")) as Hdec.
  { unfold decodeNodeParameter.
    rewrite (proj2 (Z.eqb_neq _ _)) by lia.
    by rewrite (proj2 (Z.leb_le _ _)) by lia. }
  split; [done|].
  unfold GW_COMMAND_RUN_STATUS_NTF_decode, Buffer.readUInt16BE.
  rewrite (checkData_ok data 13) by (by rewrite Hlen).
  rewrite (readUInt8_lookup _ _ _ H4).
  rewrite !readUInt8_total by lia.
  rewrite (list_lookup_lookup_total_lt data 0) by lia.
  rewrite (list_lookup_lookup_total_lt data 1) by lia.
  cbn [mbind except_bind]. by rewrite Hdec.
Qed.

Lemma run_status_of_functional_parameter_throws_witness :
  decodeNodeParameter RefLib.lib 1
  = Throw (TypeError "parameter is not a function")
  /\ GW_COMMAND_RUN_STATUS_NTF_decode RefLib.lib
       [0; 5; 0; 2; 1; 0x64; 0; 2; 1; 0; 0; 0; 0]
     = Throw (TypeError "parameter is not a function").
Proof.
  apply (run_status_of_functional_parameter_throws RefLib.lib
           [0; 5; 0; 2; 1; 0x64; 0; 2; 1; 0; 0; 0; 0] 1).
  - reflexivity.
  - reflexivity.
  - lia.
Defined.

(** ** Groups *)

Section GroupFacts.

Lemma readUInt16BE_total (data : list Z) (off : nat) :
  (S off < length data)%nat ->
  Buffer.readUInt16BE data off
  = Ok (data !!! off * 2 ^ 8 + data !!! S off).
Proof.
  intros H. unfold Buffer.readUInt16BE.
  rewrite (list_lookup_lookup_total_lt data off) by lia.
  by rewrite (list_lookup_lookup_total_lt data (S off)) by lia.
Qed.

Lemma land_1_testbit (m : Z) : (Z.land m 0x01 =? 0) = negb (Z.testbit m 0).
Proof.
  change 0x01 with (Z.ones 1). rewrite Z.land_ones by lia.
  change (2 ^ 1) with 2. rewrite <- Z.bit0_mod.
  by destruct (Z.testbit m 0).
Qed.

Variable lib : hb_lib_tools.
Variable utf8_decode : list Z -> string.

(** The loop over the 200 node ids keeps in [mask] the byte of the id,
    shifted by the bits already seen. *)
Lemma nodeIds_loop_bits (data : list Z) (fuel : nat) :
  forall (i : nat) (mask : Z) (acc : list Z),
    length data = 99%nat -> (i + fuel <= 200)%nat ->
    ((i mod 8)%nat <> 0%nat ->
     mask = Z.shiftr (data !!! (72 + i / 8)%nat) (Z.of_nat (i mod 8))) ->
    nodeIds_loop fuel data i mask acc
    = Ok (acc ++ map Z.of_nat
                   (filter (fun i : nat =>
                              Z.testbit (data !!! (72 + i / 8)%nat)
                                        (Z.of_nat (i mod 8)) = true)
                           (seq i fuel))).
Proof.
  induction fuel as [|fuel IH]; intros i mask acc Hlen Hi Hmask.
  - cbn. by rewrite app_nil_r.
  - cbn [nodeIds_loop seq].
    pose proof (Nat.div_mod_eq i 8) as Hdm.
    pose proof (Nat.mod_upper_bound i 8 ltac:(lia)) as Hm.
    pose proof (Nat.div_mod_eq (S i) 8) as Hdm'.
    pose proof (Nat.mod_upper_bound (S i) 8 ltac:(lia)) as Hm'.
    set (byte := data !!! (72 + i / 8)%nat) in *.
    assert ((if (i mod 8 =? 0)%nat
             then Buffer.readUInt8 data (72 + i / 8)
             else Ok mask)
            = Ok (Z.shiftr byte (Z.of_nat (i mod 8)))) as ->.
    { destruct (Nat.eqb_spec (i mod 8) 0) as [E|E].
      - rewrite readUInt8_total by lia. by rewrite E.
      - by rewrite Hmask. }
    cbn [mbind except_bind].
    rewrite land_1_testbit, Z.shiftr_spec by lia. rewrite Z.add_0_l.
    rewrite Z.shiftr_shiftr by lia.
    rewrite filter_cons.
    rewrite IH; [| done | lia |].
    + fold byte. destruct (Z.testbit byte (Z.of_nat (i mod 8))) eqn:Hbit.
      * rewrite decide_True by done. cbn [negb map].
        by rewrite <- app_assoc.
      * rewrite decide_False by (by intros ?). done.
    + intros Hne.
      assert ((S i / 8)%nat = (i / 8)%nat) as -> by lia.
      fold byte. f_equal. lia.
Qed.

Lemma decodeGroupInformation_nodeIds (data : list Z) (groupType nNodes : Z) :
  length data = 99%nat ->
  data !! 70%nat = Some groupType -> data !! 71%nat = Some nNodes ->
  exists payload,
    decodeGroupInformation lib utf8_decode data = Ok payload
    /\ Js.get payload "sessionId" = VUndefined
    /\ Js.get payload "nodeIds"
       = VArr (map VNum
                 (if (groupType =? 0) && (0 <? nNodes) then
                    map Z.of_nat
                      (filter (fun i : nat =>
                                 Z.testbit (data !!! (72 + i / 8)%nat)
                                           (Z.of_nat (i mod 8)) = true)
                              (seq 0 200))
                  else [])).
Proof.
  intros Hlen H70 H71. unfold decodeGroupInformation.
  rewrite (checkData_ok data 99) by (by rewrite Hlen).
  rewrite (readUInt8_lookup _ _ _ H70), (readUInt8_lookup _ _ _ H71).
  cbn [mbind except_bind].
  assert ((if (groupType =? 0) && (0 <? nNodes)
           then nodeIds_loop 200 data 0 0 []
           else Ok [])
          = Ok (if (groupType =? 0) && (0 <? nNodes) then
                  map Z.of_nat
                    (filter (fun i : nat =>
                               Z.testbit (data !!! (72 + i / 8)%nat)
                                         (Z.of_nat (i mod 8)) = true)
                            (seq 0 200))
                else [])) as ->.
  { destruct ((groupType =? 0) && (0 <? nNodes)); [|done].
    rewrite nodeIds_loop_bits; [done|done|lia|done]. }
  rewrite !readUInt8_total by lia.
  rewrite !readUInt16BE_total by lia.
  cbn [mbind except_bind]. eexists. split; [reflexivity|].
  split; reflexivity.
Qed.

End GroupFacts.

(** The node ids of a group: for a user group (group type 0) with a node
    count that is not zero they are, in increasing order, the numbers [i]
    below 200 for which bit [i mod 8] of byte [72 + i / 8] is set, however
    many the node count announces; for any other group there are none. *)
Theorem group_node_ids_are_the_set_bits
    (lib : hb_lib_tools) (utf8_decode : list Z -> string) (data : list Z)
    (groupType nNodes : Z) :
  length data = 99%nat ->
  data !! 70%nat = Some groupType -> data !! 71%nat = Some nNodes ->
  exists payload,
    decodeGroupInformation lib utf8_decode data = Ok payload
    /\ Js.get payload "nodeIds"
       = VArr (map VNum
                 (if (groupType =? 0) && (0 <? nNodes) then
                    map Z.of_nat
                      (filter (fun i : nat =>
                                 Z.testbit (data !!! (72 + i / 8)%nat)
                                           (Z.of_nat (i mod 8)) = true)
                              (seq 0 200))
                  else [])).
Proof.
  intros Hlen H70 H71.
  destruct (decodeGroupInformation_nodeIds lib utf8_decode data groupType
              nNodes Hlen H70 H71) as (payload & Hdec & _ & Hids).
  by exists payload.
Qed.

Lemma group_node_ids_are_the_set_bits_witness :
  let data := repeat 0 70 ++ [0; 3; 0x05; 0x80] ++ repeat 0 25 in
  exists payload,
    decodeGroupInformation RefLib.lib RefLib.utf8_decode data = Ok payload
    /\ Js.get payload "nodeIds"
       = VArr (map VNum
                 (if (0 =? 0) && (0 <? 3) then
                    map Z.of_nat
                      (filter (fun i : nat =>
                                 Z.testbit (data !!! (72 + i / 8)%nat)
                                           (Z.of_nat (i mod 8)) = true)
                              (seq 0 200))
                  else [])).
Proof.
  apply (group_node_ids_are_the_set_bits RefLib.lib RefLib.utf8_decode
           (repeat 0 70 ++ [0; 3; 0x05; 0x80] ++ repeat 0 25) 0 3);
    reflexivity.
Defined.

(** The witness has the node ids 0, 2 and 15. *)
Example group_node_ids_example :
  Js.get
    (match decodeGroupInformation RefLib.lib RefLib.utf8_decode
             (repeat 0 70 ++ [0; 3; 0x05; 0x80] ++ repeat 0 25) with
     | Ok payload => payload
     | Throw _ => VUndefined
     end) "nodeIds"
  = VArr [VNum 0; VNum 2; VNum 15].
Proof. vm_compute. reflexivity. Qed.

(** ** The password change *)

(** The payload of a password change: the two passwords, each at most 32
    bytes of UTF-8, are written at the offsets 0 and 32 of a 64-byte buffer
    and padded with zeros, and both are replaced in [params] by strings of
    the same length that show an asterisk for every character other than a
    line terminator. *)
Theorem password_change_layout
    (lib : hb_lib_tools) (oldPassword newPassword : string)
    (userInput : bool) :
  validators_accept lib ->
  oldPassword <> EmptyString -> newPassword <> EmptyString ->
  (length (Buffer.utf8_string oldPassword) <= 32)%nat ->
  (length (Buffer.utf8_string newPassword) <= 32)%nat ->
  GW_PASSWORD_CHANGE_REQ_encode lib
    (VObj [("oldPassword", VStr oldPassword);
           ("newPassword", VStr newPassword)]) userInput
  = Ok (Buffer.utf8_string oldPassword
          ++ repeat 0 (32 - length (Buffer.utf8_string oldPassword))
          ++ Buffer.utf8_string newPassword
          ++ repeat 0 (32 - length (Buffer.utf8_string newPassword)),
        VObj [("oldPassword", VStr (replace_dot_star oldPassword));
              ("newPassword", VStr (replace_dot_star newPassword))]).
Proof.
  intros [Hobj Hstr] Hold Hnew Holdlen Hnewlen.
  unfold GW_PASSWORD_CHANGE_REQ_encode.
  destruct (Hobj "params" [("oldPassword", VStr oldPassword);
                           ("newPassword", VStr newPassword)] userInput)
    as [v ->].
  cbn [mbind except_bind Js.get Js.lookup].
  change (String.eqb "oldPassword" "oldPassword") with true.
  change (String.eqb "oldPassword" "newPassword") with false.
  change (String.eqb "newPassword" "newPassword") with true.
  cbn match.
  destruct (Hstr "params.oldPassword" oldPassword true userInput Hold)
    as [v1 ->].
  destruct (Hstr "params.newPassword" newPassword true userInput Hnew)
    as [v2 ->].
  cbn [mbind except_bind Js.set Js.assign Js.get Js.lookup].
  change (String.eqb "oldPassword" "oldPassword") with true.
  change (String.eqb "oldPassword" "newPassword") with false.
  change (String.eqb "newPassword" "newPassword") with true.
  cbn match. cbn [mbind except_bind Js.get Js.lookup].
  change (String.eqb "oldPassword" "newPassword") with false.
  change (String.eqb "newPassword" "newPassword") with true.
  cbn match. do 2 f_equal.
  set (o := Buffer.utf8_string oldPassword) in *.
  set (n := Buffer.utf8_string newPassword) in *.
  assert (Buffer.write (Buffer.alloc 64) oldPassword 0
          = (o ++ repeat 0 (32 - length o)) ++ repeat 0 (length n)
              ++ repeat 0 (32 - length n)) as ->.
  { pose proof (write_fits oldPassword [] (repeat 0 (length o))
                  (repeat 0 (32 - length o) ++ repeat 0 (length n)
                     ++ repeat 0 (32 - length n))) as H.
    cbn [app length] in H. fold o in H. rewrite <- app_assoc.
    rewrite <- H by (by rewrite repeat_length).
    f_equal. unfold Buffer.alloc. rewrite <- !repeat_app. f_equal. lia. }
  replace 32%nat with (length (o ++ repeat 0 (32 - length o))) at 3
    by (rewrite length_app, repeat_length; lia).
  rewrite write_fits by (by rewrite repeat_length).
  by rewrite <- !app_assoc.
Qed.

Lemma password_change_layout_witness :
  GW_PASSWORD_CHANGE_REQ_encode RefLib.lib
    (VObj [("oldPassword", VStr "abc"); ("newPassword", VStr "de")]) false
  = Ok (Buffer.utf8_string "abc"
          ++ repeat 0 (32 - length (Buffer.utf8_string "abc"))
          ++ Buffer.utf8_string "de"
          ++ repeat 0 (32 - length (Buffer.utf8_string "de")),
        VObj [("oldPassword", VStr (replace_dot_star "abc"));
              ("newPassword", VStr (replace_dot_star "de"))]).
Proof.
  apply (password_change_layout RefLib.lib "abc" "de" false).
  - exact refLib_accepts.
  - discriminate.
  - discriminate.
  - simpl. lia.
  - simpl. lia.
Defined.

(** An old password of more than 32 bytes runs into the field of the new
    one: the new password overwrites only as many bytes as it has. *)
Example password_change_overflow :
  (fun r => match r with
            | Ok (data, _) => drop 32 data
            | Throw _ => []
            end)
    (GW_PASSWORD_CHANGE_REQ_encode RefLib.lib
       (VObj [("oldPassword", VStr "0123456789012345678901234567890123456789");
              ("newPassword", VStr "x")]) false)
  = Buffer.utf8_string "x3456789" ++ repeat 0 24.
Proof. vm_compute. reflexivity. Qed.

(** ** What the turns of the event loop leave alone *)

Section Projection.

Variable commands : list (string * command).

Context {A : Type} (field : client -> A).
Hypothesis field_tasks : forall v c, field (set_tasks v c) = field c.
Hypothesis field_events : forall v c, field (set_events v c) = field c.
Hypothesis field_uncaught : forall v c, field (set_uncaught v c) = field c.

Lemma field_update_task i f c : field (update_task i f c) = field c.
Proof. apply field_tasks. Qed.

Lemma field_update_session i f c : field (update_session i f c) = field c.
Proof. apply field_update_task. Qed.

Lemma field_set_result i v c : field (set_result i v c) = field c.
Proof. apply field_update_session. Qed.

Lemma field_emit ev c : field (emit ev c) = field c.
Proof. apply field_events. Qed.

Lemma field_crash e c : field (crash e c) = field c.
Proof. apply field_uncaught. Qed.

Lemma field_session_emit_error i e c :
  field (session_emit_error i e c) = field c.
Proof.
  unfold session_emit_error. destruct (tasks c !! i) as [t|]; [|done].
  destruct (t_pc t); by rewrite ?field_update_task, ?field_crash.
Qed.

Lemma field_session_emit_cfm i payload c :
  field (session_emit_cfm i payload c) = field c.
Proof.
  unfold session_emit_cfm. destruct (tasks c !! i) as [t|]; [|done].
  destruct (t_pc t); by rewrite ?field_update_task, ?field_update_session.
Qed.

Lemma field_session_emit_done i c :
  field (Client.session_emit_done i c) = field c.
Proof.
  unfold Client.session_emit_done. destruct (tasks c !! i) as [t|]; [|done].
  destruct (t_pc t); by rewrite ?field_update_task, ?field_update_session.
Qed.

Lemma field_apply_view session sv c :
  field (apply_view session sv c) = field c.
Proof.
  unfold apply_view. destruct session, sv; try done.
  case_match; by rewrite ?field_session_emit_done, ?field_set_result.
Qed.

Lemma field_decode_step command data session c :
  field (decode_step command data session c).2 = field c.
Proof.
  unfold decode_step. destruct (decode command) as [dec|]; [|done].
  destruct (dec data (session ≫= view c)) as [[payload|e] sv]; cbn.
  - apply field_apply_view.
  - destruct session; unfold emitError;
      rewrite ?field_session_emit_error, ?field_emit; apply field_apply_view.
Qed.

Lemma field_session_step payload session c :
  field (session_step payload session c).2 = field c.
Proof.
  unfold session_step.
  repeat case_match; cbn; try done;
    first [apply field_set_result | apply field_crash].
Qed.

Lemma field_andThen c (k : client -> client) :
  (forall c', field (k c') = field c') -> field (andThen c k) = field c.
Proof. intros Hk. unfold andThen. by destruct (uncaught c). Qed.

Lemma field_dispatch buf c : field (dispatch commands buf c) = field c.
Proof.
  unfold dispatch.
  destruct (Buffer.readUInt16BE buf 2) as [cmd|e]; [|apply field_crash].
  destruct (commandNameById commands cmd) as [cmdName|];
    [|unfold emitError; by rewrite field_crash, field_emit].
  set (c0 := if _ : bool then _ else c).
  assert (field c0 = field c) as <-
    by (unfold c0, emitError; case_match; by rewrite ?field_emit).
  clearbody c0.
  destruct (command_by_name commands cmdName) as [command|];
    [|apply field_crash].
  pose proof (field_decode_step command (frame_data buf)
                (sessions c0 !! from_option pretty "undefined" (req command))
                c0) as H1.
  destruct (decode_step _ _ _ _) as [payload c1]. cbn in H1. rewrite <- H1.
  apply field_andThen. intros c2.
  pose proof (field_session_step payload
                (sessions c0 !! from_option pretty "undefined" (req command))
                c2) as H2.
  destruct (session_step _ _ _) as [[session payload'] c3]. cbn in H2.
  rewrite <- H2. apply field_andThen. intros c4.
  set (c5 := emit _ c4).
  assert (field c5 = field c4) as <- by apply field_emit. clearbody c5.
  set (c6 := if _ : bool then _ else c5).
  assert (field c6 = field c5) as <-.
  { unfold c6. case_match; [|done].
    destruct session; cbn; [apply field_session_emit_cfm|done]. }
  clearbody c6.
  destruct (command_by_name commands "GW_SESSION_FINISHED_NTF");
    [|apply field_crash].
  case_match; [|done].
  destruct session; cbn; [apply field_session_emit_done|done].
Qed.

Lemma field_receive buf c : field (receive commands buf c) = field c.
Proof.
  unfold receive, emitError.
  case_match; [case_match; by rewrite ?field_crash, !field_emit|].
  rewrite field_dispatch. case_match; by rewrite ?field_emit.
Qed.

Lemma field_on_data pool data c :
  field (on_data commands pool data c) = field c.
Proof.
  unfold on_data. destruct (Slip.decode pool data); [|apply field_crash].
  apply field_receive.
Qed.

Lemma field_cfm_timeout i c : field (cfm_timeout i c) = field c.
Proof.
  unfold cfm_timeout. repeat case_match; try done.
  by rewrite field_session_emit_error, field_update_session.
Qed.

Lemma field_done_timeout i c : field (done_timeout i c) = field c.
Proof.
  unfold done_timeout. repeat case_match; try done.
  by rewrite field_session_emit_error, field_update_session.
Qed.

End Projection.

(** ** The keys of the session table *)

Section KeyFacts.

Lemma pretty_N_go_head (c : ascii) (x : N) :
  (forall d, pretty_N_char d <> c) ->
  forall s s', s <> String c s' -> pretty_N_go x s <> String c s'.
Proof.
  intros Hc. induction (N.lt_wf_0 x) as [x _ IH]; intros s s' Hs.
  assert (x = 0 \/ 0 < x)%N as [->|Hx] by lia.
  - by rewrite pretty_N_go_0.
  - rewrite pretty_N_go_step by done. apply IH.
    { by apply N.div_lt. }
    intros [= E _]. by eapply Hc.
Qed.

(** The decimal numeral of an integer starts with a digit or a minus
    sign. *)
Lemma pretty_Z_head (c : ascii) (z : Z) (s : string) :
  (forall d, pretty_N_char d <> c) -> c <> "-"%char -> c <> "0"%char ->
  pretty z <> String c s.
Proof.
  intros Hc Hdash Hzero. destruct z as [|p|p]; cbn.
  - intros [= E]. by apply Hzero.
  - unfold pretty, pretty_positive, pretty, pretty_N.
    rewrite decide_False by done. by apply pretty_N_go_head.
  - intros [= E]. by apply Hdash.
Qed.

Lemma not_a_digit_s : forall d, pretty_N_char d <> "s"%char.
Proof. intros d. unfold pretty_N_char. by repeat case_match. Qed.

Lemma not_a_digit_u : forall d, pretty_N_char d <> "u"%char.
Proof. intros d. unfold pretty_N_char. by repeat case_match. Qed.

(** The key under which a confirmation or notification looks up its
    session by the id of its request is never the key of a session id. *)
Lemma command_key_not_session_key (r : option Z) (s : string) :
  from_option pretty "undefined" r <> "s" +:+ s.
Proof.
  destruct r as [z|]; cbn; [|done].
  apply pretty_Z_head; [apply not_a_digit_s|done|done].
Qed.

(** No request is registered under the key ["undefined"]. *)
Lemma key_of_not_undefined (r : VeluxRequest) : key_of r <> "undefined".
Proof.
  unfold key_of. case_match; [done|].
  apply pretty_Z_head; [apply not_a_digit_u|done|done].
Qed.

End KeyFacts.

(** ** The owner of a session *)

Section OwnerFacts.

Variable commands : list (string * command).

Local Abbreviation shapes := (list (string * VeluxRequest * phase)).

Lemma owned_move ss b (ts : shapes) i k r ph ph' ss' b' :
  Owned (ss, b, ts) -> ts !! i = Some (k, r, ph) ->
  move k i ss b ph ph' ss' b' ->
  Owned (ss', b', <[i := (k, r, ph')]> ts).
Proof.
  intros HO Hi Hmove k1 j Hj.
  assert (ss !! k1 = Some j \/ (k1 = k /\ j = i)) as [Hold|[-> ->]].
  { inversion Hmove; subst; try (by left).
    - destruct (decide (k1 = k)) as [->|Hne].
      + rewrite lookup_insert_eq in Hj. right. by simplify_eq.
      + rewrite lookup_insert_ne in Hj by done. by left.
    - destruct (decide (k1 = k)) as [->|Hne].
      + rewrite lookup_insert_eq in Hj. right. by simplify_eq.
      + rewrite lookup_insert_ne in Hj by done. by left.
    - left. by apply lookup_delete_Some in Hj as [_ ?].
    - left. by apply lookup_delete_Some in Hj as [_ ?]. }
  - destruct (HO _ _ Hold) as (r1 & ph1 & Hts).
    destruct (decide (j = i)) as [->|Hne].
    + rewrite Hi in Hts. simplify_eq. exists r1, ph'.
      apply list_lookup_insert_eq. by eapply lookup_lt_Some.
    + exists r1, ph1. by rewrite list_lookup_insert_ne.
  - exists r, ph'. apply list_lookup_insert_eq. by eapply lookup_lt_Some.
Qed.

Lemma owned_snoc ss b (ts : shapes) x : Owned (ss, b, ts) -> Owned (ss, b, ts ++ [x]).
Proof.
  intros HO k j Hj. destruct (HO _ _ Hj) as (r & ph & Hts).
  exists r, ph. by apply lookup_app_l_Some.
Qed.

Lemma owned_resume i c :
  Owned (shape c) -> Owned (shape (resume commands i c)).
Proof.
  intros HO.
  destruct (resume_shape commands i c)
    as [->|(k & r & ph & ph' & Hi & Hm & Hts)]; [done|].
  unfold shape. rewrite Hts. by eapply owned_move.
Qed.

Lemma owned_call command params userInput c :
  Owned (shape c) -> Owned (shape (call commands command params userInput c)).
Proof.
  intros HO. unfold call.
  destruct (commandNameById commands (id command)) as [cmdName|]; [|done].
  case_match; [done|].
  set (pc0 := if session command then _ else _).
  assert (shape pc0.2 = shape c) as Hpc0 by (unfold pc0; by case_match).
  destruct pc0 as [params0 c0]. cbn in Hpc0.
  destruct (match encode command with
            | Some enc => _
            | None => _
            end) as [[data params1]|e]; [|by rewrite <- Hpc0 in HO].
  case_match; [by rewrite <- Hpc0 in HO|].
  apply owned_resume. unfold shape.
  cbn [sessions busy tasks set_tasks set_requestId].
  rewrite map_app. cbn [map].
  match goal with |- Owned (?ss, ?b, ?ts ++ [?x]) => apply (owned_snoc ss b ts x) end.
  by rewrite <- Hpc0 in HO.
Qed.

Lemma owned_exec a c : Owned (shape c) -> Owned (shape (exec commands a c)).
Proof.
  intros HO. unfold exec, andThen. destruct (uncaught c); [done|].
  destruct a.
  - by apply owned_call.
  - by apply owned_resume.
  - by rewrite shape_receive.
  - by rewrite shape_on_data.
  - by rewrite shape_cfm_timeout.
  - by rewrite shape_done_timeout.
Qed.

Lemma owned_reachable c : reachable commands c -> Owned (shape c).
Proof.
  induction 1 as [|a c _ IH].
  - intros k j Hj. cbn in Hj. by rewrite lookup_empty in Hj.
  - by apply owned_exec.
Qed.

(** In a state the client can reach, the entry of a key names a call with
    that key, which is the key of its request. *)
Lemma session_owner c k j :
  reachable commands c -> sessions c !! k = Some j ->
  exists t, tasks c !! j = Some t /\ t_key t = k /\ k = key_of (t_request t).
Proof.
  intros Hc Hk.
  destruct (owned_reachable c Hc k j Hk) as (r & ph & Hts).
  destruct (inv_reachable commands c Hc) as (_ & _ & _ & HD).
  pose proof (HD _ _ _ _ Hts) as Hkey.
  rewrite list_lookup_fmap in Hts.
  destruct (tasks c !! j) as [t|]; [|done].
  exists t. cbn in Hts. unfold task_shape in Hts. by simplify_eq.
Qed.

Lemma no_session_undefined c :
  reachable commands c -> sessions c !! "undefined" = None.
Proof.
  intros Hc. destruct (sessions c !! "undefined") as [j|] eqn:E; [|done].
  destruct (session_owner c _ _ Hc E) as (t & _ & _ & Hkey).
  symmetry in Hkey. by apply key_of_not_undefined in Hkey.
Qed.

End OwnerFacts.

(** ** [GW_ERROR_NTF] *)

Lemma error_ntf_always_throws (data : list Z) :
  exists e, GW_ERROR_NTF_decode data = Throw e.
Proof.
  unfold GW_ERROR_NTF_decode.
  destruct (checkData data 1) as [[]|e]; cbn; [|by eexists].
  destruct (Buffer.readUInt8 data 0) as [error|e]; cbn; by eexists.
Qed.

(** A [GW_ERROR_NTF] has no request id to look its session up with: in
    every state the client can reach it finds none.  Its decoder always
    throws, so the error is emitted on ['error'] without a request, the
    notification follows with no payload, and no call is failed or
    otherwise touched: the request that caused the error goes on waiting
    for its confirmation. *)
Theorem error_notification_fails_no_request
    (commands : list (string * command)) (c : client) (buf : list Z)
    (finished : command) :
  registered commands "GW_ERROR_NTF" GW_ERROR_NTF ->
  command_by_name commands "GW_SESSION_FINISHED_NTF" = Some finished ->
  id finished <> 0 ->
  reachable commands c -> uncaught c = None ->
  buf !! 0%nat = Some 0 -> Buffer.readUInt16BE buf 2 = Ok 0 ->
  let c' := receive commands buf c in
  tasks c' = tasks c /\ sessions c' = sessions c /\ busy c' = busy c
  /\ uncaught c' = None
  /\ exists e before,
      GW_ERROR_NTF_decode (frame_data buf) = Throw e
      /\ events c'
         = before ++ [ EvError (Message (message_of e)) None;
                       EvNotification 0 "GW_ERROR_NTF" (frame_data buf)
                         VUndefined None ].
Proof.
  intros [Hname Hcmd] Hfin Hid Hc Hun H0 Hread c'.
  pose proof (no_session_undefined commands c Hc) as Hnone.
  destruct (error_ntf_always_throws (frame_data buf)) as [e He].
  assert (exists before,
             c' = emit (EvNotification 0 "GW_ERROR_NTF" (frame_data buf)
                          VUndefined None)
                    (emitError (Message (message_of e)) None
                       (set_events before c))) as [before ->].
  { unfold c', receive. change protocolId with 0.
    rewrite (bool_decide_eq_true_2 _ H0). cbn [negb].
    set (c0 := if _ : bool then _ else _).
    assert (exists before, c0 = set_events before c) as [before ->].
    { unfold c0. case_match; by eexists. }
    exists before. unfold dispatch. rewrite Hread.
    cbn [id GW_ERROR_NTF] in Hname. rewrite Hname.
    change (Js.endsWith "GW_ERROR_NTF" "_CFM") with false.
    change (Js.endsWith "GW_ERROR_NTF" "_NTF") with true.
    cbn [negb andb]. rewrite Hcmd.
    cbn [req GW_ERROR_NTF from_option sessions set_events].
    rewrite Hnone. unfold decode_step.
    cbn [decode GW_ERROR_NTF pure_decoder mbind option_bind].
    rewrite He. cbn [apply_view].
    unfold andThen at 1. cbn [uncaught emitError emit set_events].
    rewrite Hun. unfold session_step.
    cbn [Js.get Js.not_null].
    unfold andThen. cbn [uncaught emitError emit set_events].
    rewrite Hun. cbn [mbind option_bind from_option].
    rewrite Hfin.
    rewrite (proj2 (Z.eqb_neq 0 (id finished))) by lia.
    reflexivity. }
  cbn. repeat split; try done.
  exists e, before. split; [done|]. by rewrite <- app_assoc.
Qed.

Lemma error_notification_fails_no_request_witness :
  let c := call registry GW_GET_VERSION_REQ [] false init in
  let buf := gateway_frame 0 [12] in
  let c' := receive registry buf c in
  tasks c' = tasks c /\ sessions c' = sessions c /\ busy c' = busy c
  /\ uncaught c' = None
  /\ exists e before,
      GW_ERROR_NTF_decode (frame_data buf) = Throw e
      /\ events c'
         = before ++ [ EvError (Message (message_of e)) None;
                       EvNotification 0 "GW_ERROR_NTF" (frame_data buf)
                         VUndefined None ].
Proof.
  apply (error_notification_fails_no_request registry
           (call registry GW_GET_VERSION_REQ [] false init)
           (gateway_frame 0 [12]) GW_SESSION_FINISHED_NTF).
  - split; reflexivity.
  - reflexivity.
  - discriminate.
  - apply (reachable_exec registry (Call GW_GET_VERSION_REQ [] false) init).
    constructor.
  - reflexivity.
  - reflexivity.
  - reflexivity.
Defined.

(** The request of the witness is still waiting after the notification
    "not authenticated". *)
Example error_notification_example :
  let c := run registry
             [ Call GW_GET_VERSION_REQ [] false;
               Receive (gateway_frame 0 [12]) ] init in
  map t_pc (tasks c) = [AwaitCfm]
  /\ last (events c)
     = Some (EvNotification 0 "GW_ERROR_NTF" [12] VUndefined None)
  /\ In (EvError (Message "not authenticated") None) (events c).
Proof. vm_compute. repeat split. do 3 right. by left. Qed.

(** ** Confirmations without a decoder *)

Section RoutingFacts.

Variable commands : list (string * command).

Lemma tasks_update_task_ne i j f c :
  i <> j -> tasks (update_task j f c) !! i = tasks c !! i.
Proof. intros Hne. unfold update_task. cbn. by apply list_lookup_alter_ne. Qed.

Lemma tasks_session_emit_cfm_ne i j payload c :
  i <> j -> tasks (session_emit_cfm j payload c) !! i = tasks c !! i.
Proof.
  intros Hne. unfold session_emit_cfm.
  destruct (tasks c !! j) as [t|]; [|done].
  destruct (t_pc t); unfold update_session;
    by rewrite ?tasks_update_task_ne by done.
Qed.

Lemma tasks_session_emit_done_ne i j c :
  i <> j -> tasks (Client.session_emit_done j c) !! i = tasks c !! i.
Proof.
  intros Hne. unfold Client.session_emit_done.
  destruct (tasks c !! j) as [t|]; [|done].
  destruct (t_pc t); unfold update_session;
    by rewrite ?tasks_update_task_ne by done.
Qed.

(** A frame whose command has no decoder reaches at most the call that
    is registered under the request id of the command. *)
Lemma dispatch_without_decoder buf c cmd cmdName cfm i :
  Buffer.readUInt16BE buf 2 = Ok cmd ->
  commandNameById commands cmd = Some cmdName ->
  command_by_name commands cmdName = Some cfm ->
  decode cfm = None ->
  sessions c !! from_option pretty "undefined" (req cfm) <> Some i ->
  tasks (dispatch commands buf c) !! i = tasks c !! i.
Proof.
  intros Hread Hname Hcmd Hdec Hi. unfold dispatch.
  rewrite Hread, Hname.
  set (c1 := if _ : bool then _ else c).
  assert (tasks c1 = tasks c /\ sessions c1 = sessions c) as [Ht Hs]
    by (unfold c1; by case_match).
  rewrite <- Ht, <- Hs in *. clearbody c1. clear Ht Hs.
  rewrite Hcmd. unfold decode_step. rewrite Hdec.
  unfold andThen. destruct (uncaught c1) eqn:Hun; [done|].
  unfold session_step. cbn [Js.get Js.not_null]. rewrite Hun.
  set (session := sessions c1 !! from_option pretty "undefined" (req cfm)) in *.
  set (c2 := emit _ c1).
  assert (tasks c2 = tasks c1) as <- by done. clearbody c2.
  set (c3 := if Js.endsWith cmdName "_CFM" then _ else c2).
  assert (tasks c3 !! i = tasks c2 !! i) as <-.
  { unfold c3. case_match; [|done].
    destruct session as [j|]; cbn; [|done].
    apply tasks_session_emit_cfm_ne. congruence. }
  clearbody c3.
  destruct (command_by_name commands "GW_SESSION_FINISHED_NTF"); [|done].
  case_match; [|done].
  destruct session as [j|]; cbn; [|done].
  apply tasks_session_emit_done_ne. congruence.
Qed.

End RoutingFacts.

(** A confirmation whose command has no decoder is matched with a request
    by the request id of the command alone.  A request that carries a
    session id is registered under that session id, not under its command
    id, so such a confirmation never reaches it: the call stays where it
    is.  This is the case of [GW_ACTIVATE_SCENE_REQ] and its confirmation
    [GW_ACTIVATE_SCENE_CFM]. *)
Theorem confirmation_without_decoder_misses_session_request
    (commands : list (string * command)) (c : client) (i : nat) (t : task)
    (buf : list Z) (cmd : Z) (cmdName : string) (cfm : command) :
  reachable commands c -> tasks c !! i = Some t ->
  Js.not_null (Js.get (r_params (t_request t)) "sessionId") = true ->
  Buffer.readUInt16BE buf 2 = Ok cmd ->
  commandNameById commands cmd = Some cmdName ->
  command_by_name commands cmdName = Some cfm ->
  decode cfm = None ->
  tasks (receive commands buf c) !! i = Some t.
Proof.
  intros Hc Ht Hsid Hread Hname Hcmd Hdec.
  assert (sessions c !! from_option pretty "undefined" (req cfm) <> Some i)
    as Hother.
  { intros Hs.
    destruct (session_owner commands c _ _ Hc Hs) as (t' & Ht' & _ & Hkey).
    rewrite Ht in Ht'. injection Ht' as <-.
    unfold key_of in Hkey. rewrite Hsid in Hkey.
    by apply command_key_not_session_key in Hkey. }
  rewrite <- Ht. unfold receive. case_match; [by case_match|].
  set (c0 := if _ : bool then _ else _).
  assert (tasks c0 = tasks c /\ sessions c0 = sessions c) as [Ht0 Hs0]
    by (unfold c0; by case_match).
  rewrite <- Ht0. rewrite <- Hs0 in Hother.
  by eapply dispatch_without_decoder.
Qed.

Lemma confirmation_without_decoder_misses_session_request_witness :
  let c := call registry GW_ACTIVATE_SCENE_REQ [] false init in
  let t := {| t_command := GW_ACTIVATE_SCENE_REQ;
              t_request := {| r_id := 1; r_cmd := 0x0412;
                              r_cmdName := "GW_ACTIVATE_SCENE_REQ";
                              r_params := VObj [("sessionId", VNum 1)];
                              r_data := None |};
              t_key := "s1"; t_pc := AwaitCfm;
              t_session := Some new_session |} in
  tasks (receive registry (gateway_frame 0x0413 [1; 0; 1]) c) !! 0%nat
  = Some t.
Proof.
  apply (confirmation_without_decoder_misses_session_request registry
           (call registry GW_ACTIVATE_SCENE_REQ [] false init) 0
           {| t_command := GW_ACTIVATE_SCENE_REQ;
              t_request := {| r_id := 1; r_cmd := 0x0412;
                              r_cmdName := "GW_ACTIVATE_SCENE_REQ";
                              r_params := VObj [("sessionId", VNum 1)];
                              r_data := None |};
              t_key := "s1"; t_pc := AwaitCfm;
              t_session := Some new_session |}
           (gateway_frame 0x0413 [1; 0; 1]) 0x0413
           "GW_ACTIVATE_SCENE_CFM" GW_ACTIVATE_SCENE_CFM).
  - apply (reachable_exec registry (Call GW_ACTIVATE_SCENE_REQ [] false) init).
    constructor.
  - reflexivity.
  - reflexivity.
  - reflexivity.
  - reflexivity.
  - reflexivity.
  - reflexivity.
Defined.

(** The call of the witness ends by its confirmation timer. *)
Example activate_scene_times_out :
  let c := run registry
             [ Call GW_ACTIVATE_SCENE_REQ [] false;
               Receive (gateway_frame 0x0413 [1; 0; 1]);
               Resume 0; CfmTimeout 0; Resume 0 ] init in
  map t_pc (tasks c) = [Returned VUndefined]
  /\ last (events c)
     = Some (EvError (Message "CFM timeout")
               (Some {| r_id := 1; r_cmd := 0x0412;
                        r_cmdName := "GW_ACTIVATE_SCENE_REQ";
                        r_params := VObj [("sessionId", VNum 1)];
                        r_data := None |})).
Proof. vm_compute. done. Qed.

(** ** Sessions that are never removed *)

Section StaleFacts.

Variable commands : list (string * command).

Local Abbreviation shapes := (list (string * VeluxRequest * phase)).

(** The key [k] is held by call [i], which has ended, and the calls from
    [n0] on with that key wait for it. *)
Variables (k : string) (i n0 : nat).

Local Abbreviation Stale s :=
  (let '(ss, _, ts) := (s : gmap string nat * bool * shapes) in
   ss !! k = Some i
   /\ (exists ki ri, ts !! i = Some (ki, ri, PhEnd))
   /\ (forall j r ph, (n0 <= j)%nat -> ts !! j = Some (k, r, ph) -> ph = PhSlot)
   /\ (n0 <= length ts)%nat).

Lemma stale_move ss b (ts : shapes) j' k' r' ph ph' ss' b' :
  Inv (ss, b, ts) -> Stale (ss, b, ts) ->
  ts !! j' = Some (k', r', ph) ->
  move k' j' ss b ph ph' ss' b' ->
  Stale (ss', b', <[j' := (k', r', ph')]> ts).
Proof.
  intros (HA & _) (Hk & (ki & ri & Hi) & Hnew & Hn0) Hj' Hmove.
  assert (j' <> i) as Hne.
  { intros ->. rewrite Hi in Hj'. inversion Hmove; subst; congruence. }
  assert (live ph -> k' <> k) as Hlive.
  { intros Hl ->. pose proof (HA _ _ _ _ Hj' Hl). congruence. }
  split; [|split; [|split]].
  - inversion Hmove; subst; try done.
    + rewrite lookup_insert_ne; [done|]. congruence.
    + rewrite lookup_insert_ne; [done|]. congruence.
    + rewrite lookup_delete_ne; [done|]. apply Hlive. unfold live. auto.
    + rewrite lookup_delete_ne; [done|]. apply Hlive. unfold live. auto.
  - exists ki, ri. by rewrite list_lookup_insert_ne.
  - intros j r ph1 Hj Hts.
    destruct (decide (j = j')) as [->|Hjj'].
    + rewrite list_lookup_insert_eq in Hts by (by eapply lookup_lt_Some).
      injection Hts as -> -> ->.
      pose proof (Hnew _ _ _ Hj Hj') as ->.
      inversion Hmove; subst; congruence.
    + rewrite list_lookup_insert_ne in Hts by done. by eapply Hnew.
  - by rewrite length_insert.
Qed.

Lemma stale_snoc ss b (ts : shapes) (x : string * VeluxRequest * phase) :
  x.2 = PhSlot -> Stale (ss, b, ts) -> Stale (ss, b, ts ++ [x]).
Proof.
  intros Hx (Hk & (ki & ri & Hi) & Hnew & Hn0).
  split; [done|]. split; [|split].
  - exists ki, ri. by apply lookup_app_l_Some.
  - intros j r ph Hj Hts. apply lookup_app_Some in Hts as [?|[_ Hts]].
    + by eapply Hnew.
    + destruct (j - length ts)%nat; cbn in Hts; [by simplify_eq|done].
  - rewrite length_app. lia.
Qed.

Lemma stale_resume j c :
  Inv (shape c) -> Stale (shape c) -> Stale (shape (resume commands j c)).
Proof.
  intros HI HS.
  destruct (resume_shape commands j c)
    as [->|(k' & r' & ph & ph' & Hj & Hm & Hts)]; [done|].
  unfold shape. rewrite Hts. by eapply stale_move.
Qed.

Lemma stale_call command params userInput c :
  Inv (shape c) -> Stale (shape c) ->
  Stale (shape (call commands command params userInput c)).
Proof.
  intros HI HS. unfold call.
  destruct (commandNameById commands (id command)) as [cmdName|]; [|done].
  destruct (negb (Js.endsWith cmdName "_REQ")); [done|].
  set (pc0 := if session command then _ else _).
  assert (shape pc0.2 = shape c) as Hpc0
    by (unfold pc0; by destruct (session command)).
  destruct pc0 as [params0 c0]. cbn [snd] in Hpc0.
  destruct (match encode command with
            | Some enc => _
            | None => _
            end) as [[data params1]|e]; [|by rewrite <- Hpc0 in HS].
  destruct (bool_decide _); [by rewrite <- Hpc0 in HS|].
  rewrite <- Hpc0 in HS, HI.
  apply stale_resume.
  - unfold shape. cbn [sessions busy tasks set_tasks set_requestId].
    rewrite map_app. cbn [map]. by apply inv_snoc.
  - unfold shape. cbn [sessions busy tasks set_tasks set_requestId].
    rewrite map_app. cbn [map].
    match goal with
    | |- context [?ts ++ [?x]] =>
      apply (stale_snoc (sessions c0) (busy c0) ts x)
    end; [done|exact HS].
Qed.

Lemma stale_exec a c :
  Inv (shape c) -> Stale (shape c) -> Stale (shape (exec commands a c)).
Proof.
  intros HI HS. unfold exec, andThen. destruct (uncaught c); [done|].
  destruct a.
  - by apply stale_call.
  - by apply stale_resume.
  - by rewrite shape_receive.
  - by rewrite shape_on_data.
  - by rewrite shape_cfm_timeout.
  - by rewrite shape_done_timeout.
Qed.

Lemma stale_run (l : list action) :
  forall c, reachable commands c -> Stale (shape c) ->
            Stale (shape (run commands l c)).
Proof.
  induction l as [|a l IH]; intros c Hc HS; [done|].
  change (run commands (a :: l) c) with (run commands l (exec commands a c)).
  apply (IH (exec commands a c)); [exact (reachable_exec commands a c Hc)|].
  apply stale_exec; [by apply (inv_reachable commands)|done].
Qed.

End StaleFacts.

(** An entry of the session table that is left behind by a call that has
    ended is never removed, and every call made afterwards with the same
    key waits for the slot for ever, whatever happens next: its frame is
    never written.  (A call leaves its entry behind when it fails while it
    awaits the end of a stream.) *)
Theorem stale_session_blocks_later_requests
    (commands : list (string * command)) (c : client) (i : nat) (t : task)
    (k : string) (l : list action) :
  reachable commands c -> tasks c !! i = Some t -> completed t = true ->
  sessions c !! k = Some i ->
  let c' := run commands l c in
  sessions c' !! k = Some i
  /\ forall j tj,
      (length (tasks c) <= j)%nat -> tasks c' !! j = Some tj ->
      t_key tj = k -> t_pc tj = WaitSlot.
Proof.
  intros Hc Ht Hdone Hk c'.
  pose proof (stale_run commands k i (length (tasks c)) l c Hc) as H.
  unfold shape in H. fold c' in H.
  destruct H as (Hk' & _ & Hnew & _).
  { split; [done|]. split; [|split].
    - exists (t_key t), (t_request t). rewrite list_lookup_fmap, Ht. cbn.
      unfold task_shape. do 2 f_equal.
      unfold completed in Hdone. by destruct (t_pc t).
    - intros j r ph Hj Hts. apply lookup_lt_Some in Hts.
      rewrite length_map in Hts. lia.
    - by rewrite length_map. }
  split; [done|]. intros j tj Hj Htj Hkey.
  specialize (Hnew j (t_request tj) (phase_of (t_pc tj)) Hj).
  rewrite list_lookup_fmap, Htj in Hnew. cbn in Hnew. unfold task_shape in Hnew.
  rewrite Hkey in Hnew. specialize (Hnew eq_refl).
  by destruct (t_pc tj).
Qed.

Lemma stale_session_blocks_later_requests_witness :
  let c := run registry
             [ Call GW_CS_GET_SYSTEMTABLE_DATA_REQ [] false;
               Receive (gateway_frame 0x0101 []);
               Resume 0; DoneTimeout 0; Resume 0 ] init in
  let t := {| t_command := GW_CS_GET_SYSTEMTABLE_DATA_REQ;
              t_request := {| r_id := 1; r_cmd := 0x0100;
                              r_cmdName := "GW_CS_GET_SYSTEMTABLE_DATA_REQ";
                              r_params := VObj []; r_data := None |};
              t_key := "256"; t_pc := Returned VUndefined;
              t_session := Some {| s_result := VArr [];
                                   s_cfm_listener := false;
                                   s_cfm_timer := false;
                                   s_done_timer := false |} |} in
  let l := [ Call GW_CS_GET_SYSTEMTABLE_DATA_REQ [] false; Resume 1 ] in
  let c' := run registry l c in
  sessions c' !! "256" = Some 0%nat
  /\ forall j tj,
      (length (tasks c) <= j)%nat -> tasks c' !! j = Some tj ->
      t_key tj = "256" -> t_pc tj = WaitSlot.
Proof.
  apply (stale_session_blocks_later_requests registry
           (run registry
              [ Call GW_CS_GET_SYSTEMTABLE_DATA_REQ [] false;
                Receive (gateway_frame 0x0101 []);
                Resume 0; DoneTimeout 0; Resume 0 ] init) 0
           {| t_command := GW_CS_GET_SYSTEMTABLE_DATA_REQ;
              t_request := {| r_id := 1; r_cmd := 0x0100;
                              r_cmdName := "GW_CS_GET_SYSTEMTABLE_DATA_REQ";
                              r_params := VObj []; r_data := None |};
              t_key := "256"; t_pc := Returned VUndefined;
              t_session := Some {| s_result := VArr [];
                                   s_cfm_listener := false;
                                   s_cfm_timer := false;
                                   s_done_timer := false |} |}
           "256"
           [ Call GW_CS_GET_SYSTEMTABLE_DATA_REQ [] false; Resume 1 ]).
  - apply reachable_run. constructor.
  - reflexivity.
  - reflexivity.
  - reflexivity.
Defined.

(** ** Request ids, malformed frames and timers *)

Section CounterFacts.

Variable commands : list (string * command).

Lemma requestId_resume i c : requestId (resume commands i c) = requestId c.
Proof.
  unfold resume, do_write, fail, finish.
  repeat case_match; reflexivity.
Qed.

Lemma requests_resume i c :
  map t_request (tasks (resume commands i c)) = map t_request (tasks c).
Proof.
  assert (forall l : list task,
             map t_request l = map (fun x => x.1.2) (map task_shape l)) as E.
  { intros l. rewrite map_map. done. }
  rewrite !E.
  destruct (resume_shape commands i c) as [Heq|(k & r & ph & ph' & Hi & _ & Hts)].
  - f_equal. by injection Heq.
  - rewrite Hts. change (map ?f ?l) with (f <$> l).
    rewrite list_fmap_insert. apply list_insert_id.
    by rewrite list_lookup_fmap, Hi.
Qed.

Lemma requests_of_shape c c' :
  shape c' = shape c -> map t_request (tasks c') = map t_request (tasks c).
Proof.
  intros Heq.
  assert (forall l : list task,
             map t_request l = map (fun x => x.1.2) (map task_shape l)) as E.
  { intros l. rewrite map_map. done. }
  rewrite !E. f_equal. by injection Heq.
Qed.

(** The ids of the requests: the [n]-th call that gets as far as its
    request record has the id [n]. *)
Lemma request_ids_exec a c :
  requestId c = Z.of_nat (length (tasks c)) ->
  map (r_id ∘ t_request) (tasks c)
  = map (fun n : nat => Z.of_nat n + 1) (seq 0 (length (tasks c))) ->
  let c' := exec commands a c in
  requestId c' = Z.of_nat (length (tasks c'))
  /\ map (r_id ∘ t_request) (tasks c')
     = map (fun n : nat => Z.of_nat n + 1) (seq 0 (length (tasks c'))).
Proof.
  intros Hid Hids c'.
  assert (forall c1, requestId c1 = requestId c ->
                     map t_request (tasks c1) = map t_request (tasks c) ->
                     requestId c1 = Z.of_nat (length (tasks c1))
                     /\ map (r_id ∘ t_request) (tasks c1)
                        = map (fun n : nat => Z.of_nat n + 1)
                              (seq 0 (length (tasks c1)))) as Hsame.
  { intros c1 H1 H2.
    assert (length (tasks c1) = length (tasks c)) as Hl
      by (by rewrite <- (length_map t_request), H2, length_map).
    rewrite Hl, H1. split; [done|].
    rewrite <- Hids. by rewrite <- !(map_map t_request r_id), H2. }
  unfold c', exec, andThen. destruct (uncaught c); [by apply Hsame|].
  destruct a as [command params userInput|i|buf|pool data|i|i].
  - unfold call.
    destruct (commandNameById commands (id command)) as [cmdName|];
      [|by apply Hsame].
    case_match; [by apply Hsame|].
    set (pc0 := if session command then _ else _).
    assert (requestId pc0.2 = requestId c /\ tasks pc0.2 = tasks c) as [Hr0 Ht0]
      by (unfold pc0; by case_match).
    destruct pc0 as [params0 c0]. cbn [snd] in Hr0, Ht0.
    destruct (match encode command with
              | Some enc => _
              | None => _
              end) as [[data params1]|e];
      [|apply Hsame; cbn [requestId tasks set_rejected]; by rewrite ?Hr0, ?Ht0].
    case_match;
      [apply Hsame; cbn [requestId tasks set_rejected]; by rewrite ?Hr0, ?Ht0|].
    rewrite requestId_resume.
    rewrite <- (length_map t_request (tasks (resume _ _ _))).
    rewrite <- (map_map t_request r_id), requests_resume.
    cbn [tasks set_tasks set_requestId requestId].
    rewrite map_map, length_map, Ht0, Hr0, length_app. cbn [length].
    split; [lia|].
    change (map (fun x : task => r_id (t_request x)))
      with (map (r_id ∘ t_request)).
    rewrite map_app, Hids, Nat.add_1_r, seq_S, map_app.
    cbn [map compose r_id t_request]. rewrite Hid. do 2 f_equal.
  - apply Hsame; [apply requestId_resume|apply requests_resume].
  - apply Hsame; [by apply field_receive|].
    apply requests_of_shape, shape_receive.
  - apply Hsame; [by apply field_on_data|].
    apply requests_of_shape, shape_on_data.
  - apply Hsame; [by apply field_cfm_timeout|].
    apply requests_of_shape, shape_cfm_timeout.
  - apply Hsame; [by apply field_done_timeout|].
    apply requests_of_shape, shape_done_timeout.
Qed.

Lemma request_ids_reachable c :
  reachable commands c ->
  requestId c = Z.of_nat (length (tasks c))
  /\ map (r_id ∘ t_request) (tasks c)
     = map (fun n : nat => Z.of_nat n + 1) (seq 0 (length (tasks c))).
Proof.
  induction 1 as [|a c _ [IH1 IH2]]; [done|].
  by apply request_ids_exec.
Qed.

End CounterFacts.

(** Request ids count the calls that got a request record, from 1: in
    every state the client can reach, the counter is the number of these
    calls and the [n]-th of them has the id [n]; so no two requests share an
    id.  A call that is refused (unknown command, not a request, an encoder
    that throws, a payload of more than 250 bytes) uses no id. *)
Theorem request_ids_count_the_calls
    (commands : list (string * command)) (c : client) :
  reachable commands c ->
  requestId c = Z.of_nat (length (tasks c))
  /\ (forall i t, tasks c !! i = Some t ->
                  r_id (t_request t) = Z.of_nat i + 1)
  /\ (forall i j ti tj,
         tasks c !! i = Some ti -> tasks c !! j = Some tj ->
         r_id (t_request ti) = r_id (t_request tj) -> i = j).
Proof.
  intros Hc. destruct (request_ids_reachable commands c Hc) as [Hid Hids].
  assert (forall i t, tasks c !! i = Some t ->
                      r_id (t_request t) = Z.of_nat i + 1) as Hnth.
  { intros i t Ht.
    assert (map (r_id ∘ t_request) (tasks c) !! i
            = Some (r_id (t_request t))) as H
      by (by rewrite list_lookup_fmap, Ht).
    rewrite Hids, list_lookup_fmap in H.
    rewrite lookup_seq_lt in H by (by eapply lookup_lt_Some).
    cbn in H. by simplify_eq. }
  split; [done|]. split; [done|].
  intros i j ti tj Hi Hj Heq.
  rewrite (Hnth _ _ Hi), (Hnth _ _ Hj) in Heq. lia.
Qed.

Lemma request_ids_count_the_calls_witness :
  let c := run registry
             [ Call GW_GET_VERSION_REQ [] false;
               Call GW_ERROR_NTF [] false;
               Call GW_CS_GET_SYSTEMTABLE_DATA_REQ [] false ] init in
  requestId c = Z.of_nat (length (tasks c))
  /\ (forall i t, tasks c !! i = Some t ->
                  r_id (t_request t) = Z.of_nat i + 1)
  /\ (forall i j ti tj,
         tasks c !! i = Some ti -> tasks c !! j = Some tj ->
         r_id (t_request ti) = r_id (t_request tj) -> i = j).
Proof.
  apply (request_ids_count_the_calls registry
           (run registry
              [ Call GW_GET_VERSION_REQ [] false;
                Call GW_ERROR_NTF [] false;
                Call GW_CS_GET_SYSTEMTABLE_DATA_REQ [] false ] init)).
  apply reachable_run. constructor.
Defined.

(** A frame whose command id is not in the registry: the error is emitted,
    and then [cmdName.endsWith] is called on [undefined]; the [TypeError]
    leaves the ['data'] handler of the socket.  No call is touched. *)
Theorem unknown_command_id_throws
    (commands : list (string * command)) (buf : list Z) (cmd : Z)
    (c : client) :
  buf !! 0%nat = Some 0 -> Buffer.readUInt16BE buf 2 = Ok cmd ->
  commandNameById commands cmd = None ->
  let c' := receive commands buf c in
  (exists msg, uncaught c' = Some (TypeError msg))
  /\ last (events c') = Some (EvError (UnknownCommandId cmd) None)
  /\ tasks c' = tasks c /\ sessions c' = sessions c.
Proof.
  intros H0 Hread Hname c'. unfold c', receive. change protocolId with 0.
  rewrite (bool_decide_eq_true_2 _ H0). cbn [negb].
  unfold dispatch. rewrite Hread, Hname.
  case_match; cbn; rewrite last_snoc; (split; [by eexists|done]).
Qed.

Lemma unknown_command_id_throws_witness :
  let c := call registry GW_GET_VERSION_REQ [] false init in
  let buf := [0; 3; 0x03; 0x22; 0x22] in
  let c' := receive registry buf c in
  (exists msg, uncaught c' = Some (TypeError msg))
  /\ last (events c') = Some (EvError (UnknownCommandId 0x0322) None)
  /\ tasks c' = tasks c /\ sessions c' = sessions c.
Proof.
  apply (unknown_command_id_throws registry [0; 3; 0x03; 0x22; 0x22] 0x0322
           (call registry GW_GET_VERSION_REQ [] false init));
    reflexivity.
Defined.

(** A frame of fewer than four bytes that starts with the protocol id:
    [buf.readUInt16BE(2)] is out of range, and the [RangeError] leaves the
    ['data'] handler of the socket. *)
Theorem short_frame_throws
    (commands : list (string * command)) (buf : list Z) (c : client) :
  buf !! 0%nat = Some 0 -> (length buf < 4)%nat ->
  let c' := receive commands buf c in
  (exists msg, uncaught c' = Some (RangeError msg))
  /\ tasks c' = tasks c /\ sessions c' = sessions c.
Proof.
  intros H0 Hlen c'. unfold c', receive. change protocolId with 0.
  rewrite (bool_decide_eq_true_2 _ H0). cbn [negb].
  unfold dispatch, Buffer.readUInt16BE.
  rewrite (lookup_ge_None_2 buf 3) by lia.
  destruct (buf !! 2%nat); case_match; (split; [by eexists|done]).
Qed.

Lemma short_frame_throws_witness :
  let c := call registry GW_GET_VERSION_REQ [] false init in
  let c' := receive registry [0; 3; 3] c in
  (exists msg, uncaught c' = Some (RangeError msg))
  /\ tasks c' = tasks c /\ sessions c' = sessions c.
Proof.
  apply (short_frame_throws registry [0; 3; 3]
           (call registry GW_GET_VERSION_REQ [] false init)).
  - reflexivity.
  - simpl. lia.
Defined.

(** The frame of the witness, as it arrives from the socket. *)
Example short_frame_from_the_socket :
  uncaught (on_data registry (fun _ => 0) [0xC0; 0; 3; 3; 0xC0] init)
  = Some (RangeError "ERR_OUT_OF_RANGE").
Proof. reflexivity. Qed.

(** The confirmation timer of a session runs from the creation of the
    session, which is before the call waits for the send flag.  When it
    fires while the call still waits there, [once(session, 'cfm')] has not
    been called yet: the ['error'] event has no listener and the error is
    thrown out of the timer callback. *)
Theorem confirmation_timer_of_a_waiting_call_throws
    (commands : list (string * command)) (c : client) (i : nat) (t : task)
    (s : VeluxSession) :
  uncaught c = None -> tasks c !! i = Some t -> t_pc t = WaitBusy ->
  t_session t = Some s -> s_cfm_timer s = true ->
  uncaught (exec commands (CfmTimeout i) c) = Some (Error "CFM timeout").
Proof.
  intros Hun Ht Hpc Hs Htimer. unfold exec, andThen. rewrite Hun.
  unfold cfm_timeout. rewrite Ht. cbn [mbind option_bind]. rewrite Hs, Htimer.
  unfold session_emit_error, update_session, update_task.
  cbn [tasks set_tasks]. rewrite list_lookup_alter_eq, Ht. cbn.
  by rewrite Hpc.
Qed.

Lemma confirmation_timer_of_a_waiting_call_throws_witness :
  let c := run registry
             [ Call GW_GET_VERSION_REQ [] false;
               Call GW_CS_GET_SYSTEMTABLE_DATA_REQ [] false;
               CfmTimeout 0; Resume 0 ] init in
  uncaught (exec registry (CfmTimeout 1) c) = Some (Error "CFM timeout").
Proof.
  apply (confirmation_timer_of_a_waiting_call_throws registry
           (run registry
              [ Call GW_GET_VERSION_REQ [] false;
                Call GW_CS_GET_SYSTEMTABLE_DATA_REQ [] false;
                CfmTimeout 0; Resume 0 ] init) 1
           {| t_command := GW_CS_GET_SYSTEMTABLE_DATA_REQ;
              t_request := {| r_id := 2; r_cmd := 0x0100;
                              r_cmdName := "GW_CS_GET_SYSTEMTABLE_DATA_REQ";
                              r_params := VObj []; r_data := None |};
              t_key := "256"; t_pc := WaitBusy;
              t_session := Some new_session |}
           new_session);
    reflexivity.
Defined.

(** ** The frames of the gateway *)

Section FrameParts.

Lemma gateway_frame_bytes (cmd : Z) (p : list Z) :
  0 <= cmd <= 0xFFFF -> Buffer.wf p -> (length p <= 250)%nat ->
  let body := [0; Z.of_nat (length p) + 3; cmd / 256; cmd mod 256] ++ p in
  gateway_frame cmd p = body ++ [Buffer.xor_all body].
Proof.
  intros Hcmd Hp Hlen body. unfold gateway_frame.
  by rewrite frame_bytes.
Qed.

Lemma frame_parts (l hi lo x : Z) (p : list Z) :
  Buffer.readUInt16BE (([0; l; hi; lo] ++ p) ++ [x]) 2 = Ok (hi * 2 ^ 8 + lo)
  /\ frame_data (([0; l; hi; lo] ++ p) ++ [x]) = p.
Proof.
  split; [done|].
  unfold frame_data, Buffer.subarray. cbn [app length drop].
  rewrite length_app. cbn [length].
  replace (S (S (S (S (length p + 1)))) - 1 - 4)%nat with (length p) by lia.
  by rewrite drop_0, take_app_length.
Qed.

End FrameParts.

Section GroupStream.

Variable lib : hb_lib_tools.
Variable utf8_decode : list Z -> string.

Local Abbreviation cmds := (modelled_commands lib utf8_decode).
Local Abbreviation NTF := (GW_GET_ALL_GROUPS_INFORMATION_NTF lib utf8_decode).

Local Abbreviation groups_request :=
  {| r_id := 1; r_cmd := 0x0229;
     r_cmdName := "GW_GET_ALL_GROUPS_INFORMATION_REQ";
     r_params := VObj []; r_data := Some [0; 2] |}.

(** The client while the stream of the one call is collected. *)
Local Abbreviation streaming pc_ timer acc evs :=
  {| requestId := 1; sessionId := 0;
     sessions := <["553" := 0%nat]> ∅; busy := false;
     tasks := [ {| t_command := GW_GET_ALL_GROUPS_INFORMATION_REQ;
                   t_request := groups_request; t_key := "553";
                   t_pc := pc_;
                   t_session :=
                     Some {| s_result := VArr acc; s_cfm_listener := false;
                             s_cfm_timer := false;
                             s_done_timer := timer |} |} ];
     wire := [Slip.encode (gateway_frame 0x0229 [0; 2])];
     events := evs; rejected := []; uncaught := None |}.

Lemma groups_confirmation_received (n : Z) (c : client) :
  0 <= n <= 255 ->
  c = {| requestId := 1; sessionId := 0;
         sessions := <["553" := 0%nat]> ∅; busy := true;
         tasks := [ {| t_command := GW_GET_ALL_GROUPS_INFORMATION_REQ;
                       t_request := groups_request; t_key := "553";
                       t_pc := AwaitCfm;
                       t_session := Some new_session |} ];
         wire := [Slip.encode (gateway_frame 0x0229 [0; 2])];
         events := [EvRequest groups_request;
                    EvSend (gateway_frame 0x0229 [0; 2])];
         rejected := []; uncaught := None |} ->
  exists evs,
    receive cmds (gateway_frame 0x022A [0; n]) c
    = set_busy true
        (streaming (GotCfm (Ok (VObj [("nGroups", VNum n)]))) false [] evs).
Proof.
  intros Hn ->. eexists.
  rewrite gateway_frame_bytes; [|lia| |cbn; lia].
  2: { repeat constructor; lia. }
  rewrite receive_checksum_match by done.
  unfold dispatch.
  match goal with
  | |- context [Buffer.readUInt16BE (([0; ?l; ?hi; ?lo] ++ ?p) ++ [?x]) 2] =>
    destruct (frame_parts l hi lo x p) as [-> ->]
  end.
  change (0x022A / 256 * 2 ^ 8 + 0x022A mod 256) with 0x022A.
  assert (commandNameById cmds 0x022A
          = Some "GW_GET_ALL_GROUPS_INFORMATION_CFM") as -> by reflexivity.
  change (Js.endsWith "GW_GET_ALL_GROUPS_INFORMATION_CFM" "_CFM") with true.
  cbn [negb andb].
  assert (command_by_name cmds "GW_GET_ALL_GROUPS_INFORMATION_CFM"
          = Some GW_GET_ALL_GROUPS_INFORMATION_CFM) as -> by reflexivity.
  assert (command_by_name cmds "GW_SESSION_FINISHED_NTF"
          = Some GW_SESSION_FINISHED_NTF) as -> by reflexivity.
  unfold decode_step.
  cbn [decode GW_GET_ALL_GROUPS_INFORMATION_CFM pure_decoder].
  unfold GW_GET_ALL_GROUPS_INFORMATION_CFM_decode.
  rewrite (checkData_ok [0; n] 2 eq_refl).
  cbn [mbind except_bind Buffer.readUInt8 lookup list_lookup].
  change (0 =? 0) with true. cbn [negb].
  reflexivity.
Qed.

Lemma groups_confirmed (n : Z) :
  0 <= n <= 255 ->
  exists evs,
    run cmds
      [ Call GW_GET_ALL_GROUPS_INFORMATION_REQ [] false;
        Receive (gateway_frame 0x022A [0; n]); Resume 0 ] init
    = streaming AwaitDone true [] evs.
Proof.
  intros Hn.
  destruct (groups_confirmation_received n _ Hn eq_refl) as [evs Hcfm].
  exists evs.
  cbn [run fold_left]. unfold exec at 3. cbn [andThen uncaught init].
  set (c1 := call _ _ _ _ _).
  assert (c1 = {| requestId := 1; sessionId := 0;
                  sessions := <["553" := 0%nat]> ∅; busy := true;
                  tasks := [ {| t_command := GW_GET_ALL_GROUPS_INFORMATION_REQ;
                                t_request := groups_request; t_key := "553";
                                t_pc := AwaitCfm;
                                t_session := Some new_session |} ];
                  wire := [Slip.encode (gateway_frame 0x0229 [0; 2])];
                  events := [EvRequest groups_request;
                             EvSend (gateway_frame 0x0229 [0; 2])];
                  rejected := []; uncaught := None |}) as ->
    by (vm_compute; reflexivity).
  unfold exec at 2. cbn [andThen uncaught].
  rewrite Hcfm. reflexivity.
Qed.

Lemma group_collected (d : list Z) (v : value) (acc : list value)
    (evs : list event) :
  Buffer.wf d -> length d = 99%nat ->
  decodeGroupInformation lib utf8_decode d = Ok v ->
  exists evs',
    receive cmds (gateway_frame 0x022B d) (streaming AwaitDone true acc evs)
    = streaming AwaitDone true (acc ++ [v]) evs'.
Proof.
  intros Hwf Hlen Hd.
  assert (Js.get v "sessionId" = VUndefined) as Hsid.
  { destruct (lookup_lt_is_Some_2 d 70) as [g Hg]; [lia|].
    destruct (lookup_lt_is_Some_2 d 71) as [m Hm]; [lia|].
    destruct (decodeGroupInformation_nodeIds lib utf8_decode d g m Hlen Hg Hm)
      as (v' & Hd' & Hs & _).
    by replace v with v' by congruence. }
  eexists.
  rewrite gateway_frame_bytes; [|lia|done|lia].
  rewrite receive_checksum_match by done.
  unfold dispatch.
  match goal with
  | |- context [Buffer.readUInt16BE (([0; ?l; ?hi; ?lo] ++ ?p) ++ [?x]) 2] =>
    destruct (frame_parts l hi lo x p) as [-> ->]
  end.
  change (0x022B / 256 * 2 ^ 8 + 0x022B mod 256) with 0x022B.
  assert (commandNameById cmds 0x022B
          = Some "GW_GET_ALL_GROUPS_INFORMATION_NTF") as -> by reflexivity.
  change (Js.endsWith "GW_GET_ALL_GROUPS_INFORMATION_NTF" "_CFM") with false.
  change (Js.endsWith "GW_GET_ALL_GROUPS_INFORMATION_NTF" "_NTF") with true.
  cbn [negb andb].
  assert (command_by_name cmds "GW_GET_ALL_GROUPS_INFORMATION_NTF"
          = Some NTF) as -> by reflexivity.
  assert (command_by_name cmds "GW_SESSION_FINISHED_NTF"
          = Some GW_SESSION_FINISHED_NTF) as -> by reflexivity.
  match goal with
  | |- context [sessions ?c !! from_option pretty "undefined" (req NTF)] =>
    change (sessions c !! from_option pretty "undefined" (req NTF))
      with (Some 0%nat)
  end.
  unfold decode_step.
  cbn [decode GW_GET_ALL_GROUPS_INFORMATION_NTF].
  unfold GW_GET_ALL_GROUPS_INFORMATION_NTF_decode.
  rewrite Hd.
  unfold session_step.
  cbn -[decodeGroupInformation gateway_frame Js.get Buffer.xor_all].
  rewrite Hsid.
  reflexivity.
Qed.

Lemma groups_collected (frames : list (list Z)) :
  Forall (fun d => Buffer.wf d /\ length d = 99%nat) frames ->
  forall acc evs,
  exists groups evs',
    Forall2 (fun d v => decodeGroupInformation lib utf8_decode d = Ok v)
      frames groups
    /\ run cmds (map (fun d => Receive (gateway_frame 0x022B d)) frames)
         (streaming AwaitDone true acc evs)
       = streaming AwaitDone true (acc ++ groups) evs'.
Proof.
  induction 1 as [|d frames [Hwf Hlen] _ IH]; intros acc evs.
  - exists [], evs. split; [constructor|]. by rewrite app_nil_r.
  - destruct (lookup_lt_is_Some_2 d 70) as [g Hg]; [lia|].
    destruct (lookup_lt_is_Some_2 d 71) as [m Hm]; [lia|].
    destruct (decodeGroupInformation_nodeIds lib utf8_decode d g m Hlen Hg Hm)
      as (v & Hd & _).
    destruct (group_collected d v acc evs Hwf Hlen Hd) as [evs1 Hstep].
    destruct (IH (acc ++ [v]) evs1) as (groups & evs' & Hall & Hrun).
    exists (v :: groups), evs'. split; [by constructor|].
    cbn [map run fold_left]. unfold exec at 2. cbn [andThen uncaught].
    rewrite Hstep. fold (run cmds).
    unfold run in Hrun. rewrite Hrun. by rewrite <- app_assoc.
Qed.

Lemma groups_finished (acc : list value) (evs : list event) :
  exists evs',
    run cmds [Receive (gateway_frame 0x022C []); Resume 0]
      (streaming AwaitDone true acc evs)
    = {| requestId := 1; sessionId := 0; sessions := ∅; busy := false;
         tasks := [ {| t_command := GW_GET_ALL_GROUPS_INFORMATION_REQ;
                       t_request := groups_request; t_key := "553";
                       t_pc := Returned (VArr acc);
                       t_session :=
                         Some {| s_result := VArr acc;
                                 s_cfm_listener := false;
                                 s_cfm_timer := false;
                                 s_done_timer := false |} |} ];
         wire := [Slip.encode (gateway_frame 0x0229 [0; 2])];
         events := evs' ++ [EvResponse groups_request (VArr acc)];
         rejected := []; uncaught := None |}.
Proof.
  eexists. vm_compute. reflexivity.
Qed.

End GroupStream.

(** ** The stream of [GW_GET_ALL_GROUPS_INFORMATION_REQ] *)

(** A call of [GW_GET_ALL_GROUPS_INFORMATION_REQ] on a fresh client
    whose confirmation announces [n] groups, followed by any number of
    99-byte notifications and the finished notification, returns the
    decoded groups in the order of their arrival, however many were
    announced; the session is removed and nothing is thrown. *)
Theorem all_groups_are_collected_in_order
    (lib : hb_lib_tools) (utf8_decode : list Z -> string)
    (n : Z) (frames : list (list Z)) :
  0 <= n <= 255 ->
  Forall (fun d => Buffer.wf d /\ length d = 99%nat) frames ->
  let c :=
    run (modelled_commands lib utf8_decode)
      ([ Call GW_GET_ALL_GROUPS_INFORMATION_REQ [] false;
         Receive (gateway_frame 0x022A [0; n]); Resume 0 ]
       ++ map (fun d => Receive (gateway_frame 0x022B d)) frames
       ++ [ Receive (gateway_frame 0x022C []); Resume 0 ]) init in
  exists groups,
    Forall2 (fun d v => decodeGroupInformation lib utf8_decode d = Ok v)
      frames groups
    /\ (t_pc <$> tasks c !! 0%nat) = Some (Returned (VArr groups))
    /\ last (events c)
       = Some (EvResponse
                 {| r_id := 1; r_cmd := 0x0229;
                    r_cmdName := "GW_GET_ALL_GROUPS_INFORMATION_REQ";
                    r_params := VObj []; r_data := Some [0; 2] |}
                 (VArr groups))
    /\ sessions c = ∅ /\ busy c = false /\ uncaught c = None
    /\ rejected c = [].
Proof.
  intros Hn Hframes c.
  destruct (groups_confirmed lib utf8_decode n Hn) as [evs0 H0].
  destruct (groups_collected lib utf8_decode frames Hframes [] evs0)
    as (groups & evs1 & Hall & H1).
  destruct (groups_finished lib utf8_decode groups evs1) as [evs2 H2].
  exists groups. split; [done|].
  assert (c = run (modelled_commands lib utf8_decode)
                [Receive (gateway_frame 0x022C []); Resume 0]
                (run (modelled_commands lib utf8_decode)
                   (map (fun d => Receive (gateway_frame 0x022B d)) frames)
                   (run (modelled_commands lib utf8_decode)
                      [ Call GW_GET_ALL_GROUPS_INFORMATION_REQ [] false;
                        Receive (gateway_frame 0x022A [0; n]); Resume 0 ]
                      init))) as ->.
  { unfold c, run. by rewrite !fold_left_app. }
  rewrite H0, H1. cbn [app]. rewrite H2.
  cbn [tasks events sessions busy uncaught rejected lookup list_lookup fmap
       option_fmap option_map t_pc].
  rewrite last_snoc. repeat split; reflexivity.
Qed.

Lemma all_groups_are_collected_in_order_witness :
  let d := repeat 0 70 ++ [0; 3; 0x05; 0x80] ++ repeat 0 25 in
  let c :=
    run registry_modelled
      ([ Call GW_GET_ALL_GROUPS_INFORMATION_REQ [] false;
         Receive (gateway_frame 0x022A [0; 7]); Resume 0 ]
       ++ map (fun d => Receive (gateway_frame 0x022B d)) [d; d]
       ++ [ Receive (gateway_frame 0x022C []); Resume 0 ]) init in
  exists groups,
    Forall2 (fun d v =>
               decodeGroupInformation RefLib.lib RefLib.utf8_decode d = Ok v)
      [d; d] groups
    /\ (t_pc <$> tasks c !! 0%nat) = Some (Returned (VArr groups))
    /\ last (events c)
       = Some (EvResponse
                 {| r_id := 1; r_cmd := 0x0229;
                    r_cmdName := "GW_GET_ALL_GROUPS_INFORMATION_REQ";
                    r_params := VObj []; r_data := Some [0; 2] |}
                 (VArr groups))
    /\ sessions c = ∅ /\ busy c = false /\ uncaught c = None
    /\ rejected c = [].
Proof.
  intros d.
  apply (all_groups_are_collected_in_order RefLib.lib RefLib.utf8_decode 7
           [d; d]).
  - lia.
  - repeat constructor; vm_compute; congruence.
Defined.

(** ** Notifications of a session *)

(** A [GW_STATUS_REQUEST_NTF] of 18 bytes whose session is open and
    has an array as its result is decoded, loses its [sessionId] and
    [status], and is appended to that result; the notification is emitted
    with the stripped payload and the request of the session, and no other
    call changes. *)
Theorem status_notification_is_collected
    (lib : hb_lib_tools) (utf8_decode : list Z -> string) (c : client)
    (data : list Z) (sid : Z) (i : nat) (t : task) (s : VeluxSession)
    (acc : list value) :
  Buffer.wf data -> length data = 18%nat ->
  Buffer.readUInt16BE data 0 = Ok sid ->
  uncaught c = None -> sessions c !! "undefined" = None ->
  sessions c !! ("s" +:+ pretty sid) = Some i ->
  tasks c !! i = Some t -> t_session t = Some s -> s_result s = VArr acc ->
  exists payload,
    GW_STATUS_REQUEST_NTF_decode lib data = Ok payload
    /\ let item := Js.delete (Js.delete payload "sessionId") "status" in
       let buf := gateway_frame 0x0307 data in
       let c' := receive (modelled_commands lib utf8_decode) buf c in
       tasks c' !! i
       = Some (set_session
                 (Some {| s_result := VArr (acc ++ [item]);
                          s_cfm_listener := s_cfm_listener s;
                          s_cfm_timer := s_cfm_timer s;
                          s_done_timer := s_done_timer s |}) t)
       /\ (forall j, j <> i -> tasks c' !! j = tasks c !! j)
       /\ events c'
          = events c
            ++ [ EvData buf;
                 EvNotification 0x0307 "GW_STATUS_REQUEST_NTF" data item
                   (Some (t_request t)) ]
       /\ sessions c' = sessions c /\ uncaught c' = None.
Proof.
  intros Hwf Hlen Hsid Hun Hundef Hs Ht Hsess Hres.
  assert (exists payload,
            GW_STATUS_REQUEST_NTF_decode lib data = Ok payload
            /\ Js.get payload "sessionId" = VNum sid
            /\ Js.not_null (Js.get payload "nodeId") = true)
    as (payload & Hdec & Hsidp & Hnode).
  { do 18 (destruct data as [|? data]; [discriminate|]).
    destruct data; [|discriminate].
    injection Hsid as <-.
    unfold GW_STATUS_REQUEST_NTF_decode.
    match goal with
    | |- context [checkData ?d 18] => rewrite (checkData_ok d 18 eq_refl)
    end.
    cbn [mbind except_bind Buffer.readUInt8 Buffer.readUInt16BE
         Buffer.readUInt32BE lookup list_lookup].
    eexists. split; [reflexivity|]. split; reflexivity. }
  exists payload. split; [done|].
  intros item buf c'.
  assert (c' = emit (EvNotification 0x0307 "GW_STATUS_REQUEST_NTF"
                       data item (Some (t_request t)))
                 (set_result i (VArr (acc ++ [item]))
                    (emit (EvData buf) c))) as ->.
  { unfold c', buf.
    rewrite gateway_frame_bytes; [|lia|done|lia].
    rewrite receive_checksum_match by done.
    unfold dispatch.
    match goal with
    | |- context [Buffer.readUInt16BE (([0; ?l; ?hi; ?lo] ++ ?p) ++ [?x]) 2] =>
      destruct (frame_parts l hi lo x p) as [-> ->]
    end.
    change (0x0307 / 256 * 2 ^ 8 + 0x0307 mod 256) with 0x0307.
    assert (commandNameById (modelled_commands lib utf8_decode) 0x0307
            = Some "GW_STATUS_REQUEST_NTF") as -> by reflexivity.
    change (Js.endsWith "GW_STATUS_REQUEST_NTF" "_CFM") with false.
    change (Js.endsWith "GW_STATUS_REQUEST_NTF" "_NTF") with true.
    cbn [negb andb].
    assert (command_by_name (modelled_commands lib utf8_decode)
              "GW_STATUS_REQUEST_NTF"
            = Some (GW_STATUS_REQUEST_NTF lib)) as -> by reflexivity.
    assert (command_by_name (modelled_commands lib utf8_decode)
              "GW_SESSION_FINISHED_NTF"
            = Some GW_SESSION_FINISHED_NTF) as -> by reflexivity.
    cbn [req GW_STATUS_REQUEST_NTF from_option sessions emit set_events].
    rewrite Hundef.
    unfold decode_step.
    cbn [decode GW_STATUS_REQUEST_NTF pure_decoder mbind option_bind].
    rewrite Hdec. cbn [apply_view].
    unfold andThen at 1. cbn [uncaught emit set_events]. rewrite Hun.
    unfold session_step. rewrite Hsidp, Hnode.
    cbn [Js.not_null Js.to_string sessions emit set_events].
    rewrite Hs.
    unfold view. cbn [tasks emit set_events]. rewrite Ht. cbn [mbind option_bind].
    rewrite Hsess. cbn [mbind option_bind fmap option_fmap option_map
                        sv_result].
    rewrite Hres.
    unfold andThen.
    cbn [uncaught set_result update_session update_task set_tasks emit
         set_events].
    rewrite Hun.
    cbn [mbind option_bind tasks emit set_events].
    change (0x0307 =? id GW_SESSION_FINISHED_NTF) with false. cbv iota.
    unfold set_result, update_session, update_task.
    cbn [tasks set_tasks emit set_events].
    rewrite list_lookup_alter, Ht, decide_True by done.
    reflexivity. }
  cbn [tasks events sessions uncaught emit set_events set_result
       update_session update_task set_tasks].
  repeat split.
  - rewrite list_lookup_alter, Ht, decide_True by done.
    cbn [fmap option_fmap option_map]. by rewrite Hsess.
  - intros j Hj. by rewrite list_lookup_alter_ne.
  - by rewrite <- app_assoc.
  - done.
Qed.

Lemma status_notification_is_collected_witness :
  let data := [0; 1; 1; 7; 2; 1; 1; 0xC8; 0; 0x64; 0; 0; 30; 0; 0; 0; 1; 1] in
  let s := {| s_result := VArr []; s_cfm_listener := false;
              s_cfm_timer := false; s_done_timer := true |} in
  let t := {| t_command := GW_ACTIVATE_SCENE_REQ;
              t_request :=
                {| r_id := 1; r_cmd := 0x0412;
                   r_cmdName := "GW_ACTIVATE_SCENE_REQ";
                   r_params := VObj [("sessionId", VNum 1)];
                   r_data := None |};
              t_key := "s1"; t_pc := AwaitDone; t_session := Some s |} in
  let c := {| requestId := 1; sessionId := 1;
              sessions := <["s1" := 0%nat]> ∅; busy := false; tasks := [t];
              wire := []; events := []; rejected := [];
              uncaught := None |} in
  exists payload,
    GW_STATUS_REQUEST_NTF_decode RefLib.lib data = Ok payload
    /\ let item := Js.delete (Js.delete payload "sessionId") "status" in
       let buf := gateway_frame 0x0307 data in
       let c' := receive registry_modelled buf c in
       tasks c' !! 0%nat
       = Some (set_session
                 (Some {| s_result := VArr ([] ++ [item]);
                          s_cfm_listener := s_cfm_listener s;
                          s_cfm_timer := s_cfm_timer s;
                          s_done_timer := s_done_timer s |}) t)
       /\ (forall j, j <> 0%nat -> tasks c' !! j = tasks c !! j)
       /\ events c'
          = events c
            ++ [ EvData buf;
                 EvNotification 0x0307 "GW_STATUS_REQUEST_NTF" data item
                   (Some (t_request t)) ]
       /\ sessions c' = sessions c /\ uncaught c' = None.
Proof.
  intros data s t c.
  apply (status_notification_is_collected RefLib.lib RefLib.utf8_decode c
           data 1 0 t s []); try reflexivity.
  repeat constructor; lia.
Defined.

(** The entry that the witness appends. *)
Example status_notification_example :
  let data := [0; 1; 1; 7; 2; 1; 1; 0xC8; 0; 0x64; 0; 0; 30; 0; 0; 0; 1; 1] in
  (payload ← GW_STATUS_REQUEST_NTF_decode RefLib.lib data;
   Ok (Js.delete (Js.delete payload "sessionId") "status"))
  = Ok (VObj [ ("nodeId", VNum 7); ("runStatus", VStr "active");
               ("statusReply", VNum 1); ("statusType", VNum 1);
               ("targetPosition", VNum 100); ("currentPosition", VNum 50);
               ("remainingTime", VNum 30);
               ("lastMasterExecutionAddress", VStr "0x00000001");
               ("lastCommandOriginator", VNum 1) ]).
Proof. reflexivity. Qed.

(** A [GW_STATUS_REQUEST_NTF] for an open session whose result is not
    an array, as before the confirmation of its request has arrived,
    throws a [TypeError] out of the ['data'] handler: no
    notification is emitted and no call changes. *)
Theorem node_notification_without_array_result_throws
    (lib : hb_lib_tools) (utf8_decode : list Z -> string) (c : client)
    (data : list Z) (sid : Z) (i : nat) (t : task) (s : VeluxSession) :
  Buffer.wf data -> length data = 18%nat ->
  Buffer.readUInt16BE data 0 = Ok sid ->
  reachable (modelled_commands lib utf8_decode) c -> uncaught c = None ->
  sessions c !! ("s" +:+ pretty sid) = Some i ->
  tasks c !! i = Some t -> t_session t = Some s ->
  (forall acc, s_result s <> VArr acc) ->
  let buf := gateway_frame 0x0307 data in
  let c' := receive (modelled_commands lib utf8_decode) buf c in
  (exists msg, uncaught c' = Some (TypeError msg))
  /\ tasks c' = tasks c /\ sessions c' = sessions c
  /\ events c' = events c ++ [EvData buf].
Proof.
  intros Hwf Hlen Hsid Hc Hun Hs Ht Hsess Hres buf c'.
  pose proof (no_session_undefined _ c Hc) as Hundef.
  assert (exists payload,
            GW_STATUS_REQUEST_NTF_decode lib data = Ok payload
            /\ Js.get payload "sessionId" = VNum sid
            /\ Js.not_null (Js.get payload "nodeId") = true)
    as (payload & Hdec & Hsidp & Hnode).
  { do 18 (destruct data as [|? data]; [discriminate|]).
    destruct data; [|discriminate].
    injection Hsid as <-.
    unfold GW_STATUS_REQUEST_NTF_decode.
    match goal with
    | |- context [checkData ?d 18] => rewrite (checkData_ok d 18 eq_refl)
    end.
    cbn [mbind except_bind Buffer.readUInt8 Buffer.readUInt16BE
         Buffer.readUInt32BE lookup list_lookup].
    eexists. split; [reflexivity|]. split; reflexivity. }
  assert (c' = crash (TypeError "session.result.push is not a function")
                 (emit (EvData buf) c)) as ->.
  { unfold c', buf.
    rewrite gateway_frame_bytes; [|lia|done|lia].
    rewrite receive_checksum_match by done.
    unfold dispatch.
    match goal with
    | |- context [Buffer.readUInt16BE (([0; ?l; ?hi; ?lo] ++ ?p) ++ [?x]) 2] =>
      destruct (frame_parts l hi lo x p) as [-> ->]
    end.
    change (0x0307 / 256 * 2 ^ 8 + 0x0307 mod 256) with 0x0307.
    assert (commandNameById (modelled_commands lib utf8_decode) 0x0307
            = Some "GW_STATUS_REQUEST_NTF") as -> by reflexivity.
    change (Js.endsWith "GW_STATUS_REQUEST_NTF" "_CFM") with false.
    change (Js.endsWith "GW_STATUS_REQUEST_NTF" "_NTF") with true.
    cbn [negb andb].
    assert (command_by_name (modelled_commands lib utf8_decode)
              "GW_STATUS_REQUEST_NTF"
            = Some (GW_STATUS_REQUEST_NTF lib)) as -> by reflexivity.
    cbn [req GW_STATUS_REQUEST_NTF from_option sessions emit set_events].
    rewrite Hundef.
    unfold decode_step.
    cbn [decode GW_STATUS_REQUEST_NTF pure_decoder mbind option_bind].
    rewrite Hdec. cbn [apply_view].
    unfold andThen at 1. cbn [uncaught emit set_events]. rewrite Hun.
    unfold session_step. rewrite Hsidp, Hnode.
    cbn [Js.not_null Js.to_string sessions emit set_events].
    rewrite Hs.
    unfold view. cbn [tasks emit set_events]. rewrite Ht.
    cbn [mbind option_bind].
    rewrite Hsess. cbn [mbind option_bind fmap option_fmap option_map
                        sv_result].
    destruct (s_result s) as [| | | |acc|] eqn:E;
      try reflexivity.
    by destruct (Hres acc). }
  cbn. repeat split; try done. by eexists.
Qed.

Lemma node_notification_without_array_result_throws_witness :
  let data := [0; 1; 1; 7; 2; 1; 1; 0xC8; 0; 0x64; 0; 0; 30; 0; 0; 0; 1; 1] in
  let c := call registry_modelled GW_ACTIVATE_SCENE_REQ [] false init in
  let buf := gateway_frame 0x0307 data in
  let c' := receive registry_modelled buf c in
  (exists msg, uncaught c' = Some (TypeError msg))
  /\ tasks c' = tasks c /\ sessions c' = sessions c
  /\ events c' = events c ++ [EvData buf].
Proof.
  intros data c.
  apply (node_notification_without_array_result_throws RefLib.lib
           RefLib.utf8_decode c data 1 0
           {| t_command := GW_ACTIVATE_SCENE_REQ;
              t_request :=
                {| r_id := 1; r_cmd := 0x0412;
                   r_cmdName := "GW_ACTIVATE_SCENE_REQ";
                   r_params := VObj [("sessionId", VNum 1)];
                   r_data := None |};
              t_key := "s1"; t_pc := AwaitCfm;
              t_session := Some new_session |}
           new_session); try reflexivity.
  - repeat constructor; lia.
  - apply (reachable_exec registry_modelled
             (Call GW_ACTIVATE_SCENE_REQ [] false) init).
    constructor.
  - discriminate.
Defined.

(** ** The request records on the ['request'] event *)

Section EmittedFacts.

Variable commands : list (string * command).

Lemma emitted_emit ev c :
  requests_emitted (emit ev c)
  = requests_emitted c ++ match ev with EvRequest r => [r] | _ => [] end.
Proof.
  unfold requests_emitted, emit. cbn [events set_events].
  rewrite omap_app. cbn. by destruct ev.
Qed.

Lemma emitted_quiet ev c :
  (forall r, ev <> EvRequest r) ->
  requests_emitted (emit ev c) = requests_emitted c.
Proof.
  intros Hev. rewrite emitted_emit.
  destruct ev as [| | |r| |]; rewrite ?app_nil_r; try done.
  by destruct (Hev r).
Qed.

Lemma emitted_crash e c : requests_emitted (crash e c) = requests_emitted c.
Proof. reflexivity. Qed.

Lemma emitted_emitError e r c :
  requests_emitted (emitError e r c) = requests_emitted c.
Proof. by apply emitted_quiet. Qed.

Lemma emitted_session_emit_error i e c :
  requests_emitted (session_emit_error i e c) = requests_emitted c.
Proof.
  unfold session_emit_error. destruct (tasks c !! i) as [t|]; [|done].
  by destruct (t_pc t).
Qed.

Lemma emitted_session_emit_cfm i payload c :
  requests_emitted (session_emit_cfm i payload c) = requests_emitted c.
Proof.
  unfold session_emit_cfm. destruct (tasks c !! i) as [t|]; [|done].
  by destruct (t_pc t).
Qed.

Lemma emitted_session_emit_done i c :
  requests_emitted (Client.session_emit_done i c) = requests_emitted c.
Proof.
  unfold Client.session_emit_done. destruct (tasks c !! i) as [t|]; [|done].
  by destruct (t_pc t).
Qed.

Lemma emitted_apply_view session sv c :
  requests_emitted (apply_view session sv c) = requests_emitted c.
Proof.
  unfold apply_view. destruct session, sv; try done.
  case_match; by rewrite ?emitted_session_emit_done.
Qed.

Lemma emitted_decode_step command data session c :
  requests_emitted (decode_step command data session c).2 = requests_emitted c.
Proof.
  unfold decode_step. destruct (decode command) as [dec|]; [|done].
  destruct (dec data (session ≫= view c)) as [[payload|e] sv]; cbn.
  - apply emitted_apply_view.
  - destruct session;
      rewrite ?emitted_session_emit_error, ?emitted_emitError;
      apply emitted_apply_view.
Qed.

Lemma emitted_session_step payload session c :
  requests_emitted (session_step payload session c).2 = requests_emitted c.
Proof. unfold session_step. by repeat case_match. Qed.

Lemma emitted_andThen c (k : client -> client) :
  (forall c', requests_emitted (k c') = requests_emitted c') ->
  requests_emitted (andThen c k) = requests_emitted c.
Proof. intros Hk. unfold andThen. by destruct (uncaught c). Qed.

Lemma emitted_dispatch buf c :
  requests_emitted (dispatch commands buf c) = requests_emitted c.
Proof.
  unfold dispatch.
  destruct (Buffer.readUInt16BE buf 2) as [cmd|e]; [|done].
  destruct (commandNameById commands cmd) as [cmdName|];
    [|apply emitted_emitError].
  set (c0 := if _ : bool then _ else c).
  assert (requests_emitted c0 = requests_emitted c) as <-
    by (unfold c0; case_match; by rewrite ?emitted_emitError).
  clearbody c0.
  destruct (command_by_name commands cmdName) as [command|]; [|done].
  pose proof (emitted_decode_step command (frame_data buf)
                (sessions c0 !! from_option pretty "undefined" (req command))
                c0) as H1.
  destruct (decode_step _ _ _ _) as [payload c1]. cbn in H1. rewrite <- H1.
  apply emitted_andThen. intros c2.
  pose proof (emitted_session_step payload
                (sessions c0 !! from_option pretty "undefined" (req command))
                c2) as H2.
  destruct (session_step _ _ _) as [[session payload'] c3]. cbn in H2.
  rewrite <- H2. apply emitted_andThen. intros c4.
  set (c5 := emit _ c4).
  assert (requests_emitted c5 = requests_emitted c4) as <-
    by by apply emitted_quiet.
  clearbody c5.
  set (c6 := if _ : bool then _ else c5).
  assert (requests_emitted c6 = requests_emitted c5) as <-.
  { unfold c6. case_match; [|done].
    destruct session; cbn; [apply emitted_session_emit_cfm|done]. }
  clearbody c6.
  destruct (command_by_name commands "GW_SESSION_FINISHED_NTF"); [|done].
  case_match; [|done].
  destruct session; cbn; [apply emitted_session_emit_done|done].
Qed.

Lemma emitted_receive buf c :
  requests_emitted (receive commands buf c) = requests_emitted c.
Proof.
  unfold receive.
  case_match;
    [case_match; by rewrite ?emitted_crash, ?emitted_emitError, emitted_quiet|].
  rewrite emitted_dispatch.
  case_match; by rewrite ?emitted_emitError, ?emitted_quiet.
Qed.

Lemma emitted_on_data pool data c :
  requests_emitted (on_data commands pool data c) = requests_emitted c.
Proof.
  unfold on_data. destruct (Slip.decode pool data); [|done].
  apply emitted_receive.
Qed.

Lemma emitted_cfm_timeout i c :
  requests_emitted (cfm_timeout i c) = requests_emitted c.
Proof.
  unfold cfm_timeout. repeat case_match; try done.
  by rewrite emitted_session_emit_error.
Qed.

Lemma emitted_done_timeout i c :
  requests_emitted (done_timeout i c) = requests_emitted c.
Proof.
  unfold done_timeout. repeat case_match; try done.
  by rewrite emitted_session_emit_error.
Qed.

(** A call that goes on emits at most its own request record. *)
Lemma emitted_resume i c :
  requests_emitted (resume commands i c) = requests_emitted c
  \/ exists t, tasks c !! i = Some t
               /\ requests_emitted (resume commands i c)
                  = requests_emitted c ++ [t_request t].
Proof.
  unfold resume. destruct (tasks c !! i) as [t|] eqn:Ht; [|by left].
  assert (forall c0, requests_emitted c0 = requests_emitted c ->
                     requests_emitted (do_write i t c0)
                     = requests_emitted c ++ [t_request t]) as Hwrite.
  { intros c0 <-. unfold requests_emitted, do_write.
    destruct (frame _ _);
      cbn [events update_task set_tasks set_wire emit set_events set_busy];
      rewrite !omap_app; cbn; by rewrite ?app_nil_r. }
  assert (forall e c0, requests_emitted c0 = requests_emitted c ->
                       requests_emitted (fail commands i t e c0)
                       = requests_emitted c) as Hfail.
  { intros e c0 <-. unfold fail. repeat case_match; try done.
    apply (emitted_emitError _ _ c0). }
  assert (forall c0, requests_emitted c0 = requests_emitted c ->
                     requests_emitted (finish i t c0)
                     = requests_emitted c) as Hfinish.
  { intros c0 <-. unfold finish.
    by apply (emitted_quiet _ (set_sessions _ c0)). }
  destruct (t_pc t) as [| | |[v|e]| |[v|e]| |]; try by left.
  - case_bool_decide; [by left|]. cbn [busy set_sessions update_task set_tasks].
    destruct (busy c); [by left|]. right. exists t. split; [done|].
    by apply Hwrite.
  - destruct (busy c); [by left|]. right. exists t. split; [done|].
    by apply Hwrite.
  - left. destruct (ntf (t_command t)); [done|]. by apply Hfinish.
  - left. by apply Hfail.
  - left. by apply Hfinish.
  - left. by apply Hfail.
Qed.

(** The records of the calls: a turn only adds to them. *)
Lemma requests_exec a c :
  exists more,
    map t_request (tasks (exec commands a c))
    = map t_request (tasks c) ++ more.
Proof.
  assert (forall c1, map t_request (tasks c1) = map t_request (tasks c) ->
                     exists more, map t_request (tasks c1)
                                  = map t_request (tasks c) ++ more) as Hsame.
  { intros c1 ->. exists []. by rewrite app_nil_r. }
  unfold exec, andThen. destruct (uncaught c); [by apply Hsame|].
  destruct a as [command params userInput|i|buf|pool data|i|i].
  - unfold call.
    destruct (commandNameById commands (id command)) as [cmdName|];
      [|by apply Hsame].
    case_match; [by apply Hsame|].
    set (pc0 := if session command then _ else _).
    assert (tasks pc0.2 = tasks c) as Ht0 by (unfold pc0; by case_match).
    destruct pc0 as [params0 c0]. cbn [snd] in Ht0.
    destruct (match encode command with
              | Some enc => _
              | None => _
              end) as [[data params1]|e];
      [|apply Hsame; cbn [tasks set_rejected]; by rewrite ?Ht0].
    case_match; [apply Hsame; cbn [tasks set_rejected]; by rewrite ?Ht0|].
    rewrite requests_resume. cbn [tasks set_tasks set_requestId].
    rewrite map_app, Ht0. by eexists.
  - apply Hsame, requests_resume.
  - apply Hsame, requests_of_shape, shape_receive.
  - apply Hsame, requests_of_shape, shape_on_data.
  - apply Hsame, requests_of_shape, shape_cfm_timeout.
  - apply Hsame, requests_of_shape, shape_done_timeout.
Qed.

Lemma requests_run l :
  forall c, exists more,
    map t_request (tasks (run commands l c))
    = map t_request (tasks c) ++ more.
Proof.
  induction l as [|a l IH]; intros c.
  - exists []. by rewrite app_nil_r.
  - change (run commands (a :: l) c) with (run commands l (exec commands a c)).
    destruct (IH (exec commands a c)) as [more ->].
    destruct (requests_exec a c) as [more' ->].
    exists (more' ++ more). by rewrite app_assoc.
Qed.

(** Every record on the ['request'] event is the record of a call. *)
Lemma emitted_exec a c :
  (forall r, In r (requests_emitted c) -> In r (map t_request (tasks c))) ->
  forall r, In r (requests_emitted (exec commands a c)) ->
            In r (map t_request (tasks (exec commands a c))).
Proof.
  intros IH.
  assert (forall c1, requests_emitted c1 = requests_emitted c ->
                     map t_request (tasks c1) = map t_request (tasks c) ->
                     forall r, In r (requests_emitted c1) ->
                               In r (map t_request (tasks c1))) as Hsame.
  { intros c1 -> ->. done. }
  assert (forall i c1,
             (forall r, In r (requests_emitted c1) ->
                        In r (map t_request (tasks c1))) ->
             forall r, In r (requests_emitted (resume commands i c1)) ->
                       In r (map t_request (tasks (resume commands i c1))))
    as Hresume.
  { intros i c1 IH1 r. rewrite requests_resume.
    destruct (emitted_resume i c1) as [->|(t & Ht & ->)]; [apply IH1|].
    rewrite in_app_iff. intros [Hr|[<-|[]]]; [by apply IH1|].
    apply in_map, list_elem_of_In. by eapply list_elem_of_lookup_2. }
  unfold exec, andThen. destruct (uncaught c); [done|].
  destruct a as [command params userInput|i|buf|pool data|i|i].
  - unfold call.
    destruct (commandNameById commands (id command)) as [cmdName|];
      [|by apply Hsame].
    case_match; [by apply Hsame|].
    set (pc0 := if session command then _ else _).
    assert (tasks pc0.2 = tasks c
            /\ requests_emitted pc0.2 = requests_emitted c) as [Ht0 He0]
      by (unfold pc0; by case_match).
    destruct pc0 as [params0 c0]. cbn [snd] in Ht0, He0.
    destruct (match encode command with
              | Some enc => _
              | None => _
              end) as [[data params1]|e];
      [|apply Hsame; [exact He0|cbn [tasks set_rejected]; by rewrite ?Ht0]].
    case_match;
      [apply Hsame; [exact He0|cbn [tasks set_rejected]; by rewrite ?Ht0]|].
    apply Hresume. intros r.
    change (requests_emitted (set_tasks ?v (set_requestId ?w c0)))
      with (requests_emitted c0).
    cbn [tasks set_tasks set_requestId]. rewrite He0, map_app, in_app_iff, Ht0.
    intros Hr. left. by apply IH.
  - by apply Hresume.
  - apply Hsame; [apply emitted_receive|].
    apply requests_of_shape, shape_receive.
  - apply Hsame; [apply emitted_on_data|].
    apply requests_of_shape, shape_on_data.
  - apply Hsame; [apply emitted_cfm_timeout|].
    apply requests_of_shape, shape_cfm_timeout.
  - apply Hsame; [apply emitted_done_timeout|].
    apply requests_of_shape, shape_done_timeout.
Qed.

Lemma emitted_reachable c :
  reachable commands c ->
  forall r, In r (requests_emitted c) -> In r (map t_request (tasks c)).
Proof.
  induction 1 as [|a c _ IH]; [by intros r []|]. by apply emitted_exec.
Qed.

Lemma emitted_events r c :
  In (EvRequest r) (events c) <-> In r (requests_emitted c).
Proof.
  unfold requests_emitted. rewrite <- !list_elem_of_In, list_elem_of_omap.
  split.
  - intros Hr. by exists (EvRequest r).
  - intros (ev & Hev & Heq). destruct ev; try done. by injection Heq as ->.
Qed.

(** The record with a given id: the one of the call that drew the id. *)
Lemma emitted_by_id l c n t r :
  reachable commands c ->
  tasks c !! n = Some t ->
  In (EvRequest r) (events (run commands l c)) ->
  r_id r = Z.of_nat n + 1 ->
  r = t_request t.
Proof.
  intros Hc Ht Hr Hid.
  pose proof (reachable_run commands l c Hc) as Hd.
  apply emitted_events, (emitted_reachable _ Hd) in Hr.
  apply list_elem_of_In, list_elem_of_lookup_1 in Hr as [j Hj].
  destruct (request_ids_reachable commands _ Hd) as [_ Hids].
  assert (r_id r = Z.of_nat j + 1) as Hj'.
  { assert (map (r_id ∘ t_request) (tasks (run commands l c)) !! j
            = Some (r_id r)) as H1.
    { change (map ?f ?x) with (f <$> x) in *.
      rewrite list_lookup_fmap in Hj. rewrite list_lookup_fmap.
      destruct (tasks (run commands l c) !! j) as [t'|]; [|done].
      cbn in *. by injection Hj as ->. }
    rewrite Hids in H1. change (map ?f ?x) with (f <$> x) in H1.
    rewrite list_lookup_fmap in H1.
    destruct (seq 0 (length (tasks (run commands l c))) !! j) as [k|] eqn:Hk;
      [|done].
    apply lookup_seq in Hk as [-> _]. cbn in H1. by injection H1. }
  assert (j = n) as -> by lia.
  destruct (requests_run l c) as [more Hmore].
  rewrite Hmore in Hj. change (map ?f ?x) with (f <$> x) in Hj.
  rewrite lookup_app_l in Hj
    by (rewrite length_fmap; by eapply lookup_lt_Some).
  rewrite list_lookup_fmap, Ht in Hj. by injection Hj.
Qed.

End EmittedFacts.

(** ** The password, in any state of the client *)

Section PasswordCalls.

Variable lib : hb_lib_tools.
Hypothesis Hlib : validators_accept lib.

Lemma lookup_assign fields k v : Js.lookup (Js.assign fields k v) k = v.
Proof.
  induction fields as [|[k' v'] fields IH]; cbn.
  - by rewrite String.eqb_refl.
  - destruct (String.eqb k' k) eqn:Hk; cbn; [by rewrite String.eqb_refl|].
    by rewrite Hk.
Qed.

Lemma lookup_assign_ne fields k k' v :
  k <> k' -> Js.lookup (Js.assign fields k v) k' = Js.lookup fields k'.
Proof.
  intros Hne. induction fields as [|[k0 v0] fields IH]; cbn.
  - by rewrite (proj2 (String.eqb_neq k k')).
  - destruct (String.eqb k0 k) eqn:Hk; cbn.
    + apply String.eqb_eq in Hk as ->.
      by rewrite (proj2 (String.eqb_neq k k')).
    + by rewrite IH.
Qed.

Lemma password_encode_fields fields p userInput :
  Js.lookup fields "password" = VStr p -> p <> EmptyString ->
  GW_PASSWORD_ENTER_REQ_encode lib (VObj fields) userInput
  = Ok (Buffer.write (Buffer.alloc 32) p 0,
        VObj (Js.assign fields "password" (VStr (replace_dot_star p)))).
Proof.
  intros Hf Hp. destruct Hlib as [Hobj Hstr].
  unfold GW_PASSWORD_ENTER_REQ_encode.
  destruct (Hobj "params" fields userInput) as [v ->].
  cbn [mbind except_bind Js.get]. rewrite Hf.
  destruct (Hstr "params.password" p true userInput Hp) as [v' ->].
  reflexivity.
Qed.

Lemma write_padded p :
  (length (Buffer.utf8_string p) <= 32)%nat ->
  Buffer.write (Buffer.alloc 32) p 0
  = Buffer.utf8_string p ++ repeat 0 (32 - length (Buffer.utf8_string p)).
Proof.
  intros Hfit. unfold Buffer.alloc.
  replace 32%nat
    with (length (Buffer.utf8_string p)
          + (32 - length (Buffer.utf8_string p)))%nat at 1 by lia.
  rewrite repeat_app.
  pose proof (write_fits p [] (repeat 0 (length (Buffer.utf8_string p)))
                (repeat 0 (32 - length (Buffer.utf8_string p)))) as H.
  cbn [app length] in H. apply H. by rewrite repeat_length.
Qed.

(** [request()] on the password command, up to the wait for the slot. *)
Lemma call_password fields p userInput c :
  Js.lookup fields "password" = VStr p -> p <> EmptyString ->
  let params :=
    VObj (Js.assign fields "password" (VStr (replace_dot_star p))) in
  let sid := Js.lookup fields "sessionId" in
  let t :=
    {| t_command := GW_PASSWORD_ENTER_REQ lib;
       t_request :=
         {| r_id := requestId c + 1; r_cmd := 0x3000;
            r_cmdName := "GW_PASSWORD_ENTER_REQ"; r_params := params;
            r_data := Some (Buffer.write (Buffer.alloc 32) p 0) |};
       t_key := if Js.not_null sid then "s" +:+ Js.to_string sid
                else pretty 0x3000;
       t_pc := WaitSlot; t_session := None |} in
  call (Api.commands lib) (GW_PASSWORD_ENTER_REQ lib) fields userInput c
  = resume (Api.commands lib) (length (tasks c))
      (set_tasks (tasks c ++ [t]) (set_requestId (requestId c + 1) c)).
Proof.
  intros Hf Hp params sid t. unfold call.
  change (commandNameById (Api.commands lib) (id (GW_PASSWORD_ENTER_REQ lib)))
    with (Some "GW_PASSWORD_ENTER_REQ").
  change (Js.endsWith "GW_PASSWORD_ENTER_REQ" "_REQ") with true.
  cbn [negb session encode GW_PASSWORD_ENTER_REQ].
  rewrite (password_encode_fields _ _ _ Hf Hp).
  cbn [mbind except_bind from_option].
  rewrite bool_decide_eq_false_2 by (rewrite length_write; simpl; lia).
  cbn [Js.get]. rewrite lookup_assign_ne by done.
  reflexivity.
Qed.

End PasswordCalls.

(** C10, amended: for every call of [request()] on GW_PASSWORD_ENTER_REQ,
    in any state the client can reach, with [params.password = p] a
    non-empty string without line terminators whose UTF-8 encoding is at
    most 32 bytes, the encoder returns the 32-byte buffer that holds the
    bytes of [p] padded with zeros, and replaces [params.password] by the
    string of [|p|] asterisks before the request record is created.  The
    request record of the call has these masked parameters and the encoded
    password as its [data]; it is emitted on ['request'] at once when the
    slot of the command is free and no request is being written, and no
    other record with its id is emitted on ['request'], whatever happens
    next. *)
Theorem password_is_masked_in_params
    (lib : hb_lib_tools) (c : client) (fields : list (string * value))
    (p : string) (userInput : bool) (l : list action) :
  validators_accept lib ->
  reachable (Api.commands lib) c -> uncaught c = None ->
  Js.lookup fields "password" = VStr p ->
  p <> EmptyString -> has_line_terminator p = false ->
  (length (Buffer.utf8_string p) <= 32)%nat ->
  let data :=
    Buffer.utf8_string p ++ repeat 0 (32 - length (Buffer.utf8_string p)) in
  let masked :=
    VObj (Js.assign fields "password" (VStr (stars (String.length p)))) in
  let request :=
    {| r_id := requestId c + 1; r_cmd := 0x3000;
       r_cmdName := "GW_PASSWORD_ENTER_REQ"; r_params := masked;
       r_data := Some data |} in
  let sid := Js.lookup fields "sessionId" in
  let key := if Js.not_null sid then "s" +:+ Js.to_string sid
             else pretty 0x3000 in
  let c' :=
    call (Api.commands lib) (GW_PASSWORD_ENTER_REQ lib) fields userInput c in
  GW_PASSWORD_ENTER_REQ_encode lib (VObj fields) userInput = Ok (data, masked)
  /\ length data = 32%nat
  /\ Js.get masked "password" = VStr (stars (String.length p))
  /\ t_request <$> tasks c' !! length (tasks c) = Some request
  /\ (sessions c !! key = None -> busy c = false ->
      exists rest, events c' = events c ++ EvRequest request :: rest)
  /\ forall r, In (EvRequest r) (events (run (Api.commands lib) l c')) ->
               r_id r = requestId c + 1 -> r = request.
Proof.
  intros Hlib Hc Hun Hf Hp Hlt Hfit data masked request sid key c'.
  pose proof (call_password lib Hlib fields p userInput c Hf Hp) as Hcall.
  cbn zeta in Hcall. fold c' in Hcall.
  rewrite (replace_dot_star_stars p Hlt), (write_padded p Hfit) in Hcall.
  fold data masked request sid key in Hcall.
  set (t := {| t_command := GW_PASSWORD_ENTER_REQ lib; t_request := request;
               t_key := key; t_pc := WaitSlot; t_session := None |}) in Hcall.
  assert (t_request <$> tasks c' !! length (tasks c) = Some request) as Htask.
  { rewrite <- list_lookup_fmap. change (?f <$> ?x) with (map f x).
    rewrite Hcall, requests_resume. cbn [tasks set_tasks].
    rewrite map_app. change (map ?f ?x) with (f <$> x).
    rewrite lookup_app_r by (by rewrite length_fmap).
    by rewrite length_fmap, Nat.sub_diag. }
  split; [|split; [|split; [|split; [|split]]]].
  - rewrite (password_encode_fields lib Hlib fields p userInput Hf Hp).
    by rewrite (replace_dot_star_stars p Hlt), (write_padded p Hfit).
  - unfold data. rewrite length_app, repeat_length. lia.
  - apply lookup_assign.
  - exact Htask.
  - intros Hfree Hidle. rewrite Hcall. unfold resume.
    cbn [tasks set_tasks set_requestId].
    rewrite lookup_app_r, Nat.sub_diag by done.
    cbn [lookup list_lookup t_pc t t_key sessions set_tasks set_requestId].
    rewrite bool_decide_eq_false_2 by (rewrite Hfree; by intros [? ?]).
    cbn [busy update_task set_sessions set_tasks set_requestId].
    rewrite Hidle. unfold do_write. cbn [t_request t].
    destruct (frame _ _);
      cbn [events update_task set_tasks set_wire emit set_events set_busy
           set_sessions set_requestId];
      rewrite <- ?app_assoc; by eexists.
  - intros r Hr Hid.
    assert (reachable (Api.commands lib) c') as Hc'.
    { replace c' with (exec (Api.commands lib)
                         (Call (GW_PASSWORD_ENTER_REQ lib) fields userInput) c)
        by (unfold exec, andThen; by rewrite Hun).
      by constructor. }
    destruct (request_ids_reachable _ _ Hc) as [Hn _].
    destruct (tasks c' !! length (tasks c)) as [t'|] eqn:Ht'; [|done].
    injection Htask as <-.
    apply (emitted_by_id (Api.commands lib) l c' (length (tasks c)) t' r);
      try done.
    by rewrite <- Hn.
Qed.

Lemma password_is_masked_in_params_witness :
  let lib := RefLib.lib in
  let c := call registry GW_GET_VERSION_REQ [] false init in
  let fields := [("password", VStr "abc"); ("note", VStr "abc")] in
  let p := "abc"%string in
  let userInput := false in
  let l := [ Receive [0; 12; 0; 9; 0; 2; 0; 0; 71; 0; 5; 14; 3; 72];
             Resume 0; Resume 1 ] in
  let data :=
    Buffer.utf8_string p ++ repeat 0 (32 - length (Buffer.utf8_string p)) in
  let masked :=
    VObj (Js.assign fields "password" (VStr (stars (String.length p)))) in
  let request :=
    {| r_id := requestId c + 1; r_cmd := 0x3000;
       r_cmdName := "GW_PASSWORD_ENTER_REQ"; r_params := masked;
       r_data := Some data |} in
  let sid := Js.lookup fields "sessionId" in
  let key := if Js.not_null sid then "s" +:+ Js.to_string sid
             else pretty 0x3000 in
  let c' :=
    call (Api.commands lib) (GW_PASSWORD_ENTER_REQ lib) fields userInput c in
  GW_PASSWORD_ENTER_REQ_encode lib (VObj fields) userInput = Ok (data, masked)
  /\ length data = 32%nat
  /\ Js.get masked "password" = VStr (stars (String.length p))
  /\ t_request <$> tasks c' !! length (tasks c) = Some request
  /\ (sessions c !! key = None -> busy c = false ->
      exists rest, events c' = events c ++ EvRequest request :: rest)
  /\ forall r, In (EvRequest r) (events (run (Api.commands lib) l c')) ->
               r_id r = requestId c + 1 -> r = request.
Proof.
  intros lib c fields p userInput l.
  apply (password_is_masked_in_params lib c fields p userInput l).
  - exact refLib_accepts.
  - apply (reachable_exec registry (Call GW_GET_VERSION_REQ [] false) init).
    apply reachable_init.
  - reflexivity.
  - reflexivity.
  - discriminate.
  - reflexivity.
  - simpl. lia.
Defined.

(** The call of the witness waits until the version request has returned;
    its record then goes out on ['request'] with the masked password, the
    other parameters as they were, and the clear text in [data]. *)
Example password_request_after_a_wait :
  let c := run registry
             [ Call GW_GET_VERSION_REQ [] false;
               Call (GW_PASSWORD_ENTER_REQ RefLib.lib)
                 [("password", VStr "abc"); ("note", VStr "abc")] false;
               Receive [0; 12; 0; 9; 0; 2; 0; 0; 71; 0; 5; 14; 3; 72];
               Resume 0; Resume 1 ] init in
  requests_emitted c !! 1%nat
  = Some {| r_id := 2; r_cmd := 0x3000;
            r_cmdName := "GW_PASSWORD_ENTER_REQ";
            r_params := VObj [("password", VStr "***"); ("note", VStr "abc")];
            r_data := Some (Buffer.utf8_string "abc" ++ repeat 0 29) |}
  /\ length (requests_emitted c) = 2%nat
  /\ uncaught c = None.
Proof. vm_compute. done. Qed.

(** ** The client of [src/lib/VeluxClient.js] *)

Section FirstClient.

Import VeluxClient.

(** *** The table of commands *)

Lemma name_in_In (l : list (Z * string)) (cmd : Z) (name : string) :
  name_in l cmd = Some name -> In (cmd, name) l.
Proof.
  induction l as [|[id n] l IH]; [done|]. cbn [name_in].
  destruct (name_in l cmd) as [later|] eqn:E.
  - intros [= <-]. right. by apply IH.
  - destruct (id =? cmd) eqn:Hid; [|done].
    intros [= <-]. left. apply Z.eqb_eq in Hid. by subst.
Qed.

(** Every id of the table is a 16-bit number, and the name of a request
    with its last three characters replaced by [CFM] is the name of a
    confirmation with the same stem. *)
Lemma table_facts (cmd : Z) (name : string) :
  commandsById cmd = Some name ->
  0 <= cmd <= 0xFFFF
  /\ (Js.endsWith name "_REQ" = true ->
      Js.endsWith (slice_3 name +:+ "CFM") "_NTF" = false
      /\ Js.endsWith (slice_3 name +:+ "CFM") "_CFM" = true
      /\ slice_3 (slice_3 name +:+ "CFM") = slice_3 name).
Proof.
  intros H. apply name_in_In in H.
  assert (forallb
            (fun e : Z * string =>
               (0 <=? e.1) && (e.1 <=? 0xFFFF)
               && implb (Js.endsWith e.2 "_REQ")
                    (negb (Js.endsWith (slice_3 e.2 +:+ "CFM") "_NTF")
                     && Js.endsWith (slice_3 e.2 +:+ "CFM") "_CFM"
                     && String.eqb (slice_3 (slice_3 e.2 +:+ "CFM"))
                                   (slice_3 e.2)))
            commandsById_table = true) as Hall by (vm_compute; reflexivity).
  rewrite forallb_forall in Hall. specialize (Hall _ H). cbn [fst snd] in Hall.
  apply andb_prop in Hall as [Hrange Himp].
  apply andb_prop in Hrange as [Hlo Hhi].
  split; [lia|]. intros Hreq. rewrite Hreq in Himp. cbn [implb] in Himp.
  apply andb_prop in Himp as [Himp Heq].
  apply andb_prop in Himp as [Hntf Hcfm].
  apply negb_true_iff in Hntf. apply String.eqb_eq in Heq. done.
Qed.

(** *** Frames *)

Lemma frame_none (cmd : Z) : Client.frame cmd None = Client.frame cmd (Some []).
Proof. reflexivity. Qed.

Lemma frame_checks (body : list Z) :
  body !! 0%nat = Some 0 ->
  let buf := body ++ [Buffer.xor_all body] in
  bool_decide (buf !! 0%nat = Some protocolId) = true
  /\ bool_decide (buf !! (length buf - 1)%nat = Some (checksum_of buf)) = true.
Proof.
  intros H0 buf. unfold buf, checksum_of.
  assert (0 < length body)%nat by (by apply lookup_lt_Some in H0).
  split; apply bool_decide_eq_true_2.
  - by rewrite lookup_app_l by lia.
  - rewrite length_app. cbn [length].
    replace (length body + 1 - 1)%nat with (length body) by lia.
    rewrite take_app_length, lookup_app_r by lia.
    by rewrite Nat.sub_diag.
Qed.

(** *** One request *)

Variable lib : hb_lib_tools.

(** The state after [send] and the registration of its [once]. *)
Lemma send_waits (cmd : Z) (name : string) (data : option Buffer.t) :
  commandsById cmd = Some name -> Js.endsWith name "_REQ" = true ->
  from_option Buffer.wf True data ->
  (from_option (@length Z) 0 data <= 250)%nat ->
  exists buf,
    Client.frame cmd data = Ok buf
    /\ run lib [Send cmd data; Resume 0] init
       = {| requestId := 1;
            request := Some {| r_id := 1; r_cmd := cmd; r_cmdName := name;
                               r_resName := slice_3 name +:+ "CFM";
                               r_data := data |};
            calls := [Waiting (slice_3 name +:+ "CFM")];
            wire := [Slip.encode buf];
            events := [ EvRequest {| r_id := 1; r_cmd := cmd;
                                     r_cmdName := name;
                                     r_resName := slice_3 name +:+ "CFM";
                                     r_data := data |};
                        EvSend buf ];
            uncaught := None |}.
Proof.
  intros Hname Hreq Hwf Hlen.
  destruct (table_facts cmd name Hname) as [Hrange _].
  assert (exists buf, Client.frame cmd data = Ok buf) as [buf Hbuf].
  { destruct data as [p|]; [|rewrite frame_none];
      (rewrite frame_bytes;
       [by eexists|done|done || constructor|cbn in *; lia]). }
  exists buf. split; [done|].
  cbn [run fold_left exec uncaught init]. unfold send.
  cbn [requestId set_requestId init]. unfold new_VeluxRequest.
  rewrite Hname, Hreq. rewrite bool_decide_eq_false_2 by lia.
  cbn [emit set_request set_events events]. rewrite Hbuf.
  reflexivity.
Qed.

(** What [receive] does with a well-formed frame of a command of the
    table, after the ['data'] event. *)
Lemma receive_frame (cmd : Z) (cmdName : string) (payload : list Z)
    (c : client) :
  commandsById cmd = Some cmdName ->
  Buffer.wf payload -> (length payload <= 250)%nat ->
  receive (gateway_frame cmd payload) c
  = let c := emit (EvData (gateway_frame cmd payload)) c in
    if Js.endsWith cmdName "_NTF" then
      emit_named cmdName payload (emit (EvNotification cmd cmdName payload) c)
    else if Js.endsWith cmdName "_CFM" then
      match request c with
      | Some r =>
        if String.eqb (slice_3 (r_cmdName r)) (slice_3 cmdName) then
          emit_named cmdName payload
            (emit (EvResponse r cmd cmdName payload) c)
        else emit_error (UnexpectedCommand cmd cmdName) c
      | None => emit_error (UnexpectedCommand cmd cmdName) c
      end
    else emit_error (UnexpectedCommand cmd cmdName) c.
Proof.
  intros Hname Hwf Hlen.
  destruct (table_facts cmd cmdName Hname) as [Hrange _].
  rewrite gateway_frame_bytes by done.
  match goal with
  | |- context [receive (?b ++ [Buffer.xor_all ?b])] =>
    destruct (frame_checks b eq_refl) as [H0 Hsum]
  end.
  unfold receive. rewrite H0, Hsum. cbn [negb].
  match goal with
  | |- context [Buffer.readUInt16BE (([0; ?l; ?hi; ?lo] ++ ?p) ++ [?x]) 2] =>
    destruct (frame_parts l hi lo x p) as [-> ->]
  end.
  replace (cmd / 256 * 2 ^ 8 + cmd mod 256) with cmd
    by (pose proof (Z.div_mod cmd 256); lia).
  by rewrite Hname.
Qed.

(** One call of [send] with a request command of the table. *)
Lemma send_step (cmd : Z) (name : string) (data : option Buffer.t)
    (c : client) :
  commandsById cmd = Some name -> Js.endsWith name "_REQ" = true ->
  from_option Buffer.wf True data ->
  (from_option (@length Z) 0 data <= 250)%nat ->
  uncaught c = None ->
  exists buf,
    Client.frame cmd data = Ok buf
    /\ exec lib (Send cmd data) c
       = let r := {| r_id := requestId c + 1; r_cmd := cmd;
                     r_cmdName := name;
                     r_resName := slice_3 name +:+ "CFM";
                     r_data := data |} in
         {| requestId := requestId c + 1; request := Some r;
            calls := calls c ++ [Written];
            wire := wire c ++ [Slip.encode buf];
            events := events c ++ [EvRequest r; EvSend buf];
            uncaught := None |}.
Proof.
  intros Hname Hreq Hwf Hlen Hun.
  destruct (table_facts cmd name Hname) as [Hrange _].
  assert (exists buf, Client.frame cmd data = Ok buf) as [buf Hbuf].
  { destruct data as [p|]; [|rewrite frame_none];
      (rewrite frame_bytes;
       [by eexists|done|done || constructor|cbn in *; lia]). }
  exists buf. split; [done|].
  unfold exec. rewrite Hun. unfold send.
  cbn [requestId set_requestId]. unfold new_VeluxRequest.
  rewrite Hname, Hreq. rewrite bool_decide_eq_false_2 by lia.
  cbn [emit set_request set_events events]. rewrite Hbuf.
  destruct c; cbn in *; subst.
  unfold set_calls, set_wire, emit, set_events. cbn.
  by rewrite <- app_assoc.
Qed.

End FirstClient.

(** A request of the first client gets the payload of its confirmation:
    for every request command of the table whose confirmation is in the
    table too, [send] writes one frame, and when the gateway answers with
    the confirmation, the call returns exactly the payload of that frame
    and [_request] is cleared. *)
Theorem confirmation_is_returned_to_its_request
    (lib : hb_lib_tools) (cmd cfm : Z) (name : string)
    (data : option Buffer.t) (payload : list Z) :
  VeluxClient.commandsById cmd = Some name ->
  Js.endsWith name "_REQ" = true ->
  VeluxClient.commandsById cfm
  = Some (VeluxClient.slice_3 name +:+ "CFM") ->
  from_option Buffer.wf True data ->
  (from_option (@length Z) 0 data <= 250)%nat ->
  Buffer.wf payload -> (length payload <= 250)%nat ->
  let c :=
    VeluxClient.run lib
      [ VeluxClient.Send cmd data; VeluxClient.Resume 0;
        VeluxClient.Receive (gateway_frame cfm payload);
        VeluxClient.Resume 0 ] VeluxClient.init in
  VeluxClient.calls c = [VeluxClient.Returned payload]
  /\ VeluxClient.request c = None
  /\ VeluxClient.uncaught c = None
  /\ exists buf,
      Client.frame cmd data = Ok buf
      /\ VeluxClient.wire c = [Slip.encode buf].
Proof.
  intros Hname Hreq Hcfm Hwf Hlen Hpwf Hplen c.
  destruct (send_waits lib cmd name data Hname Hreq Hwf Hlen)
    as (buf & Hbuf & Hwait).
  destruct (table_facts cmd name Hname) as [_ Hres].
  destruct (Hres Hreq) as (Hntf & Hcfmname & Hslice).
  assert (c = VeluxClient.run lib
                [ VeluxClient.Receive (gateway_frame cfm payload);
                  VeluxClient.Resume 0 ]
                (VeluxClient.run lib
                   [VeluxClient.Send cmd data; VeluxClient.Resume 0]
                   VeluxClient.init)) as Hc by reflexivity.
  clearbody c. rewrite Hwait in Hc.
  cbn [VeluxClient.run fold_left] in Hc. unfold VeluxClient.exec at 2 in Hc.
  cbn [VeluxClient.uncaught] in Hc.
  rewrite (receive_frame cfm _ payload _ Hcfm Hpwf Hplen) in Hc.
  cbn zeta in Hc. rewrite Hntf, Hcfmname in Hc.
  cbn [VeluxClient.request VeluxClient.emit VeluxClient.set_events
       VeluxClient.r_cmdName] in Hc.
  rewrite Hslice, String.eqb_refl in Hc.
  unfold VeluxClient.emit_named in Hc.
  cbn [VeluxClient.calls VeluxClient.emit VeluxClient.set_events
       VeluxClient.set_calls map] in Hc.
  rewrite String.eqb_refl in Hc.
  subst c.
  cbn. do 3 (split; [done|]). by exists buf.
Qed.

Lemma confirmation_is_returned_to_its_request_witness :
  let payload := [0; 2; 0; 0; 71; 0; 5; 14; 3] in
  let c :=
    VeluxClient.run RefLib.lib
      [ VeluxClient.Send 0x0008 None; VeluxClient.Resume 0;
        VeluxClient.Receive (gateway_frame 0x0009 payload);
        VeluxClient.Resume 0 ] VeluxClient.init in
  VeluxClient.calls c = [VeluxClient.Returned payload]
  /\ VeluxClient.request c = None
  /\ VeluxClient.uncaught c = None
  /\ exists buf,
      Client.frame 0x0008 None = Ok buf
      /\ VeluxClient.wire c = [Slip.encode buf].
Proof.
  intros payload.
  apply (confirmation_is_returned_to_its_request RefLib.lib 0x0008 0x0009
           "GW_GET_VERSION_REQ" None payload);
    first [reflexivity | exact I | simpl; lia | repeat constructor; lia].
Defined.

(** A frame with a wrong checksum is dropped, and it fails the request
    that is waiting for its confirmation: the ['error'] event rejects the
    pending [once], [send] throws the checksum error, and [_request] stays
    set. *)
Theorem corrupted_frame_fails_the_pending_request
    (lib : hb_lib_tools) (cmd : Z) (name : string) (data : option Buffer.t)
    (buf : list Z) :
  VeluxClient.commandsById cmd = Some name ->
  Js.endsWith name "_REQ" = true ->
  from_option Buffer.wf True data ->
  (from_option (@length Z) 0 data <= 250)%nat ->
  buf !! 0%nat = Some 0 ->
  buf !! (length buf - 1)%nat <> Some (checksum_of buf) ->
  let c :=
    VeluxClient.run lib
      [ VeluxClient.Send cmd data; VeluxClient.Resume 0;
        VeluxClient.Receive buf; VeluxClient.Resume 0 ] VeluxClient.init in
  let error :=
    VeluxClient.InvalidChecksum (buf !! (length buf - 1)%nat)
      (checksum_of buf) in
  VeluxClient.calls c = [VeluxClient.Threw (VeluxClient.VeluxError error)]
  /\ (VeluxClient.r_cmd <$> VeluxClient.request c) = Some cmd
  /\ VeluxClient.uncaught c = None
  /\ exists before,
      VeluxClient.events c
      = before ++ [VeluxClient.EvData buf; VeluxClient.EvError error].
Proof.
  intros Hname Hreq Hwf Hlen H0 Hsum c error.
  destruct (send_waits lib cmd name data Hname Hreq Hwf Hlen)
    as (frame & Hframe & Hwait).
  assert (c = VeluxClient.run lib
                [VeluxClient.Receive buf; VeluxClient.Resume 0]
                (VeluxClient.run lib
                   [VeluxClient.Send cmd data; VeluxClient.Resume 0]
                   VeluxClient.init)) as Hc by reflexivity.
  clearbody c. rewrite Hwait in Hc.
  cbn [VeluxClient.run fold_left] in Hc. unfold VeluxClient.exec at 2 in Hc.
  cbn [VeluxClient.uncaught] in Hc.
  unfold VeluxClient.receive in Hc. change protocolId with 0 in Hc.
  rewrite (bool_decide_eq_true_2 _ H0) in Hc.
  rewrite (bool_decide_eq_false_2 _ Hsum) in Hc.
  cbn [negb] in Hc. subst c. cbn.
  do 3 (split; [done|]). by eexists [_; _].
Qed.

Lemma corrupted_frame_fails_the_pending_request_witness :
  let buf := [0; 3; 0; 9; 0] in
  let c :=
    VeluxClient.run RefLib.lib
      [ VeluxClient.Send 0x0008 None; VeluxClient.Resume 0;
        VeluxClient.Receive buf; VeluxClient.Resume 0 ] VeluxClient.init in
  let error :=
    VeluxClient.InvalidChecksum (buf !! (length buf - 1)%nat)
      (checksum_of buf) in
  VeluxClient.calls c = [VeluxClient.Threw (VeluxClient.VeluxError error)]
  /\ (VeluxClient.r_cmd <$> VeluxClient.request c) = Some 0x0008
  /\ VeluxClient.uncaught c = None
  /\ exists before,
      VeluxClient.events c
      = before ++ [VeluxClient.EvData buf; VeluxClient.EvError error].
Proof.
  intros buf.
  apply (corrupted_frame_fails_the_pending_request RefLib.lib 0x0008
           "GW_GET_VERSION_REQ" None buf);
    first [reflexivity | exact I | simpl; lia | discriminate].
Defined.

(** Two requests that overlap: the second [send] replaces [_request]
    before the first one has registered its [once], so both wait for the
    confirmation of the second.  When the confirmation of the first
    arrives it does not match [_request]: it is reported as an unexpected
    command, and that ['error'] event makes both calls throw. *)
Theorem overlapping_requests_fail_together
    (lib : hb_lib_tools) (a b cfm : Z) (nameA nameB : string)
    (payload : list Z) :
  VeluxClient.commandsById a = Some nameA ->
  Js.endsWith nameA "_REQ" = true ->
  VeluxClient.commandsById b = Some nameB ->
  Js.endsWith nameB "_REQ" = true ->
  VeluxClient.slice_3 nameB <> VeluxClient.slice_3 nameA ->
  VeluxClient.commandsById cfm
  = Some (VeluxClient.slice_3 nameA +:+ "CFM") ->
  Buffer.wf payload -> (length payload <= 250)%nat ->
  let c1 :=
    VeluxClient.run lib
      [ VeluxClient.Send a None; VeluxClient.Send b None;
        VeluxClient.Resume 0; VeluxClient.Resume 1 ] VeluxClient.init in
  let c2 :=
    VeluxClient.run lib
      [ VeluxClient.Receive (gateway_frame cfm payload);
        VeluxClient.Resume 0; VeluxClient.Resume 1 ] c1 in
  let error :=
    VeluxClient.VeluxError
      (VeluxClient.UnexpectedCommand cfm
         (VeluxClient.slice_3 nameA +:+ "CFM")) in
  VeluxClient.calls c1
  = [ VeluxClient.Waiting (VeluxClient.slice_3 nameB +:+ "CFM");
      VeluxClient.Waiting (VeluxClient.slice_3 nameB +:+ "CFM") ]
  /\ VeluxClient.calls c2
     = [VeluxClient.Threw error; VeluxClient.Threw error]
  /\ VeluxClient.uncaught c2 = None.
Proof.
  intros HnameA HreqA HnameB HreqB Hne Hcfm Hpwf Hplen c1 c2 error.
  destruct (send_step lib a nameA None VeluxClient.init HnameA HreqA I)
    as (bufA & _ & HA); [simpl; lia|done|].
  destruct (table_facts a nameA HnameA) as [_ HresA].
  destruct (HresA HreqA) as (Hntf & Hcfmname & Hslice).
  match type of HA with _ = ?s =>
    destruct (send_step lib b nameB None s HnameB HreqB I)
      as (bufB & _ & HB); [simpl; lia|done|]
  end.
  assert (exists evs,
            c1 = {| VeluxClient.requestId := 2;
                    VeluxClient.request :=
                      Some {| VeluxClient.r_id := 2; VeluxClient.r_cmd := b;
                              VeluxClient.r_cmdName := nameB;
                              VeluxClient.r_resName :=
                                VeluxClient.slice_3 nameB +:+ "CFM";
                              VeluxClient.r_data := None |};
                    VeluxClient.calls :=
                      [ VeluxClient.Waiting
                          (VeluxClient.slice_3 nameB +:+ "CFM");
                        VeluxClient.Waiting
                          (VeluxClient.slice_3 nameB +:+ "CFM") ];
                    VeluxClient.wire := [Slip.encode bufA; Slip.encode bufB];
                    VeluxClient.events := evs;
                    VeluxClient.uncaught := None |}) as [evs Hc1].
  { eexists. unfold c1. cbn [VeluxClient.run fold_left].
    rewrite HA. cbn zeta. cbn zeta in HB. rewrite HB. reflexivity. }
  clearbody c1. subst c1.
  split; [done|].
  assert (c2 = VeluxClient.run lib
                 [ VeluxClient.Receive (gateway_frame cfm payload);
                   VeluxClient.Resume 0; VeluxClient.Resume 1 ]
                 {| VeluxClient.requestId := 2;
                    VeluxClient.request :=
                      Some {| VeluxClient.r_id := 2; VeluxClient.r_cmd := b;
                              VeluxClient.r_cmdName := nameB;
                              VeluxClient.r_resName :=
                                VeluxClient.slice_3 nameB +:+ "CFM";
                              VeluxClient.r_data := None |};
                    VeluxClient.calls :=
                      [ VeluxClient.Waiting
                          (VeluxClient.slice_3 nameB +:+ "CFM");
                        VeluxClient.Waiting
                          (VeluxClient.slice_3 nameB +:+ "CFM") ];
                    VeluxClient.wire := [Slip.encode bufA; Slip.encode bufB];
                    VeluxClient.events := evs;
                    VeluxClient.uncaught := None |}) as Hc2 by reflexivity.
  clearbody c2.
  cbn [VeluxClient.run fold_left] in Hc2.
  unfold VeluxClient.exec at 3 in Hc2. cbn [VeluxClient.uncaught] in Hc2.
  rewrite (receive_frame cfm _ payload _ Hcfm Hpwf Hplen) in Hc2.
  cbn zeta in Hc2. rewrite Hntf, Hcfmname in Hc2.
  cbn [VeluxClient.request VeluxClient.emit VeluxClient.set_events
       VeluxClient.r_cmdName] in Hc2.
  rewrite Hslice in Hc2.
  rewrite (proj2 (String.eqb_neq _ _) Hne) in Hc2.
  subst c2. cbn. done.
Qed.

Lemma overlapping_requests_fail_together_witness :
  let payload := [0; 2; 0; 0; 71; 0; 5; 14; 3] in
  let c1 :=
    VeluxClient.run RefLib.lib
      [ VeluxClient.Send 0x0008 None; VeluxClient.Send 0x000C None;
        VeluxClient.Resume 0; VeluxClient.Resume 1 ] VeluxClient.init in
  let c2 :=
    VeluxClient.run RefLib.lib
      [ VeluxClient.Receive (gateway_frame 0x0009 payload);
        VeluxClient.Resume 0; VeluxClient.Resume 1 ] c1 in
  let error :=
    VeluxClient.VeluxError
      (VeluxClient.UnexpectedCommand 0x0009
         (VeluxClient.slice_3 "GW_GET_VERSION_REQ" +:+ "CFM")) in
  VeluxClient.calls c1
  = [ VeluxClient.Waiting (VeluxClient.slice_3 "GW_GET_STATE_REQ" +:+ "CFM");
      VeluxClient.Waiting (VeluxClient.slice_3 "GW_GET_STATE_REQ" +:+ "CFM") ]
  /\ VeluxClient.calls c2
     = [VeluxClient.Threw error; VeluxClient.Threw error]
  /\ VeluxClient.uncaught c2 = None.
Proof.
  intros payload.
  apply (overlapping_requests_fail_together RefLib.lib 0x0008 0x000C 0x0009
           "GW_GET_VERSION_REQ" "GW_GET_STATE_REQ" payload);
    first [reflexivity | discriminate | simpl; lia
          | repeat constructor; lia].
Defined.

Section FirstClientCodecs.

Import VeluxClient.

(** The reverse table [commands] inverts [commandsById]: no two ids of
    the table share a name. *)
Lemma commands_inverts_commandsById :
  Forall (fun e : Z * string =>
            commandsById e.1 = Some e.2 /\ commands e.2 = Some e.1)
         commandsById_table.
Proof.
  apply Forall_forall. intros e He.
  assert (forallb
            (fun e : Z * string =>
               match commandsById e.1, commands e.2 with
               | Some n, Some i => String.eqb n e.2 && (i =? e.1)
               | _, _ => false
               end) commandsById_table = true) as Hall
    by (vm_compute; reflexivity).
  rewrite forallb_forall in Hall. apply list_elem_of_In in He.
  specialize (Hall e He).
  destruct (commandsById e.1) as [n|]; [|done].
  destruct (commands e.2) as [i|]; [|done].
  apply andb_prop in Hall as [Hn Hi].
  apply String.eqb_eq in Hn. apply Z.eqb_eq in Hi. by subst.
Qed.

Variable lib : hb_lib_tools.

(** *** Request ids *)

Lemma first_request_ids_exec (a : action) (c : client) :
  requestId c = Z.of_nat (length (calls c)) ->
  requestId (exec lib a c) = Z.of_nat (length (calls (exec lib a c))).
Proof.
  intros H. unfold exec. destruct (uncaught c); [done|].
  destruct a as [cmd data|i|buf].
  - unfold send. cbn [requestId set_requestId].
    destruct (new_VeluxRequest lib (requestId c + 1) cmd data) as [r|e].
    + cbn [emit set_request set_events events].
      destruct (Client.frame cmd data);
        cbn [requestId calls set_calls set_wire set_events set_request
             set_requestId emit];
        rewrite length_app; cbn [length]; lia.
    + cbn [requestId calls set_calls set_requestId].
      rewrite length_app. cbn [length]. lia.
  - unfold resume.
    destruct (calls c !! i) as [[]|]; try done;
      try destruct (request c);
      cbn [requestId calls set_calls set_request];
      by rewrite length_insert.
  - unfold receive, emit_error, emit_named.
    repeat case_match;
      cbn [requestId calls set_calls set_events set_uncaught emit events];
      by rewrite ?length_map.
Qed.

(** *** The listener of the system table *)

Lemma first_entry_fields (data : list Z) (i : nat) :
  (11 * i + 11 < length data)%nat -> (17 < length data)%nat ->
  exists entry,
    systemtable_entry lib data i = Ok entry
    /\ Js.get entry "index" = VNum (data !!! (11 * i + 1)%nat)
    /\ Js.get entry "actuatorType"
       = let actuatorType := data !!! 16%nat * 2 ^ 8 + data !!! 17%nat in
         VObj [ ("_raw", VStr (toHexString lib actuatorType 4));
                ("type", VNum (Z.shiftr (Z.land actuatorType 0xFFC0) 6));
                ("subtype", VNum (Z.land actuatorType 0x3F)) ].
Proof.
  intros Hi H17. unfold systemtable_entry, Buffer.readUInt16BE.
  rewrite !readUInt8_total by lia.
  change (11 * 1 + 5)%nat with 16%nat.
  rewrite (list_lookup_lookup_total_lt data 16) by lia.
  rewrite (list_lookup_lookup_total_lt data 17) by lia.
  eexists. split; [reflexivity|]. split; reflexivity.
Qed.

Lemma first_loop_entries (data : list Z) (count : nat) :
  forall (i : nat) (response : list value),
    (11 * (i + count) + 2 <= length data)%nat -> (17 < length data)%nat ->
    exists entries,
      systemtable_loop lib data i count response = Ok (response ++ entries)
      /\ length entries = count
      /\ forall j entry,
          entries !! j = Some entry ->
          Js.get entry "index" = VNum (data !!! (11 * (i + j) + 1)%nat)
          /\ Js.get entry "actuatorType"
             = let actuatorType :=
                 data !!! 16%nat * 2 ^ 8 + data !!! 17%nat in
               VObj [ ("_raw", VStr (toHexString lib actuatorType 4));
                      ("type",
                       VNum (Z.shiftr (Z.land actuatorType 0xFFC0) 6));
                      ("subtype", VNum (Z.land actuatorType 0x3F)) ].
Proof.
  induction count as [|count IH]; intros i response Hlen H17.
  - exists []. cbn. by rewrite app_nil_r.
  - cbn [systemtable_loop].
    destruct (first_entry_fields data i) as (entry & -> & Hindex & Htype);
      [lia|lia|].
    cbn [mbind except_bind].
    destruct (IH (S i) (response ++ [entry])) as (entries & -> & Hn & Hall);
      [lia|lia|].
    exists (entry :: entries). split; [by rewrite <- app_assoc|].
    split; [cbn; lia|].
    intros [|j] e He; cbn in He.
    + injection He as <-. by rewrite Nat.add_0_r.
    + replace (i + S j)%nat with (S i + j)%nat by lia. by apply Hall.
Qed.

End FirstClientCodecs.

(** ** The first client and the registry of [VeluxApi.js] *)

(** Every call of [send] of the first client takes a request id, also a
    call that throws before anything is written: after any sequence of
    calls, frames and continuations the counter is the number of calls
    made. *)
Theorem first_client_counts_every_send
    (lib : hb_lib_tools) (l : list VeluxClient.action) :
  let c := VeluxClient.run lib l VeluxClient.init in
  VeluxClient.requestId c = Z.of_nat (length (VeluxClient.calls c)).
Proof.
  cbn zeta. unfold VeluxClient.run.
  assert (forall c,
             VeluxClient.requestId c = Z.of_nat (length (VeluxClient.calls c)) ->
             VeluxClient.requestId
               (fold_left (fun c a => VeluxClient.exec lib a c) l c)
             = Z.of_nat
                 (length
                    (VeluxClient.calls
                       (fold_left (fun c a => VeluxClient.exec lib a c) l c))))
    as H.
  { induction l as [|a l IH]; intros c Hc; [done|].
    cbn [fold_left]. apply IH. by apply first_request_ids_exec. }
  by apply H.
Qed.

(** The listener that [gwCsGetSystemtableData] installs: a notification
    with two or more entries gives as many entries, appended in order to
    the response; each has the index of its own 11-byte record, and all of
    them the actuator type read at the bytes 16 and 17, those of the second
    record.  The end of the table is signalled when the byte after the last
    record is zero. *)
Theorem first_client_entries_share_actuator_type
    (lib : hb_lib_tools) (data : list Z) (n : nat) (response : list value) :
  (2 <= n)%nat -> data !! 0%nat = Some (Z.of_nat n) ->
  length data = (2 + 11 * n)%nat ->
  exists entries,
    VeluxClient.systemtable_listener lib data response
    = Ok (response ++ entries, data !!! (11 * n + 1)%nat =? 0)
    /\ length entries = n
    /\ forall i entry,
        entries !! i = Some entry ->
        Js.get entry "index" = VNum (data !!! (11 * i + 1)%nat)
        /\ Js.get entry "actuatorType"
           = let actuatorType := data !!! 16%nat * 2 ^ 8 + data !!! 17%nat in
             VObj [ ("_raw", VStr (toHexString lib actuatorType 4));
                    ("type", VNum (Z.shiftr (Z.land actuatorType 0xFFC0) 6));
                    ("subtype", VNum (Z.land actuatorType 0x3F)) ].
Proof.
  intros Hn H0 Hlen. unfold VeluxClient.systemtable_listener.
  rewrite (readUInt8_lookup _ _ _ H0). cbn [mbind except_bind].
  rewrite Nat2Z.id.
  destruct (first_loop_entries lib data n 0 response)
    as (entries & -> & Hcount & Hall); [lia|lia|].
  cbn [mbind except_bind].
  rewrite readUInt8_total by lia.
  exists entries. cbn [mbind except_bind].
  replace (n * 11 + 1)%nat with (11 * n + 1)%nat by lia.
  done.
Qed.

Lemma first_client_entries_share_actuator_type_witness :
  let data := [2; 7; 1; 2; 3; 0x01; 0x01; 5; 1; 0; 0; 0;
                  9; 1; 2; 3; 0x00; 0x80; 6; 2; 0; 0; 0; 0] in
  exists entries,
    VeluxClient.systemtable_listener RefLib.lib data []
    = Ok ([] ++ entries, data !!! (11 * 2 + 1)%nat =? 0)
    /\ length entries = 2%nat
    /\ forall i entry,
        entries !! i = Some entry ->
        Js.get entry "index" = VNum (data !!! (11 * i + 1)%nat)
        /\ Js.get entry "actuatorType"
           = let actuatorType := data !!! 16%nat * 2 ^ 8 + data !!! 17%nat in
             VObj [ ("_raw", VStr (toHexString RefLib.lib actuatorType 4));
                    ("type", VNum (Z.shiftr (Z.land actuatorType 0xFFC0) 6));
                    ("subtype", VNum (Z.land actuatorType 0x3F)) ].
Proof.
  intros data.
  apply (first_client_entries_share_actuator_type RefLib.lib data 2 []);
    first [reflexivity | lia].
Defined.

(** With exactly one entry the listener throws: the 13 bytes end before
    the offset 16 at which it reads the actuator type. *)
Theorem first_client_single_entry_throws
    (lib : hb_lib_tools) (data : list Z) (response : list value) :
  data !! 0%nat = Some 1 -> length data = 13%nat ->
  VeluxClient.systemtable_listener lib data response
  = Throw (RangeError "ERR_OUT_OF_RANGE").
Proof.
  intros H0 Hlen. unfold VeluxClient.systemtable_listener.
  rewrite (readUInt8_lookup _ _ _ H0). cbn [mbind except_bind].
  change (Z.to_nat 1) with 1%nat.
  cbn [VeluxClient.systemtable_loop]. unfold VeluxClient.systemtable_entry.
  rewrite !readUInt8_total by (rewrite Hlen; lia).
  cbn [mbind except_bind]. unfold Buffer.readUInt16BE.
  change (11 * 1 + 5)%nat with 16%nat.
  by rewrite (lookup_ge_None_2 data 16) by lia.
Qed.

Lemma first_client_single_entry_throws_witness :
  VeluxClient.systemtable_listener RefLib.lib
    [1; 7; 1; 2; 3; 0x01; 0x01; 5; 1; 0; 0; 0; 0] []
  = Throw (RangeError "ERR_OUT_OF_RANGE").
Proof.
  apply (first_client_single_entry_throws RefLib.lib
           [1; 7; 1; 2; 3; 0x01; 0x01; 5; 1; 0; 0; 0; 0] []);
    reflexivity.
Defined.

(** The two decoders of the version confirmation: on the nine bytes of a
    confirmation both succeed and agree on the hardware version, the
    product group and the product type, but [gwGetVersion] of the first
    client forms the software version from the bytes 0 to 5, and the
    decoder of the registry from the bytes 1 to 4. *)
Theorem the_two_version_decoders (data : list Z) :
  length data = 9%nat ->
  exists rest,
    VeluxClient.gwGetVersion_result data
    = Ok (VObj (("softwareVersion", VStr (join_dot (take 6 data))) :: rest))
    /\ GW_GET_VERSION_CFM_decode data
       = Ok (VObj (("softwareVersion",
                    VStr (join_dot (take 4 (drop 1 data)))) :: rest)).
Proof.
  intros Hlen.
  do 9 (destruct data as [|? data]; [discriminate|]).
  destruct data; [|discriminate].
  eexists. split; reflexivity.
Qed.

Lemma the_two_version_decoders_witness :
  let data := [0; 2; 0; 0; 71; 0; 5; 14; 3] in
  exists rest,
    VeluxClient.gwGetVersion_result data
    = Ok (VObj (("softwareVersion", VStr (join_dot (take 6 data))) :: rest))
    /\ GW_GET_VERSION_CFM_decode data
       = Ok (VObj (("softwareVersion",
                    VStr (join_dot (take 4 (drop 1 data)))) :: rest)).
Proof.
  intros data. apply (the_two_version_decoders data). reflexivity.
Defined.
